(** * Aarhus workforce forecast: the forecasting-and-reliability engine

    A shallow embedding of [notebooks/forecast-script.py]:
    [generate_forecast_table] (trend fit, uncertainty band, row assembly) and
    [assess_forecast_reliability] (relative uncertainty and reliability tier),
    then [load_data] (derived columns), [plot_forecasts] (what each figure
    shows and where the loop stops) and [main] (the files written by a run).

    Numbers.  Python floats are modelled by [npfloat]: an exact rational, or
    one of the three special values +inf, -inf, NaN that the script creates or
    meets ([np.inf] for the coefficient of variation, [np.nan] for MAPE, the
    quotients x/0 and 0/0 of a pandas column division).  Arithmetic on finite
    values is exact: binary64 rounding error and overflow are outside the
    model.  Where the exact value of a quantity sits on a rounding tie (a
    half-integer before [round], a decimal tie before [round(x, n)]), the
    binary64 value the script rounds may sit on either side of it, and the
    stored digit may differ from the model's by one unit in the last place.
    The statements about stored values therefore go through the operations by
    name ([fit], [predict], [py_round], [npf_div], [np_round]) or give bounds
    that hold on both sides of a tie.  The square root ([np.sqrt], also inside
    [np.std]) is a parameter of the development; no property below depends on
    more than its sign.

    Library calls are modelled by their documented behaviour:
    [LinearRegression] (centred least squares, minimum-norm solution),
    [r2_score], [np.select], [DataFrame.sort_values], Python's [min], [max],
    [round] and [range]. *)

From Stdlib Require Import ZArith QArith Qround Qabs Qminmax List String Ascii Bool.
From Stdlib Require Import Lia Lqa Permutation Sorted OrdersEx.
Import ListNotations.

Local Open Scope Z_scope.

(** ** Python exceptions and the error monad *)

Inductive pyerror : Type :=
| KeyError (key : string)
| ValueError
| TypeError.

Inductive result (A : Type) : Type :=
| Ok (a : A)
| Raise (e : pyerror).

Arguments Ok {A} a.
Arguments Raise {A} e.

Definition bind {A B} (c : result A) (k : A -> result B) : result B :=
  match c with
  | Ok a => k a
  | Raise e => Raise e
  end.

Notation "x <- c ;; k" := (bind c (fun x => k))
  (at level 61, c at next level, right associativity).

(** A [for] loop whose body may raise: the first exception ends the loop. *)
Fixpoint for_each {A B} (body : A -> result B) (l : list A) : result (list B) :=
  match l with
  | [] => Ok []
  | a :: l' => b <- body a ;; bs <- for_each body l' ;; Ok (b :: bs)
  end.

(** ** Floating-point values *)

Inductive npfloat : Type :=
| Fin (q : Q)
| PosInf
| NegInf
| NaN.

Definition Qlt_bool (a b : Q) : bool := negb (Qle_bool b a).

(** [x <= y]; every comparison with NaN is false. *)
Definition npf_leb (x y : npfloat) : bool :=
  match x, y with
  | NaN, _ | _, NaN => false
  | NegInf, _ => true
  | _, PosInf => true
  | Fin a, Fin b => Qle_bool a b
  | _, _ => false
  end.

Definition npf_geb (x y : npfloat) : bool := npf_leb y x.

(** [x > y]; false when either side is NaN. *)
Definition npf_gtb (x y : npfloat) : bool :=
  match x, y with
  | NaN, _ | _, NaN => false
  | Fin a, Fin b => Qlt_bool b a
  | PosInf, PosInf => false
  | PosInf, _ => true
  | NegInf, _ => false
  | Fin _, NegInf => true
  | Fin _, PosInf => false
  end.

Definition Qsign (q : Q) : comparison := (q ?= 0)%Q.

(** IEEE division (signed zeros apart): x/0 is an infinity of the sign of x,
    0/0 is NaN. *)
Definition npf_div (x y : npfloat) : npfloat :=
  match x, y with
  | NaN, _ | _, NaN => NaN
  | Fin a, Fin b =>
      match Qsign b with
      | Eq => match Qsign a with Eq => NaN | Gt => PosInf | Lt => NegInf end
      | _ => Fin (a / b)
      end
  | Fin _, _ => Fin 0
  | PosInf, Fin b => match Qsign b with Lt => NegInf | _ => PosInf end
  | NegInf, Fin b => match Qsign b with Lt => PosInf | _ => NegInf end
  | _, _ => NaN
  end.

Definition npf_mul (x y : npfloat) : npfloat :=
  match x, y with
  | NaN, _ | _, NaN => NaN
  | Fin a, Fin b => Fin (a * b)
  | Fin a, PosInf | PosInf, Fin a =>
      match Qsign a with Eq => NaN | Gt => PosInf | Lt => NegInf end
  | Fin a, NegInf | NegInf, Fin a =>
      match Qsign a with Eq => NaN | Gt => NegInf | Lt => PosInf end
  | PosInf, PosInf | NegInf, NegInf => PosInf
  | PosInf, NegInf | NegInf, PosInf => NegInf
  end.

Definition of_int (z : Z) : npfloat := Fin (inject_Z z).

(** ** Rounding *)

(** Python's [round(x)]: nearest integer, ties to the even one. *)
Definition py_round (x : Q) : Z :=
  let f := Qfloor x in
  match (x - inject_Z f ?= 1 # 2)%Q with
  | Lt => f
  | Gt => f + 1
  | Eq => if Z.even f then f else f + 1
  end.

Definition pow10 (ndigits : nat) : positive := Z.to_pos (10 ^ Z.of_nat ndigits).

(** [round(x, ndigits)] on a finite value, taken exactly: the script rounds
    the binary64 value, which differs at an exact decimal tie. *)
Definition round_nd (ndigits : nat) (x : Q) : Q :=
  Qmake (py_round (x * inject_Z (Zpos (pow10 ndigits)))) (pow10 ndigits).

(** [round(x, ndigits)] and [Series.round(ndigits)] on a float: infinities and
    NaN are returned unchanged. *)
Definition np_round (ndigits : nat) (x : npfloat) : npfloat :=
  match x with
  | Fin q => Fin (round_nd ndigits q)
  | other => other
  end.

(** ** Python's [min], [max] and [range] *)

(** [min(a, b)] keeps [a] unless [b < a]. *)
Definition py_min (a b : Q) : Q := if Qlt_bool b a then b else a.

(** [max(a, b)] keeps [a] unless [b > a]. *)
Definition py_max (a b : Q) : Q := if Qlt_bool a b then b else a.

(** [range(start, stop)]. *)
Definition py_range (start stop : Z) : list Z :=
  map (fun i => start + Z.of_nat i) (seq 0 (Z.to_nat (stop - start))).

(** [enumerate(l)], with indices as Python ints. *)
Definition enumerate {A} (l : list A) : list (Z * A) :=
  combine (map Z.of_nat (seq 0 (List.length l))) l.

(** ** numpy reductions on finite arrays *)

Definition np_sum (l : list Q) : Q := fold_right Qplus 0%Q l.

Definition np_mean (l : list Q) : Q :=
  (np_sum l / inject_Z (Z.of_nat (List.length l)))%Q.

(** ** Historical data *)

(** A pandas DataFrame with an integer [Year] column and named value columns;
    a missing value (null) is [None]. *)
Record DataFrame : Type := {
  df_Year : list Z;
  df_columns : list (string * list (option Q))
}.

Fixpoint lookup {V} (key : string) (d : list (string * V)) : option V :=
  match d with
  | [] => None
  | (k, v) :: d' => if String.eqb key k then Some v else lookup key d'
  end.

(** [d[key]] on a dict or a DataFrame. *)
Definition getitem {V} (d : list (string * V)) (key : string) : result V :=
  match lookup key d with
  | Some v => Ok v
  | None => Raise (KeyError key)
  end.

(** [series.isnull().any()]. *)
Definition isnull_any (s : list (option Q)) : bool :=
  existsb (fun v => match v with None => true | Some _ => false end) s.

(** [series.values] as floats; a null reads as 0 here and is never used: the
    builder reads the values only after [isnull_any] answered False. *)
Definition values (s : list (option Q)) : list Q :=
  map (fun v => match v with Some q => q | None => 0%Q end) s.

(** [df['Year'].max()]: NaN ([None]) on an empty column. *)
Definition series_max (s : list Z) : option Z :=
  match s with
  | [] => None
  | z :: s' => Some (fold_left Z.max s' z)
  end.

(** Python's [max(list)] over values that may be NaN: the running maximum is
    replaced only when the next item compares greater, and nothing compares
    greater than, or with, NaN.  An empty list raises ValueError. *)
Definition max_step (acc item : option Z) : option Z :=
  match acc, item with
  | Some a, Some b => if b >? a then item else acc
  | _, _ => acc
  end.

Definition py_max_list (l : list (option Z)) : result (option Z) :=
  match l with
  | [] => Raise ValueError
  | x :: l' => Ok (fold_left max_step l' x)
  end.

(** ** sklearn's LinearRegression with one predictor *)

Record LinearRegression : Type := {
  coef_ : Q;
  intercept_ : Q
}.

Definition centre (l : list Q) : list Q :=
  let m := np_mean l in map (fun v => (v - m)%Q) l.

Definition dot (a b : list Q) : Q :=
  np_sum (map (fun p => (fst p * snd p)%Q) (combine a b)).

(** [model.fit(X, y)]: no sample raises ValueError; otherwise the data are
    centred and the least-squares problem is solved, the minimum-norm
    solution (slope 0) being returned when every year is the same.  The
    solution is the exact one; the library's solver returns it up to the last
    bits of binary64. *)
Definition fit (X : list Z) (y : list Q) : result LinearRegression :=
  match X with
  | [] => Raise ValueError
  | _ =>
      let x := map inject_Z X in
      let xc := centre x in
      let yc := centre y in
      let sxx := dot xc xc in
      let coef := if Qeq_bool sxx 0 then 0%Q else (dot xc yc / sxx)%Q in
      Ok {| coef_ := coef;
            intercept_ := (np_mean y - np_mean x * coef)%Q |}
  end.

(** [model.predict([[x]])[0]]. *)
Definition predict (model : LinearRegression) (x : Z) : Q :=
  (inject_Z x * coef_ model + intercept_ model)%Q.

Definition square (q : Q) : Q := (q * q)%Q.

(** [r2_score(y, y_pred)]: NaN below two samples; 1 - SS_res/SS_tot when
    SS_tot is not 0; with SS_tot = 0, 1.0 for a perfect fit and 0.0
    otherwise. *)
Definition r2_score (y y_pred : list Q) : npfloat :=
  if (List.length y <? 2)%nat then NaN
  else
    let ss_res := np_sum (map (fun p => square (fst p - snd p)) (combine y y_pred)) in
    let m := np_mean y in
    let ss_tot := np_sum (map (fun v => square (v - m)) y) in
    if Qeq_bool ss_tot 0
    then (if Qeq_bool ss_res 0 then Fin 1 else Fin 0)
    else Fin (1 - ss_res / ss_tot).

(** ** The forecast table *)

(** One row of the forecast table.  [CV] and [R2] are absent ([None]) when the
    builder was asked to leave the column out; [MAPE] is [None] where the
    script stores Python's None. *)
Record ForecastRow : Type := {
  Year : Z;
  Category : string;
  Metric : string;
  Forecast : Z;
  Uncertainty : Z;
  CV : option npfloat;
  R2 : option npfloat;
  MAPE : option Q
}.

(** Lexicographic order on (Year, Category, Metric); strings compare by code
    unit, as Python's do. *)
Definition row_leb (a b : ForecastRow) : bool :=
  match Year a ?= Year b with
  | Lt => true
  | Gt => false
  | Eq =>
      match String.compare (Category a) (Category b) with
      | Lt => true
      | Gt => false
      | Eq =>
          match String.compare (Metric a) (Metric b) with
          | Gt => false
          | _ => true
          end
      end
  end.

Fixpoint insert_row (r : ForecastRow) (l : list ForecastRow) : list ForecastRow :=
  match l with
  | [] => [r]
  | r' :: l' => if row_leb r r' then r :: l else r' :: insert_row r l'
  end.

(** [table.sort_values(['Year', 'Category', 'Metric'])]: a stable sort. *)
Definition sort_values (l : list ForecastRow) : list ForecastRow :=
  fold_right insert_row [] l.

(** What the builder keeps of one fitted column. *)
Record FitStats : Type := {
  model : LinearRegression;
  mae : Q;
  cv : npfloat;
  r2 : npfloat;
  mape : option Q
}.

Section Builder.

(** [np.sqrt] on finite values. *)
Variable np_sqrt : Q -> Q.

(** [np.std(y)], the population standard deviation. *)
Definition np_std (y : list Q) : Q :=
  let m := np_mean y in
  np_sqrt (np_mean (map (fun v => square (Qabs (v - m))) y)).

(** Lines 99-127: the fit of one column and its error statistics. *)
Definition fit_column (X : list Z) (y : list Q) : result FitStats :=
  model <- fit X y ;;
  let y_pred := map (predict model) X in
  let absolute_deviations :=
    map (fun p => Qabs (fst p - snd p)) (combine y y_pred) in
  let mae := np_mean absolute_deviations in
  let mean_value := np_mean y in
  let cv :=
    if negb (Qeq_bool mean_value 0)
    then Fin (np_std y / mean_value * 100)
    else PosInf in
  let r2 := r2_score y y_pred in
  let valid :=
    filter (fun p => negb (Qeq_bool (fst p) 0)) (combine y y_pred) in
  let mape :=
    if (0 <? List.length valid)%nat
    then Some (np_mean (map (fun p => Qabs ((fst p - snd p) / fst p)) valid) * 100)%Q
    else None in
  Ok {| model := model; mae := mae; cv := cv; r2 := r2; mape := mape |}.

(** Lines 137-150: the uncertainty of one forecast value. *)
Definition forecast_uncertainty (mae : Q) (years_out : Z) (forecast_value : Q) : Q :=
  let uncertainty_factor := np_sqrt (inject_Z years_out) in
  let uncertainty := (mae * uncertainty_factor)%Q in
  let max_uncertainty_pct := 50%Q in
  let max_uncertainty := (Qabs forecast_value * (max_uncertainty_pct / 100))%Q in
  let uncertainty := py_min uncertainty max_uncertainty in
  let min_uncertainty := 50%Q in
  if Qlt_bool (Qabs forecast_value) 1000
  then py_max uncertainty min_uncertainty
  else uncertainty.

(** Lines 130-171: the body of the loop over the forecast years. *)
Definition result_row (include_cv include_r2 : bool) (category column : string)
    (st : FitStats) (i year : Z) : ForecastRow :=
  let years_out := i + 1 in
  let forecast_value := predict (model st) year in
  let uncertainty := forecast_uncertainty (mae st) years_out forecast_value in
  {| Year := year;
     Category := category;
     Metric := column;
     Forecast := py_round forecast_value;
     Uncertainty := py_round uncertainty;
     CV := if include_cv then Some (np_round 1 (cv st)) else None;
     R2 := if include_r2 then Some (np_round 3 (r2 st)) else None;
     MAPE := option_map (round_nd 1) (mape st) |}.

(** Lines 94-171: the body of the loop over the columns of one category.
    A column with a missing value contributes nothing ([continue]). *)
Definition forecast_column (include_cv include_r2 : bool) (forecast_years : list Z)
    (category : string) (df : DataFrame) (column : string)
    : result (list ForecastRow) :=
  s <- getitem (df_columns df) column ;;
  if isnull_any s then Ok []
  else
    st <- fit_column (df_Year df) (values s) ;;
    Ok (map (fun p => result_row include_cv include_r2 category column st (fst p) (snd p))
            (enumerate forecast_years)).

(** Lines 91-171: the body of the loop over the categories. *)
Definition forecast_category (include_cv include_r2 : bool) (forecast_years : list Z)
    (target_columns : list (string * list string))
    (entry : string * DataFrame) : result (list ForecastRow) :=
  columns <- getitem target_columns (fst entry) ;;
  rows <- for_each (forecast_column include_cv include_r2 forecast_years
                      (fst entry) (snd entry)) columns ;;
  Ok (List.concat rows).

(** Lines 81-85. *)
Definition get_last_year (historical_dfs : list (string * DataFrame)) : result Z :=
  m <- py_max_list (map (fun entry => series_max (df_Year (snd entry))) historical_dfs) ;;
  match m with
  | Some last_year => Ok last_year
  | None => Raise TypeError
  end.

(** Lines 87-171: the rows in the order the loops append them. *)
Definition collect_results (historical_dfs : list (string * DataFrame))
    (target_columns : list (string * list string)) (years_to_forecast : Z)
    (include_cv include_r2 : bool) : result (list ForecastRow) :=
  last_year <- get_last_year historical_dfs ;;
  let forecast_years := py_range (last_year + 1) (last_year + years_to_forecast + 1) in
  rows <- for_each (forecast_category include_cv include_r2 forecast_years target_columns)
            historical_dfs ;;
  Ok (List.concat rows).

(** [generate_forecast_table].  A table without rows has no columns, and
    sorting it by 'Year' raises KeyError. *)
Definition generate_forecast_table (historical_dfs : list (string * DataFrame))
    (target_columns : list (string * list string)) (years_to_forecast : Z)
    (include_cv include_r2 : bool) : result (list ForecastRow) :=
  results <- collect_results historical_dfs target_columns years_to_forecast
               include_cv include_r2 ;;
  match results with
  | [] => Raise (KeyError "Year")
  | _ => Ok (sort_values results)
  end.

End Builder.

(** ** The reliability assessment *)

Record ReliabilityRow : Type := {
  forecast_row : ForecastRow;
  Uncertainty_pct : npfloat;
  Reliability : string
}.

(** [np.select(condlist, choicelist, default)] at one row: the choice of the
    first condition that holds. *)
Fixpoint np_select {A} (condlist : list bool) (choicelist : list A) (default : A) : A :=
  match condlist, choicelist with
  | c :: condlist', choice :: choicelist' =>
      if c then choice else np_select condlist' choicelist' default
  | _, _ => default
  end.

(** Lines 200-217 at one row, from the unrounded percentage and R². *)
Definition reliability (uncertainty_pct r2 : npfloat) : string :=
  let conditions :=
    [ npf_leb uncertainty_pct (Fin 10) && npf_geb r2 (Fin (9 # 10));
      npf_leb uncertainty_pct (Fin 25) && npf_geb r2 (Fin (7 # 10));
      npf_leb uncertainty_pct (Fin 40) && npf_geb r2 (Fin (5 # 10));
      npf_leb uncertainty_pct (Fin 60);
      npf_gtb uncertainty_pct (Fin 60) ] in
  let categories :=
    [ "High Reliability"; "Good Reliability"; "Moderate Reliability";
      "Low Reliability"; "Very Low Reliability" ]%string in
  np_select conditions categories "Unknown"%string.

(** Line 198 at one row: the quotient of two integer columns, times 100
    (exact on finite values, where the script divides and multiplies in
    binary64). *)
Definition uncertainty_percentage (row : ForecastRow) : npfloat :=
  npf_mul (npf_div (of_int (Uncertainty row)) (of_int (Z.abs (Forecast row)))) (Fin 100).

(** [assess_forecast_reliability] at one row; a table built without the R²
    column raises KeyError. *)
Definition assess_row (row : ForecastRow) : result ReliabilityRow :=
  let pct := uncertainty_percentage row in
  r2 <- match R2 row with
        | Some v => Ok v
        | None => Raise (KeyError "R²")
        end ;;
  Ok {| forecast_row := row;
        Uncertainty_pct := np_round 1 pct;
        Reliability := reliability pct r2 |}.

(** [assess_forecast_reliability].  A table without rows is
    [pd.DataFrame([])], which has no column at all: reading 'Uncertainty (±)'
    at line 198 raises KeyError. *)
Definition assess_forecast_reliability (forecast_table : list ForecastRow)
    : result (list ReliabilityRow) :=
  match forecast_table with
  | [] => Raise (KeyError "Uncertainty (±)")
  | _ :: _ => for_each assess_row forecast_table
  end.

(** The R² cell of a row. *)
Definition r2_or_nan (r : ForecastRow) : npfloat :=
  match R2 r with
  | Some v => v
  | None => NaN
  end.

(** ** Data for concrete runs *)

(** A computable square root, exact to 2^-30, standing in for [np.sqrt]. *)
Definition sqrt_approx (x : Q) : Q :=
  Qmake (Z.sqrt (Qfloor (x * inject_Z (2 ^ 60)))) (2 ^ 30).

Definition series (name : string) (years : list Z) (vals : list (option Q)) : DataFrame :=
  {| df_Year := years; df_columns := [(name, vals)] |}.

(** The perfect linear trend of the specification's scenario. *)
Definition linear_df : DataFrame :=
  series "workers" [2021; 2022; 2023; 2024; 2025]
    [Some 100%Q; Some 120%Q; Some 140%Q; Some 160%Q; Some 180%Q].

Definition constant_df : DataFrame :=
  series "permits" [2021; 2022] [Some 10%Q; Some 10%Q].

Definition zero_df : DataFrame :=
  series "net" [2024; 2025] [Some 0%Q; Some 0%Q].

Definition single_df : DataFrame :=
  series "pilot" [2025] [Some 7%Q].

Definition uneven_df : DataFrame :=
  series "visas" [2021; 2022; 2023] [Some 0%Q; Some 0%Q; Some 1%Q].

Definition zero_mean_df : DataFrame :=
  series "balance" [2024; 2025] [Some (-1)%Q; Some 1%Q].

(** Two valid columns with opposite trends and one with a missing value. *)
Definition gap_df : DataFrame :=
  {| df_Year := [2024; 2025];
     df_columns := [ ("up", [Some 100%Q; Some 140%Q]);
                     ("down", [Some 90%Q; Some 60%Q]);
                     ("holes", [Some 5%Q; None]) ]%string |}.

(** A frame that stops a year before [linear_df]. *)
Definition early_df : DataFrame :=
  series "arrivals" [2022; 2023; 2024] [Some 3000%Q; Some 3100%Q; Some 3250%Q].

(** The builder with its default options and the computable square root. *)
Definition run (dfs : list (string * DataFrame)) (target : list (string * list string))
    (years_to_forecast : Z) : result (list ForecastRow) :=
  generate_forecast_table sqrt_approx dfs target years_to_forecast true true.

Definition table_of (c : result (list ForecastRow)) : list ForecastRow :=
  match c with
  | Ok table => table
  | Raise _ => []
  end.

Definition linear_target : list (string * list string) :=
  [("A", ["workers"])]%string.

Definition linear_table : list ForecastRow :=
  Eval vm_compute in table_of (run [("A"%string, linear_df)] linear_target 2).

(** A table row with a forecast and an uncertainty of 0. *)
Definition null_row : ForecastRow :=
  {| Year := 2026; Category := "M"; Metric := "net"; Forecast := 0; Uncertainty := 0;
     CV := None; R2 := Some (Fin 1); MAPE := None |}.

(** The row of 2026 of [linear_table]. *)
Definition linear_row : ForecastRow :=
  Eval vm_compute in hd null_row linear_table.

Definition zero_table : list ForecastRow :=
  Eval vm_compute in table_of (run [("M"%string, zero_df)] [("M", ["net"])]%string 1).

Definition zero_mean_table : list ForecastRow :=
  Eval vm_compute in
    table_of (run [("B"%string, zero_mean_df)] [("B", ["balance"])]%string 1).

Definition two_frames : list (string * DataFrame) :=
  [("E", early_df); ("A", linear_df)]%string.

Definition two_frames_target : list (string * list string) :=
  [("E", ["arrivals"]); ("A", ["workers"])]%string.

Definition two_frames_table : list ForecastRow :=
  Eval vm_compute in table_of (run two_frames two_frames_target 2).

(** A series whose fitted values are not integers: the line gives
    1026.67 at 2024 and the mean absolute error is 62.22. *)
Definition rounding_df : DataFrame :=
  series "staff" [2021; 2022; 2023] [Some 1100%Q; Some 1200%Q; Some 1020%Q].

Definition rounding_target : list (string * list string) :=
  [("R", ["staff"])]%string.

Definition rounding_table : list ForecastRow :=
  Eval vm_compute in table_of (run [("R"%string, rounding_df)] rounding_target 1).

(** The row of 2024 of [rounding_table]. *)
Definition rounding_row : ForecastRow :=
  Eval vm_compute in hd null_row rounding_table.

(** Integer values on a line of slope 1/2, every other year. *)
Definition halfstep_df : DataFrame :=
  series "steps" [2020; 2022; 2024] [Some 10%Q; Some 11%Q; Some 12%Q].

(** ** The policy as the specification words it *)

Definition base_uncertainty (np_sqrt : Q -> Q) (mae : Q) (k : Z) : Q :=
  (mae * np_sqrt (inject_Z k))%Q.

(** Clamp to at most 50% of the absolute forecast. *)
Definition clamp_to_cap (forecast_value u : Q) : Q :=
  Qmin u ((50 # 100) * Qabs forecast_value)%Q.

(** Below an absolute forecast of 1000, raise to at least 50. *)
Definition raise_to_floor (forecast_value u : Q) : Q :=
  if Qlt_le_dec (Qabs forecast_value) 1000 then Qmax u 50 else u.

(** The line [m] is a least-squares line of the points (X, y): its residuals
    sum to 0 and are orthogonal to the years (the normal equations, in exact
    arithmetic). *)
Definition least_squares_line (X : list Z) (y : list Q) (m : LinearRegression) : Prop :=
  (np_sum (map (fun p => snd p - predict m (fst p)) (combine X y)) == 0)%Q /\
  (np_sum (map (fun p => inject_Z (fst p) * (snd p - predict m (fst p)))
               (combine X y)) == 0)%Q.

(** The ordered rule table, first match wins, otherwise Very Low. *)
Definition rule_table (uncertainty_pct r2 : npfloat) : list (bool * string) :=
  [ (npf_leb uncertainty_pct (Fin 10) && npf_geb r2 (Fin (9 # 10)), "High Reliability");
    (npf_leb uncertainty_pct (Fin 25) && npf_geb r2 (Fin (7 # 10)), "Good Reliability");
    (npf_leb uncertainty_pct (Fin 40) && npf_geb r2 (Fin (5 # 10)), "Moderate Reliability");
    (npf_leb uncertainty_pct (Fin 60), "Low Reliability") ]%string.

Fixpoint first_match (rules : list (bool * string)) (otherwise : string) : string :=
  match rules with
  | [] => otherwise
  | (condition, tier) :: rules' => if condition then tier else first_match rules' otherwise
  end.

Definition tier_by_rules (uncertainty_pct r2 : npfloat) : string :=
  first_match (rule_table uncertainty_pct r2) "Very Low Reliability"%string.

(** ** Where a row comes from *)

(** [st] is the fit of the column [column] of a frame registered under
    [category], that column being requested and free of missing values. *)
Definition fitted_from (np_sqrt : Q -> Q) (dfs : list (string * DataFrame))
    (target : list (string * list string)) (category column : string)
    (st : FitStats) : Prop :=
  exists df columns s,
    In (category, df) dfs /\
    getitem target category = Ok columns /\
    In column columns /\
    getitem (df_columns df) column = Ok s /\
    isnull_any s = false /\
    fit_column np_sqrt (df_Year df) (values s) = Ok st.

(** The (category, frame, column) triples in the order the loops visit them. *)
Definition requested_pairs (dfs : list (string * DataFrame))
    (target : list (string * list string)) : list (string * DataFrame * string) :=
  flat_map (fun entry =>
              map (fun column => (fst entry, snd entry, column))
                  (match lookup (fst entry) target with
                   | Some columns => columns
                   | None => []
                   end)) dfs.

Definition has_missing (df : DataFrame) (column : string) : bool :=
  match lookup column (df_columns df) with
  | Some s => isnull_any s
  | None => false
  end.

Definition non_skipped_pairs (dfs : list (string * DataFrame))
    (target : list (string * list string)) : list (string * DataFrame * string) :=
  filter (fun pair => negb (has_missing (snd (fst pair)) (snd pair)))
         (requested_pairs dfs target).


(** The rows of one fitted column: one per step [1..h] of the horizon, the
    row of step [k] being the one of year [last_year + k]. *)
Definition column_block (np_sqrt : Q -> Q) (include_cv include_r2 : bool)
    (last_year h : Z) (pair : string * DataFrame * string)
    (block : list ForecastRow) : Prop :=
  let category := fst (fst pair) in
  let df := snd (fst pair) in
  let column := snd pair in
  exists s st,
    getitem (df_columns df) column = Ok s /\
    isnull_any s = false /\
    fit_column np_sqrt (df_Year df) (values s) = Ok st /\
    block = map (fun i => result_row np_sqrt include_cv include_r2 category column st
                            (Z.of_nat i) (last_year + 1 + Z.of_nat i))
                (seq 0 (Z.to_nat h)).

(** ** The order of the tiers *)

(** The position of a tier in the list of categories, best first; 5 for
    Unknown. *)
Definition tier_index (tier : string) : nat :=
  if String.eqb tier "High Reliability" then 0
  else if String.eqb tier "Good Reliability" then 1
  else if String.eqb tier "Moderate Reliability" then 2
  else if String.eqb tier "Low Reliability" then 3
  else if String.eqb tier "Very Low Reliability" then 4
  else 5.

(** ** Loading the data *)

(** A cell of the sum or difference of two columns: null when an operand is. *)
Definition cell_op (op : Q -> Q -> Q) (a b : option Q) : option Q :=
  match a, b with
  | Some x, Some y => Some (op x y)
  | _, _ => None
  end.

(** [a + b] and [a - b] on two columns of one frame. *)
Definition series_op (op : Q -> Q -> Q) (a b : list (option Q)) : list (option Q) :=
  map (fun p => cell_op op (fst p) (snd p)) (combine a b).

(** [d[key] = v]: the value of an existing key is replaced in place, a new
    key is appended. *)
Fixpoint assign {V} (key : string) (v : V) (d : list (string * V)) : list (string * V) :=
  match d with
  | [] => [(key, v)]
  | (k, w) :: d' => if String.eqb key k then (k, v) :: d' else (k, w) :: assign key v d'
  end.

(** [df[name] = s]. *)
Definition setitem (df : DataFrame) (name : string) (s : list (option Q)) : DataFrame :=
  {| df_Year := df_Year df; df_columns := assign name s (df_columns df) |}.

(** [df.rename(columns={old: new}, inplace=True)]; a frame without the
    column [old] is left as it is.  The names of the columns of a frame are
    distinct, as [pd.read_csv] makes them: the properties of the renamed frame
    are stated for a frame that has no column [new] already. *)
Definition rename_column (old new : string) (df : DataFrame) : DataFrame :=
  {| df_Year := df_Year df;
     df_columns := map (fun entry => if String.eqb (fst entry) old
                                     then (new, snd entry) else entry)
                       (df_columns df) |}.

(** The header of the population file as it is read: a space, then the
    name between double quotes. *)
Definition quoted_population_column : string :=
  String " " (String "034" ("Foreign citizens 20-64 years" ++ String "034" EmptyString)).

(** Lines 35-55: [load_data], from the five frames [pd.read_csv] returns. *)
Definition load_data (work_permits migration population retention all_permits : DataFrame)
    : result (DataFrame * DataFrame * DataFrame * DataFrame * DataFrame) :=
  third_country <- getitem (df_columns work_permits) "Full time third country workers" ;;
  eu <- getitem (df_columns work_permits) "Full time EU workers" ;;
  let work_permits :=
    setitem work_permits "Total workers" (series_op Qplus third_country eu) in
  immigration <-
    getitem (df_columns migration) "Immigration foreign citizens 20-64 years" ;;
  emigration <-
    getitem (df_columns migration) "Emigration foreign citizens 20-64 years" ;;
  let migration :=
    setitem migration "Net migration" (series_op Qminus immigration emigration) in
  let population :=
    rename_column quoted_population_column "Foreign citizens 20-64 years" population in
  Ok (work_permits, migration, population, retention, all_permits).

(** Every column of the frame is as long as its index. *)
Definition columns_aligned (df : DataFrame) : bool :=
  forallb (fun entry => Nat.eqb (List.length (snd entry)) (List.length (df_Year df)))
          (df_columns df).

(** ** Sample data files *)

Definition work_permits_raw : DataFrame :=
  {| df_Year := [2021; 2022; 2023; 2024; 2025];
     df_columns :=
       [ ("Full time third country workers",
          [Some 4000%Q; Some 4300%Q; Some 4500%Q; Some 4900%Q; Some 5200%Q]);
         ("Full time EU workers",
          [Some 9000%Q; Some 9100%Q; Some 9500%Q; Some 9600%Q; Some 9900%Q]) ]%string |}.

Definition migration_raw : DataFrame :=
  {| df_Year := [2021; 2022; 2023; 2024; 2025];
     df_columns :=
       [ ("Immigration foreign citizens 20-64 years",
          [Some 5100%Q; Some 5600%Q; Some 5400%Q; Some 5900%Q; Some 6100%Q]);
         ("Emigration foreign citizens 20-64 years",
          [Some 3900%Q; Some 4000%Q; Some 4400%Q; Some 4300%Q; Some 4700%Q]) ]%string |}.

Definition population_raw : DataFrame :=
  {| df_Year := [2021; 2022; 2023; 2024; 2025];
     df_columns :=
       [ (quoted_population_column,
          [Some 30000%Q; Some 31000%Q; Some 32500%Q; Some 33000%Q; Some 34800%Q]) ] |}.

Definition retention_raw : DataFrame :=
  series "Retention percentage" [2021; 2022; 2023]
    [Some 61%Q; Some 63%Q; Some 62%Q].

Definition all_permits_raw : DataFrame :=
  {| df_Year := [2021; 2022; 2023; 2024; 2025];
     df_columns :=
       [ ("Work permit 3rd country",
          [Some 700%Q; Some 800%Q; Some 850%Q; Some 990%Q; Some 1100%Q]);
         ("Work permit EU",
          [Some 1500%Q; Some 1450%Q; Some 1600%Q; Some 1580%Q; Some 1700%Q]);
         ("Study permit",
          [Some 400%Q; Some 420%Q; Some 390%Q; Some 450%Q; Some 470%Q]);
         ("Family reunification",
          [Some 300%Q; Some 310%Q; Some 305%Q; Some 320%Q; Some 330%Q]);
         ("Permanent residency",
          [Some 120%Q; Some 150%Q; Some 140%Q; Some 170%Q; Some 180%Q]);
         ("Ukraine Emergency Law",
          [Some 0%Q; Some 900%Q; Some 600%Q; Some 300%Q; Some 200%Q]) ]%string |}.

(** The same file with one cell of 'Work permit EU' left empty. *)
Definition all_permits_gap : DataFrame :=
  setitem all_permits_raw "Work permit EU"
    [Some 1500%Q; None; Some 1600%Q; Some 1580%Q; Some 1700%Q].

(** The frames [load_data] makes of the five above. *)
Definition loaded_work_permits : DataFrame :=
  setitem work_permits_raw "Total workers"
    [Some 13000%Q; Some 13400%Q; Some 14000%Q; Some 14500%Q; Some 15100%Q].

Definition loaded_migration : DataFrame :=
  setitem migration_raw "Net migration"
    [Some 1200%Q; Some 1600%Q; Some 1000%Q; Some 1600%Q; Some 1400%Q].

Definition loaded_population : DataFrame :=
  {| df_Year := [2021; 2022; 2023; 2024; 2025];
     df_columns :=
       [ ("Foreign citizens 20-64 years"%string,
          [Some 30000%Q; Some 31000%Q; Some 32500%Q; Some 33000%Q; Some 34800%Q]) ] |}.

Definition loaded_frames : list (string * DataFrame) :=
  [ ("Work Permits", loaded_work_permits); ("Migration", loaded_migration) ]%string.

Definition loaded_target : list (string * list string) :=
  [ ("Work Permits", ["Full time third country workers"; "Full time EU workers";
                      "Total workers"]);
    ("Migration", ["Immigration foreign citizens 20-64 years";
                   "Emigration foreign citizens 20-64 years"; "Net migration"]) ]%string.

Definition loaded_table : list ForecastRow :=
  Eval vm_compute in table_of (run loaded_frames loaded_target 1).

Local Open Scope string_scope.

(** ** Plotting *)

(** The exceptions of the plotting loop: those of the builder, and IndexError
    for [iloc[0]] on a frame without rows. *)
Inductive pyexception : Type :=
| Builtin (e : pyerror)
| IndexError.

Inductive outcome (A : Type) : Type :=
| Return (a : A)
| Throw (e : pyexception).

Arguments Return {A} a.
Arguments Throw {A} e.

Definition bind_outcome {A B} (c : outcome A) (k : A -> outcome B) : outcome B :=
  match c with
  | Return a => k a
  | Throw e => Throw e
  end.

Notation "x <~ c ;; k" := (bind_outcome c (fun x => k))
  (at level 61, c at next level, right associativity).

Definition lift {A} (c : result A) : outcome A :=
  match c with
  | Ok a => Return a
  | Raise e => Throw (Builtin e)
  end.

(** [s.replace(old, new)] for one-character [old] and [new]. *)
Fixpoint replace_char (old new : ascii) (s : string) : string :=
  match s with
  | EmptyString => EmptyString
  | String c s' =>
      String (if Ascii.eqb c old then new else c) (replace_char old new s')
  end.

(** Line 285. *)
Definition safe_metric (metric : string) : string :=
  replace_char "/" "_" (replace_char " " "_" metric).

(** What one saved figure shows: the file it is saved to, the parts of its
    title, the historical points, the forecast line, the uncertainty band
    (year, lower, upper) and the vertical line of the present year (NaN,
    [None], for a frame without rows). *)
Record Figure : Type := {
  path : string;
  title_category : string;
  title_metric : string;
  title_r2 : npfloat;
  title_reliability : string;
  historical : list (Z * option Q);
  forecast_line : list (Z * Z);
  band : list (Z * Z * Z);
  present : option Z
}.

(** Whether the table has the R² column.  The columns of a table are the
    keys of the rows it was made of, so a table without rows has no column
    at all. *)
Definition has_r2_column (forecast_table : list ForecastRow) : bool :=
  existsb (fun r => match R2 r with Some _ => true | None => false end)
          forecast_table.

(** [forecast_table['Category']], as far as it can raise. *)
Definition category_column (forecast_table : list ForecastRow) : outcome unit :=
  match forecast_table with
  | [] => Throw (Builtin (KeyError "Category"))
  | _ :: _ => Return tt
  end.

(** [series.iloc[0]]. *)
Definition iloc0 {A} (l : list A) : outcome A :=
  match l with
  | [] => Throw IndexError
  | a :: _ => Return a
  end.

(** Lines 244-288: the body of the loop of [plot_forecasts]. *)
Definition plot_one (historical_dfs : list (string * DataFrame))
    (forecast_table : list ForecastRow) (output_dir : string)
    (category metric : string) : outcome Figure :=
  hist_df <~ lift (getitem historical_dfs category) ;;
  let hist_years := df_Year hist_df in
  hist_values <~ lift (getitem (df_columns hist_df) metric) ;;
  _ <~ category_column forecast_table ;;
  let forecast_df :=
    filter (fun r => String.eqb (Category r) category && String.eqb (Metric r) metric)
           forecast_table in
  let forecast_years := map Year forecast_df in
  let forecast_values := map Forecast forecast_df in
  let forecast_lower := map (fun r => Forecast r - Uncertainty r) forecast_df in
  let forecast_upper := map (fun r => Forecast r + Uncertainty r) forecast_df in
  let current_year := series_max hist_years in
  r2_column <~ (if has_r2_column forecast_table
                then Return (map r2_or_nan forecast_df)
                else Throw (Builtin (KeyError "R²"))) ;;
  r2 <~ iloc0 r2_column ;;
  assessed <~ lift (assess_forecast_reliability forecast_df) ;;
  reliability <~ iloc0 (map Reliability assessed) ;;
  Return {| path := output_dir ++ "/" ++ category ++ "_" ++ safe_metric metric ++ ".png";
            title_category := category;
            title_metric := metric;
            title_r2 := r2;
            title_reliability := reliability;
            historical := combine hist_years hist_values;
            forecast_line := combine forecast_years forecast_values;
            band := combine (combine forecast_years forecast_lower) forecast_upper;
            present := current_year |}.

(** [plot_forecasts]: the figures saved, in order, and the exception that
    ended the loop, if any.  Drawing and the file system are left out. *)
Fixpoint plot_forecasts (historical_dfs : list (string * DataFrame))
    (forecast_table : list ForecastRow) (metrics_to_plot : list (string * string))
    (output_dir : string) : list Figure * option pyexception :=
  match metrics_to_plot with
  | [] => ([], None)
  | (category, metric) :: rest =>
      match plot_one historical_dfs forecast_table output_dir category metric with
      | Throw e => ([], Some e)
      | Return fig =>
          let (figs, e) := plot_forecasts historical_dfs forecast_table rest output_dir in
          (fig :: figs, e)
      end
  end.

Local Close Scope string_scope.

(** The request and the table of [gap_df], whose column 'holes' is skipped. *)
Definition gap_target : list (string * list string) :=
  [("G", ["up"; "holes"; "down"])]%string.

Definition gap_table : list ForecastRow :=
  Eval vm_compute in table_of (run [("G"%string, gap_df)] gap_target 2).

(** The figures of two derived metrics of the loaded frames. *)
Definition loaded_figures : list Figure :=
  Eval vm_compute in
    fst (plot_forecasts loaded_frames loaded_table
           [("Work Permits", "Total workers"); ("Migration", "Net migration")]%string
           "plots").

(** Whether the character [c] occurs in [s]. *)
Fixpoint occurs (c : ascii) (s : string) : bool :=
  match s with
  | EmptyString => false
  | String c' s' => Ascii.eqb c' c || occurs c s'
  end.

Local Open Scope string_scope.

(** ** The run *)

(** [series.iloc[-1]]. *)
Definition iloc_last {A} (l : list A) : outcome A :=
  match rev l with
  | [] => Throw IndexError
  | a :: _ => Return a
  end.

(** Lines 352-354: the three values of the data summary, as far as reading
    them can raise. *)
Definition data_summary (population migration work_permits : DataFrame) : outcome unit :=
  foreign_population <~
    lift (getitem (df_columns population) "Foreign citizens 20-64 years") ;;
  _ <~ iloc_last foreign_population ;;
  net_migration <~ lift (getitem (df_columns migration) "Net migration") ;;
  _ <~ iloc_last net_migration ;;
  total_workers <~ lift (getitem (df_columns work_permits) "Total workers") ;;
  _ <~ iloc_last total_workers ;;
  Return tt.

(** Lines 359-381. *)
Definition columns_to_forecast : list (string * list string) :=
  [ ("Foreign Workers",
     ["Full time third country workers"; "Full time EU workers"; "Total workers"]);
    ("Migration",
     ["Immigration foreign citizens 20-64 years";
      "Emigration foreign citizens 20-64 years"; "Net migration"]);
    ("Foreign Population", ["Foreign citizens 20-64 years"]);
    ("Work Permits",
     ["Work permit 3rd country"; "Work permit EU"; "Study permit";
      "Family reunification"; "Permanent residency"; "Ukraine Emergency Law"]) ].

(** Lines 386-391 and 443-448: the retention frame is in neither. *)
Definition main_historical_dfs (work_permits migration population all_permits : DataFrame)
    : list (string * DataFrame) :=
  [ ("Foreign Workers", work_permits); ("Migration", migration);
    ("Foreign Population", population); ("Work Permits", all_permits) ].

(** Lines 434-440. *)
Definition metrics_to_plot : list (string * string) :=
  [ ("Foreign Workers", "Total workers");
    ("Foreign Population", "Foreign citizens 20-64 years");
    ("Migration", "Net migration");
    ("Work Permits", "Work permit 3rd country");
    ("Work Permits", "Work permit EU") ].

(** [main], from the five frames [pd.read_csv] returns: the files written,
    in order, and the exception that ended the run, if any.  What is printed
    is left out, and so are the errors of the file system. *)
Definition main (np_sqrt : Q -> Q)
    (work_permits migration population retention all_permits : DataFrame)
    : list string * option pyexception :=
  match load_data work_permits migration population retention all_permits with
  | Raise e => ([], Some (Builtin e))
  | Ok (work_permits, migration, population, retention, all_permits) =>
      match data_summary population migration work_permits with
      | Throw e => ([], Some e)
      | Return _ =>
          let historical_dfs :=
            main_historical_dfs work_permits migration population all_permits in
          match generate_forecast_table np_sqrt historical_dfs columns_to_forecast
                  5 true true with
          | Raise e => ([], Some (Builtin e))
          | Ok detailed_forecast =>
              let saved :=
                [ "../outputs/detailed_forecast_table_2026_2030.csv";
                  "../outputs/forecast_pivot_table.csv" ] in
              match assess_forecast_reliability detailed_forecast with
              | Raise e => (saved, Some (Builtin e))
              | Ok reliability_assessment =>
                  let saved :=
                    (saved ++ ["../outputs/forecast_reliability_assessment.csv"])%list in
                  let (figures, e) :=
                    plot_forecasts historical_dfs detailed_forecast metrics_to_plot
                      "../outputs/plots" in
                  ((saved ++ map path figures)%list, e)
              end
          end
      end
  end.

Local Close Scope string_scope.

Definition main_files : list string :=
  [ "../outputs/detailed_forecast_table_2026_2030.csv";
    "../outputs/forecast_pivot_table.csv";
    "../outputs/forecast_reliability_assessment.csv";
    "../outputs/plots/Foreign Workers_Total_workers.png";
    "../outputs/plots/Foreign Population_Foreign_citizens_20-64_years.png";
    "../outputs/plots/Migration_Net_migration.png";
    "../outputs/plots/Work Permits_Work_permit_3rd_country.png";
    "../outputs/plots/Work Permits_Work_permit_EU.png" ]%string.

(** * Properties *)

(** ** The error monad and the loops *)

Lemma bind_Ok_inv {A B} (c : result A) (k : A -> result B) (b : B) :
  bind c k = Ok b -> exists a, c = Ok a /\ k a = Ok b.
Proof.
  destruct c as [a | e]; simpl; intros H; [eauto | discriminate].
Qed.

Ltac bind_inv H :=
  let a := fresh "a" in
  let Ha := fresh "Ha" in
  apply bind_Ok_inv in H; destruct H as (a & Ha & H).

Lemma for_each_Ok_inv {A B} (body : A -> result B) (l : list A) (bs : list B) :
  for_each body l = Ok bs -> Forall2 (fun a b => body a = Ok b) l bs.
Proof.
  revert bs; induction l as [| a l IH]; simpl; intros bs H.
  - injection H as <-. constructor.
  - bind_inv H. bind_inv H. injection H as <-.
    constructor; auto.
Qed.

Lemma Forall2_In_r {A B} (R : A -> B -> Prop) (l : list A) (bs : list B) (b : B) :
  Forall2 R l bs -> In b bs -> exists a, In a l /\ R a b.
Proof.
  induction 1 as [| a b' l bs Hab _ IH]; simpl; intros Hin; [contradiction |].
  destruct Hin as [<- | Hin].
  - exists a; auto.
  - destruct (IH Hin) as (a' & Ha' & HR). exists a'; auto.
Qed.

Lemma getitem_lookup {V} (d : list (string * V)) (key : string) (v : V) :
  getitem d key = Ok v <-> lookup key d = Some v.
Proof.
  unfold getitem. destruct (lookup key d); split; intros H;
    try discriminate; congruence.
Qed.

(** ** Sorting keeps the rows *)

Lemma insert_row_perm (r : ForecastRow) (l : list ForecastRow) :
  Permutation (insert_row r l) (r :: l).
Proof.
  induction l as [| r' l IH]; simpl; [reflexivity |].
  destruct (row_leb r r'); [reflexivity |].
  rewrite IH. apply perm_swap.
Qed.

Lemma sort_values_perm (l : list ForecastRow) : Permutation (sort_values l) l.
Proof.
  induction l as [| r l IH]; simpl; [reflexivity |].
  rewrite insert_row_perm. now constructor.
Qed.

(** ** [range] and [enumerate] *)

Lemma enumerate_map {A B} (f : Z -> A -> B) (g : nat -> A) (n : nat) :
  map (fun p => f (fst p) (snd p)) (enumerate (map g (seq 0 n))) =
  map (fun i => f (Z.of_nat i) (g i)) (seq 0 n).
Proof.
  unfold enumerate. rewrite length_map, length_seq.
  generalize 0%nat as start.
  induction n as [| n IH]; intros start; simpl; [reflexivity |].
  now rewrite IH.
Qed.

Lemma enumerate_snd {A} (l : list A) : map snd (enumerate l) = l.
Proof.
  unfold enumerate. generalize 0%nat as start.
  induction l as [| a l IH]; intros start; simpl; [reflexivity |].
  now rewrite IH.
Qed.

(** The rows of one column: step [k] of the horizon is the year
    [last_year + k]. *)
Lemma column_rows_by_step (f : Z -> Z -> ForecastRow) (last_year h : Z) :
  map (fun p => f (fst p) (snd p))
      (enumerate (py_range (last_year + 1) (last_year + h + 1))) =
  map (fun i => f (Z.of_nat i) (last_year + 1 + Z.of_nat i)) (seq 0 (Z.to_nat h)).
Proof.
  unfold py_range.
  replace (last_year + h + 1 - (last_year + 1)) with h by lia.
  apply (enumerate_map f (fun i => last_year + 1 + Z.of_nat i)).
Qed.

(** ** The structure of the collected rows *)

Section Structure.

Variable np_sqrt : Q -> Q.
Variables include_cv include_r2 : bool.
Variables last_year h : Z.

Lemma columns_blocks (category : string) (df : DataFrame) (columns : list string)
    (rows : list (list ForecastRow)) :
  for_each (forecast_column np_sqrt include_cv include_r2
              (py_range (last_year + 1) (last_year + h + 1)) category df)
           columns = Ok rows ->
  exists blocks,
    List.concat blocks = List.concat rows /\
    Forall2 (column_block np_sqrt include_cv include_r2 last_year h)
      (filter (fun pair => negb (has_missing (snd (fst pair)) (snd pair)))
              (map (fun column => (category, df, column)) columns))
      blocks.
Proof.
  revert rows; induction columns as [| column columns IH]; simpl; intros rows H.
  - injection H as <-. exists []. split; [reflexivity | constructor].
  - bind_inv H. bind_inv H. injection H as <-.
    destruct (IH _ Ha0) as (blocks & Hcat & Hall).
    unfold forecast_column in Ha. bind_inv Ha.
    apply getitem_lookup in Ha1.
    unfold has_missing; rewrite Ha1.
    destruct (isnull_any a1) eqn:Hnull; simpl.
    + injection Ha as <-. exists blocks. split; [exact Hcat | exact Hall].
    + bind_inv Ha. injection Ha as <-.
      eexists (_ :: blocks). split.
      * simpl. rewrite Hcat. reflexivity.
      * constructor; [| exact Hall].
        exists a1, a2. simpl. repeat split; auto.
        -- now apply getitem_lookup.
        -- apply (column_rows_by_step
                    (result_row np_sqrt include_cv include_r2 category column a2)).
Qed.

Lemma categories_blocks (target : list (string * list string))
    (dfs : list (string * DataFrame)) (rows : list (list ForecastRow)) :
  for_each (forecast_category np_sqrt include_cv include_r2
              (py_range (last_year + 1) (last_year + h + 1)) target)
           dfs = Ok rows ->
  exists blocks,
    List.concat blocks = List.concat rows /\
    Forall2 (column_block np_sqrt include_cv include_r2 last_year h) (non_skipped_pairs dfs target) blocks.
Proof.
  revert rows; induction dfs as [| [category df] dfs IH]; simpl; intros rows H.
  - injection H as <-. exists []. split; [reflexivity | constructor].
  - bind_inv H. bind_inv H. injection H as <-.
    destruct (IH _ Ha0) as (blocks & Hcat & Hall).
    unfold forecast_category in Ha; simpl in Ha.
    bind_inv Ha. bind_inv Ha. injection Ha as <-.
    destruct (columns_blocks _ _ _ _ Ha2) as (blocks1 & Hcat1 & Hall1).
    exists (blocks1 ++ blocks). split.
    + rewrite concat_app. simpl. now rewrite Hcat, Hcat1.
    + unfold non_skipped_pairs, requested_pairs. simpl.
      rewrite filter_app. apply Forall2_app; [| exact Hall].
      apply getitem_lookup in Ha1. rewrite Ha1. exact Hall1.
Qed.

End Structure.

(** ** The last year is the maximum over all frames *)

Lemma fold_left_Zmax_ge (l : list Z) (z : Z) :
  z <= fold_left Z.max l z /\ forall y, In y l -> y <= fold_left Z.max l z.
Proof.
  revert z; induction l as [| x l IH]; simpl; intros z.
  - split; [lia | contradiction].
  - destruct (IH (Z.max z x)) as [H1 H2]. split; [lia |].
    intros y [<- | Hy]; [lia | auto].
Qed.

Lemma fold_left_Zmax_In (l : list Z) (z : Z) :
  In (fold_left Z.max l z) (z :: l).
Proof.
  revert z; induction l as [| x l IH]; simpl; intros z; [auto |].
  destruct (IH (Z.max z x)) as [H | H]; [| auto].
  rewrite <- H.
  destruct (Z.max_spec z x) as [[_ E] | [_ E]]; rewrite E; auto.
Qed.

Lemma series_max_spec (s : list Z) (m : Z) :
  series_max s = Some m -> In m s /\ forall y, In y s -> y <= m.
Proof.
  destruct s as [| z s]; simpl; [discriminate |].
  intros H; injection H as <-. split.
  - apply fold_left_Zmax_In.
  - destruct (fold_left_Zmax_ge s z) as [H1 H2].
    intros y [<- | Hy]; auto.
Qed.

Lemma fold_left_max_step_None (l : list (option Z)) :
  fold_left max_step l None = None.
Proof. induction l as [| x l IH]; simpl; auto. Qed.

Lemma fold_left_max_step_spec (l : list (option Z)) (a m : Z) :
  fold_left max_step l (Some a) = Some m ->
  a <= m /\ (forall b, In (Some b) l -> b <= m) /\ (m = a \/ In (Some m) l).
Proof.
  revert a; induction l as [| x l IH]; simpl; intros a H.
  - injection H as <-. repeat split; [lia | contradiction | auto].
  - destruct x as [b |]; simpl in H.
    + destruct (Z.gtb_spec b a) as [Hgt | Hle].
      * destruct (IH _ H) as (H1 & H2 & H3). split; [lia |]. split.
        -- intros c [E | Hc]; [injection E as <-; lia | auto].
        -- destruct H3 as [-> | H3]; auto.
      * destruct (IH _ H) as (H1 & H2 & H3). split; [lia |]. split.
        -- intros c [E | Hc]; [injection E as <-; lia | auto].
        -- destruct H3; auto.
    + destruct (IH _ H) as (H1 & H2 & H3). split; [lia |]. split.
      * intros c [E | Hc]; [discriminate | auto].
      * destruct H3; auto.
Qed.

Lemma get_last_year_spec (dfs : list (string * DataFrame)) (last_year : Z) :
  get_last_year dfs = Ok last_year ->
  (exists entry, In entry dfs /\ In last_year (df_Year (snd entry))) /\
  (forall entry y, In entry dfs -> In y (df_Year (snd entry)) -> y <= last_year).
Proof.
  unfold get_last_year. intros H. bind_inv H.
  destruct a as [m |]; [injection H as -> | discriminate].
  unfold py_max_list in Ha.
  destruct dfs as [| e dfs]; simpl in Ha; [discriminate |].
  injection Ha as Ha.
  destruct (series_max (df_Year (snd e))) as [a |] eqn:He;
    [| rewrite fold_left_max_step_None in Ha; discriminate].
  apply fold_left_max_step_spec in Ha. destruct Ha as (H1 & H2 & H3).
  apply series_max_spec in He. destruct He as [He1 He2].
  split.
  - destruct H3 as [-> | H3].
    + exists e. split; [now left | exact He1].
    + apply in_map_iff in H3. destruct H3 as (e' & He' & Hin).
      apply series_max_spec in He'. exists e'. split; [now right | tauto].
  - intros entry y [<- | Hin] Hy.
    + specialize (He2 _ Hy). lia.
    + destruct (series_max (df_Year (snd entry))) as [b |] eqn:Hb.
      * pose proof (series_max_spec _ _ Hb) as [_ Hb2].
        specialize (Hb2 _ Hy).
        assert (b <= last_year); [| lia].
        apply H2. rewrite <- Hb.
        apply (in_map (fun entry => series_max (df_Year (snd entry)))). exact Hin.
      * destruct (df_Year (snd entry)); [contradiction | discriminate].
Qed.

(** ** Every row of the table comes from one fitted column *)

Lemma collect_results_blocks (np_sqrt : Q -> Q) (dfs : list (string * DataFrame))
    (target : list (string * list string)) (h : Z) (include_cv include_r2 : bool)
    (results : list ForecastRow) :
  collect_results np_sqrt dfs target h include_cv include_r2 = Ok results ->
  exists last_year blocks,
    get_last_year dfs = Ok last_year /\
    results = List.concat blocks /\
    Forall2 (column_block np_sqrt include_cv include_r2 last_year h)
            (non_skipped_pairs dfs target) blocks.
Proof.
  unfold collect_results. intros H. bind_inv H. bind_inv H. injection H as <-.
  destruct (categories_blocks _ _ _ _ _ _ _ _ Ha0) as (blocks & Hcat & Hall).
  exists a, blocks. auto.
Qed.

Lemma generate_forecast_table_blocks (np_sqrt : Q -> Q) (dfs : list (string * DataFrame))
    (target : list (string * list string)) (h : Z) (include_cv include_r2 : bool)
    (table : list ForecastRow) :
  generate_forecast_table np_sqrt dfs target h include_cv include_r2 = Ok table ->
  exists last_year blocks,
    get_last_year dfs = Ok last_year /\
    Permutation table (List.concat blocks) /\
    Forall2 (column_block np_sqrt include_cv include_r2 last_year h)
            (non_skipped_pairs dfs target) blocks.
Proof.
  unfold generate_forecast_table. intros H. bind_inv H.
  destruct (collect_results_blocks _ _ _ _ _ _ _ Ha) as (ly & blocks & H1 & H2 & H3).
  exists ly, blocks. split; [exact H1 |]. split; [| exact H3].
  destruct a as [| r rs]; [discriminate |].
  injection H as <-. rewrite <- H2. apply (sort_values_perm (r :: rs)).
Qed.

(** A returned table has at least one row. *)
Lemma generated_table_nonempty (np_sqrt : Q -> Q)
    (dfs : list (string * DataFrame)) (target : list (string * list string))
    (h : Z) (include_cv include_r2 : bool) (table : list ForecastRow) :
  generate_forecast_table np_sqrt dfs target h include_cv include_r2 = Ok table ->
  table <> [].
Proof.
  unfold generate_forecast_table. intros Hgen. bind_inv Hgen.
  destruct a as [| r rs]; [discriminate |]. injection Hgen as <-.
  intros E. change (sort_values (r :: rs) = []) in E.
  apply (f_equal (@List.length _)) in E.
  rewrite (Permutation_length (sort_values_perm (r :: rs))) in E.
  discriminate.
Qed.

Lemma non_skipped_pairs_In (dfs : list (string * DataFrame))
    (target : list (string * list string)) (category : string) (df : DataFrame)
    (column : string) :
  In (category, df, column) (non_skipped_pairs dfs target) ->
  exists columns,
    In (category, df) dfs /\ getitem target category = Ok columns /\ In column columns.
Proof.
  unfold non_skipped_pairs, requested_pairs.
  rewrite filter_In, in_flat_map. intros [(entry & Hentry & Hin) _].
  apply in_map_iff in Hin. destruct Hin as (c & E & Hc).
  injection E as <- <- <-.
  destruct (lookup (fst entry) target) as [columns |] eqn:Hl; [| contradiction].
  exists columns. repeat split; auto.
  - now destruct entry.
  - now apply getitem_lookup.
Qed.

(** The provenance of a row: its category and metric name a fitted column,
    its year is [last_year + k] for a step [k] of the horizon, and the row is
    the one the loop body builds at index [k - 1]. *)
Lemma generated_row_inv (np_sqrt : Q -> Q) (dfs : list (string * DataFrame))
    (target : list (string * list string)) (h : Z) (include_cv include_r2 : bool)
    (table : list ForecastRow) (r : ForecastRow) :
  generate_forecast_table np_sqrt dfs target h include_cv include_r2 = Ok table ->
  In r table ->
  exists last_year st,
    get_last_year dfs = Ok last_year /\
    fitted_from np_sqrt dfs target (Category r) (Metric r) st /\
    1 <= Year r - last_year <= h /\
    r = result_row np_sqrt include_cv include_r2 (Category r) (Metric r) st
          (Year r - last_year - 1) (Year r).
Proof.
  intros Hgen Hin.
  destruct (generate_forecast_table_blocks _ _ _ _ _ _ _ Hgen)
    as (last_year & blocks & Hly & Hperm & Hall).
  apply (Permutation_in _ Hperm) in Hin.
  apply in_concat in Hin. destruct Hin as (block & Hblock & Hr).
  destruct (Forall2_In_r _ _ _ _ Hall Hblock) as ([[category df] column] & Hpair & Hcb).
  destruct Hcb as (s & st & Hs & Hnull & Hfit & ->). simpl in *.
  apply in_map_iff in Hr. destruct Hr as (i & <- & Hi).
  apply in_seq in Hi. simpl.
  destruct (non_skipped_pairs_In _ _ _ _ _ Hpair) as (columns & H1 & H2 & H3).
  exists last_year, st. split; [exact Hly |]. split; [| split].
  - exists df, columns, s. repeat split; auto.
  - lia.
  - f_equal; lia.
Qed.

(** What a row stores: the rounded value of the line at its year, and the
    rounded uncertainty of horizon step [Year - last_year]. *)
Lemma generated_row_values (np_sqrt : Q -> Q) (dfs : list (string * DataFrame))
    (target : list (string * list string)) (h : Z) (include_cv include_r2 : bool)
    (table : list ForecastRow) (r : ForecastRow) :
  generate_forecast_table np_sqrt dfs target h include_cv include_r2 = Ok table ->
  In r table ->
  exists last_year st,
    get_last_year dfs = Ok last_year /\
    fitted_from np_sqrt dfs target (Category r) (Metric r) st /\
    1 <= Year r - last_year <= h /\
    Forecast r = py_round (predict (model st) (Year r)) /\
    Uncertainty r =
      py_round (forecast_uncertainty np_sqrt (mae st) (Year r - last_year)
                  (predict (model st) (Year r))).
Proof.
  intros Hgen Hin.
  destruct (generated_row_inv _ _ _ _ _ _ _ _ Hgen Hin)
    as (last_year & st & Hly & Hfit & Hk & Hr).
  exists last_year, st.
  split; [exact Hly |]. split; [exact Hfit |]. split; [exact Hk |]. split.
  - now apply (f_equal Forecast) in Hr.
  - apply (f_equal Uncertainty) in Hr. simpl in Hr. rewrite Hr.
    now replace (Year r - last_year - 1 + 1) with (Year r - last_year) by lia.
Qed.

(** ** Comparisons, [min], [max] and [round] *)

Local Open Scope Q_scope.

Lemma Qlt_bool_iff (a b : Q) : Qlt_bool a b = true <-> a < b.
Proof.
  unfold Qlt_bool. rewrite negb_true_iff, <- not_true_iff_false, Qle_bool_iff.
  split; [apply Qnot_le_lt | apply Qlt_not_le].
Qed.

Lemma Qlt_bool_false_iff (a b : Q) : Qlt_bool a b = false <-> b <= a.
Proof.
  unfold Qlt_bool. now rewrite negb_false_iff, Qle_bool_iff.
Qed.

Lemma py_min_Qmin (a b : Q) : py_min a b = Qmin a b.
Proof.
  unfold py_min, Qlt_bool, Qle_bool, Qmin, GenericMinMax.gmin, Qcompare, Z.leb.
  now destruct (Qnum a * QDen b ?= Qnum b * QDen a)%Z.
Qed.

Lemma py_max_Qmax (a b : Q) : py_max a b = Qmax a b.
Proof.
  unfold py_max, Qlt_bool, Qle_bool, Qmax, GenericMinMax.gmax, Qcompare, Z.leb.
  rewrite (Z.compare_antisym (Qnum a * QDen b) (Qnum b * QDen a)).
  now destruct (Qnum a * QDen b ?= Qnum b * QDen a)%Z.
Qed.

Lemma py_round_comp (x y : Q) : x == y -> py_round x = py_round y.
Proof.
  intros E. unfold py_round. rewrite (Qfloor_comp _ _ E).
  assert (E' : x - inject_Z (Qfloor y) == y - inject_Z (Qfloor y))
    by (rewrite E; reflexivity).
  now rewrite (Qcompare_comp _ _ E' (1 # 2) (1 # 2) (Qeq_refl _)).
Qed.

Lemma py_round_floor (x : Q) :
  (Qfloor x <= py_round x <= Qfloor x + 1)%Z.
Proof.
  unfold py_round.
  destruct (x - inject_Z (Qfloor x) ?= 1 # 2); [destruct (Z.even _) | |]; lia.
Qed.

(** Rounding never takes a value below an integer it has reached. *)
Lemma py_round_lower (n : Z) (x : Q) : inject_Z n <= x -> (n <= py_round x)%Z.
Proof.
  intros H. apply Qfloor_resp_le in H. rewrite Qfloor_Z in H.
  pose proof (py_round_floor x). lia.
Qed.

(** A value that rounds to 0 lies within 1 of it. *)
Lemma py_round_zero (x : Q) : py_round x = 0%Z -> Qabs x <= 1.
Proof.
  intros H. pose proof (py_round_floor x) as Hr. rewrite H in Hr.
  pose proof (Qfloor_le x) as H1. pose proof (Qlt_floor x) as H2.
  assert (Hlo : inject_Z (-1) <= inject_Z (Qfloor x))
    by (rewrite <- Zle_Qle; lia).
  assert (Hhi : inject_Z (Qfloor x + 1) <= inject_Z 1)
    by (rewrite <- Zle_Qle; lia).
  apply Qabs_Qle_condition.
  change (inject_Z (-1)) with (-1) in Hlo. change (inject_Z 1) with 1 in Hhi.
  split; lra.
Qed.

(** ** The uncertainty band *)

Section Uncertainty.

Variable np_sqrt : Q -> Q.

(** Base, then cap, then floor. *)
Lemma forecast_uncertainty_steps (mae : Q) (k : Z) (fv : Q) :
  forecast_uncertainty np_sqrt mae k fv ==
  raise_to_floor fv (clamp_to_cap fv (base_uncertainty np_sqrt mae k)).
Proof.
  unfold forecast_uncertainty, raise_to_floor, clamp_to_cap, base_uncertainty.
  rewrite py_min_Qmin.
  assert (Ecap : Qmin (mae * np_sqrt (inject_Z k)) (Qabs fv * (50 / 100)) ==
                 Qmin (mae * np_sqrt (inject_Z k)) ((50 # 100) * Qabs fv)).
  { apply Q.min_compat; [reflexivity |].
    change (50 / 100) with ((50 # 1) * (1 # 100)). ring_simplify.
    reflexivity. }
  destruct (Qlt_bool (Qabs fv) 1000) eqn:Hlt;
    destruct (Qlt_le_dec (Qabs fv) 1000) as [Hd | Hd].
  - rewrite py_max_Qmax. apply Q.max_compat; [exact Ecap | reflexivity].
  - apply Qlt_bool_iff in Hlt. lra.
  - apply Qlt_bool_false_iff in Hlt. lra.
  - exact Ecap.
Qed.

Lemma forecast_uncertainty_floor (mae : Q) (k : Z) (fv : Q) :
  Qabs fv < 1000 -> 50 <= forecast_uncertainty np_sqrt mae k fv.
Proof.
  intros H. unfold forecast_uncertainty.
  apply Qlt_bool_iff in H. rewrite H. rewrite py_max_Qmax.
  apply Q.le_max_r.
Qed.

Lemma forecast_uncertainty_cap (mae : Q) (k : Z) (fv : Q) :
  1000 <= Qabs fv -> forecast_uncertainty np_sqrt mae k fv <= (1 # 2) * Qabs fv.
Proof.
  intros H. unfold forecast_uncertainty.
  apply Qlt_bool_false_iff in H. rewrite H. rewrite py_min_Qmin.
  eapply Qle_trans; [apply Q.le_min_r |].
  change (50 / 100) with ((50 # 1) * (1 # 100)). lra.
Qed.

Lemma forecast_uncertainty_upper (mae : Q) (k : Z) (fv : Q) :
  forecast_uncertainty np_sqrt mae k fv <= Qmax ((1 # 2) * Qabs fv) 50.
Proof.
  unfold forecast_uncertainty. rewrite py_min_Qmin.
  assert (Hc : Qmin (mae * np_sqrt (inject_Z k)) (Qabs fv * (50 / 100)) <=
               (1 # 2) * Qabs fv).
  { eapply Qle_trans; [apply Q.le_min_r |].
    change (50 / 100) with ((50 # 1) * (1 # 100)). lra. }
  destruct (Qlt_bool (Qabs fv) 1000).
  - rewrite py_max_Qmax. apply Q.max_le_compat_r. exact Hc.
  - eapply Qle_trans; [exact Hc | apply Q.le_max_l].
Qed.

End Uncertainty.

(** ** The fit is the least-squares line *)

Section Sums.
Context {A : Type}.
Implicit Types (f g : A -> Q) (l : list A).

Lemma np_sum_ext f g l :
  (forall a, In a l -> f a == g a) -> np_sum (map f l) == np_sum (map g l).
Proof.
  induction l as [| a l IH]; simpl; intros H; [reflexivity |].
  rewrite (H a) by auto. rewrite IH by auto. reflexivity.
Qed.

Lemma np_sum_plus f g l :
  np_sum (map (fun a => f a + g a) l) == np_sum (map f l) + np_sum (map g l).
Proof.
  induction l as [| a l IH]; simpl; [reflexivity |]. rewrite IH. ring.
Qed.

Lemma np_sum_scale (c : Q) f l :
  np_sum (map (fun a => c * f a) l) == c * np_sum (map f l).
Proof.
  induction l as [| a l IH]; simpl; [ring |]. rewrite IH. ring.
Qed.

Lemma np_sum_const (c : Q) l :
  np_sum (map (fun _ => c) l) == inject_Z (Z.of_nat (List.length l)) * c.
Proof.
  induction l as [| a l IH]; [simpl; ring |].
  change (List.length (a :: l)) with (S (List.length l)).
  rewrite Nat2Z.inj_succ. unfold Z.succ. rewrite inject_Z_plus.
  simpl. rewrite IH. ring.
Qed.

Lemma np_sum_squares_zero f l :
  np_sum (map (fun a => f a * f a) l) == 0 -> forall a, In a l -> f a == 0.
Proof.
  assert (Hnn : forall l', 0 <= np_sum (map (fun a => f a * f a) l')).
  { induction l' as [| a l' IH]; simpl; [lra |]. nra. }
  induction l as [| a l IH]; simpl; intros H b Hb; [contradiction |].
  pose proof (Hnn l) as Hl.
  assert (Hsq : f a * f a == 0) by nra.
  destruct Hb as [<- | Hb].
  - nra.
  - apply IH; [nra | exact Hb].
Qed.
End Sums.

Lemma combine_map_both {A B C D} (f : A -> C) (g : B -> D) (a : list A) (b : list B) :
  combine (map f a) (map g b) = map (fun p => (f (fst p), g (snd p))) (combine a b).
Proof.
  revert b; induction a as [| x a IH]; intros [| y b]; simpl; try reflexivity.
  now rewrite IH.
Qed.

Lemma combine_fst {A B} (a : list A) (b : list B) :
  List.length a = List.length b -> map fst (combine a b) = a.
Proof.
  revert b; induction a as [| x a IH]; intros [| y b]; simpl; intros H;
    try reflexivity; try discriminate.
  f_equal. apply IH. now injection H.
Qed.

Lemma combine_snd {A B} (a : list A) (b : list B) :
  List.length a = List.length b -> map snd (combine a b) = b.
Proof.
  revert b; induction a as [| x a IH]; intros [| y b]; simpl; intros H;
    try reflexivity; try discriminate.
  f_equal. apply IH. now injection H.
Qed.

Lemma combine_map_same {A B C} (f : A -> B) (g : A -> C) (l : list A) :
  combine (map f l) (map g l) = map (fun a => (f a, g a)) l.
Proof. induction l as [| a l IH]; simpl; [reflexivity | now rewrite IH]. Qed.

Lemma dot_centre (l : list (Q * Q)) :
  dot (centre (map fst l)) (centre (map snd l)) =
  np_sum (map (fun p => (fst p - np_mean (map fst l)) * (snd p - np_mean (map snd l))) l).
Proof.
  unfold dot, centre. rewrite !map_map, combine_map_same, map_map. reflexivity.
Qed.

Lemma dot_centre_self (l : list (Q * Q)) :
  dot (centre (map fst l)) (centre (map fst l)) =
  np_sum (map (fun p => (fst p - np_mean (map fst l)) * (fst p - np_mean (map fst l))) l).
Proof.
  unfold dot, centre. rewrite !map_map, combine_map_same, map_map. reflexivity.
Qed.

Lemma np_mean_sum (l : list Q) :
  l <> [] -> np_sum l == inject_Z (Z.of_nat (List.length l)) * np_mean l.
Proof.
  intros H. unfold np_mean. field.
  destruct l as [| a l]; [congruence |].
  simpl List.length. intros E. unfold Qeq in E. simpl in E. lia.
Qed.

Lemma least_squares_pairs (l : list (Q * Q)) :
  l <> [] ->
  let xm := np_mean (map fst l) in
  let ym := np_mean (map snd l) in
  let sxx := dot (centre (map fst l)) (centre (map fst l)) in
  let sxy := dot (centre (map fst l)) (centre (map snd l)) in
  let a := if Qeq_bool sxx 0 then 0 else sxy / sxx in
  let b := ym - xm * a in
  np_sum (map (fun p => snd p - (fst p * a + b)) l) == 0 /\
  np_sum (map (fun p => fst p * (snd p - (fst p * a + b))) l) == 0.
Proof.
  intros Hne xm ym sxx sxy a b.
  set (n := inject_Z (Z.of_nat (List.length l))).
  assert (Hx : np_sum (map fst l) == n * xm).
  { unfold n. rewrite <- (length_map fst l). apply np_mean_sum.
    destruct l; [congruence | discriminate]. }
  assert (Hy : np_sum (map snd l) == n * ym).
  { unfold n. rewrite <- (length_map snd l). apply np_mean_sum.
    destruct l; [congruence | discriminate]. }
  assert (Hc := np_sum_const (A := Q * Q)). 
  assert (Hxx : sxx == np_sum (map (fun p => (fst p - xm) * (fst p - xm)) l))
    by (unfold sxx; rewrite dot_centre_self; reflexivity).
  assert (Hxy : sxy == np_sum (map (fun p => (fst p - xm) * (snd p - ym)) l))
    by (unfold sxy; rewrite dot_centre; reflexivity).
  assert (Hres : np_sum (map (fun p => snd p - (fst p * a + b)) l) == 0).
  { rewrite (np_sum_ext _ (fun p => (snd p + (- a) * fst p) + (- b))).
    2:{ intros. cbv beta. ring. }
    rewrite np_sum_plus, np_sum_plus, np_sum_scale, np_sum_const.
    fold n. rewrite Hx, Hy. unfold b. ring. }
  split; [exact Hres |].
  assert (Hslope : sxy - a * sxx == 0).
  { unfold a. destruct (Qeq_bool sxx 0) eqn:E.
    - apply Qeq_bool_eq in E.
      rewrite Hxy. rewrite (np_sum_ext _ (fun _ => 0)).
      + rewrite np_sum_const. ring.
      + intros p Hp. rewrite Hxx in E.
        rewrite (np_sum_squares_zero (fun p => fst p - xm) l E p Hp). ring.
    - apply Qeq_bool_neq in E. field. exact E. }
  rewrite (np_sum_ext _ (fun p => ((fst p - xm) * (snd p - ym)
                                   + (- a) * ((fst p - xm) * (fst p - xm)))
                                  + xm * (snd p - (fst p * a + b))))
    by (intros; cbv beta; unfold b; clearbody a; ring).
  rewrite np_sum_plus, np_sum_plus, !np_sum_scale, Hres, <- Hxx, <- Hxy.
  rewrite <- Hslope at 2. ring.
Qed.

(** The line of the model's [fit] satisfies the normal equations of least
    squares; this is a fact of the exact solution, not of the library's
    binary64 one. *)
Lemma fit_normal_equations (X : list Z) (y : list Q) (m : LinearRegression) :
  fit X y = Ok m ->
  List.length X = List.length y ->
  least_squares_line X y m.
Proof.
  intros Hfit Hlen. unfold least_squares_line.
  set (l := combine (map inject_Z X) y).
  assert (Hl1 : map fst l = map inject_Z X)
    by (unfold l; apply combine_fst; now rewrite length_map).
  assert (Hl2 : map snd l = y)
    by (unfold l; apply combine_snd; now rewrite length_map).
  assert (Hne : l <> []).
  { destruct X as [| x0 X]; [discriminate Hfit |].
    destruct y as [| y0 y]; [discriminate Hlen |]. discriminate. }
  pose proof (least_squares_pairs l Hne) as H. cbv zeta in H.
  rewrite Hl1, Hl2 in H.
  unfold fit in Hfit. destruct X as [| x0 X]; [discriminate |].
  injection Hfit as <-. unfold predict. cbn [coef_ intercept_].
  assert (Hmap : forall f : Q * Q -> Q, map f l = map (fun p => f (inject_Z (fst p), snd p))
                                         (combine (x0 :: X) y)).
  { intros f. unfold l.
    rewrite <- (map_id y) at 1. rewrite combine_map_both, map_map. reflexivity. }
  rewrite !Hmap in H. exact H.
Qed.

(** ** The claims about the uncertainty band *)

(** C1.  For every row of the forecast table the uncertainty is derived in
    this order: base = MAE * sqrt(k), k being the 1-based horizon step of the
    row; then the cap at 50% of the absolute point forecast; then, when the
    absolute point forecast is below 1000, the floor of 50, applied last.  The
    row stores that value rounded. *)
Theorem uncertainty_is_base_cap_floor (np_sqrt : Q -> Q)
    (dfs : list (string * DataFrame)) (target : list (string * list string))
    (h : Z) (include_cv include_r2 : bool) (table : list ForecastRow)
    (r : ForecastRow) :
  generate_forecast_table np_sqrt dfs target h include_cv include_r2 = Ok table ->
  In r table ->
  exists last_year st,
    get_last_year dfs = Ok last_year /\
    fitted_from np_sqrt dfs target (Category r) (Metric r) st /\
    (1 <= Year r - last_year <= h)%Z /\
    Uncertainty r =
      py_round
        (raise_to_floor (predict (model st) (Year r))
           (clamp_to_cap (predict (model st) (Year r))
              (base_uncertainty np_sqrt (mae st) (Year r - last_year)))).
Proof.
  intros Hgen Hin.
  destruct (generated_row_values _ _ _ _ _ _ _ _ Hgen Hin)
    as (last_year & st & Hly & Hfit & Hk & _ & HU).
  exists last_year, st. repeat split; try tauto.
  rewrite HU. apply py_round_comp, forecast_uncertainty_steps.
Qed.

Lemma uncertainty_is_base_cap_floor_witness :
  exists last_year st,
    get_last_year [("A"%string, linear_df)] = Ok last_year /\
    fitted_from sqrt_approx [("A"%string, linear_df)] linear_target
      (Category linear_row) (Metric linear_row) st /\
    (1 <= Year linear_row - last_year <= 2)%Z /\
    Uncertainty linear_row =
      py_round
        (raise_to_floor (predict (model st) (Year linear_row))
           (clamp_to_cap (predict (model st) (Year linear_row))
              (base_uncertainty sqrt_approx (mae st) (Year linear_row - last_year)))).
Proof.
  apply (uncertainty_is_base_cap_floor sqrt_approx [("A"%string, linear_df)]
           linear_target 2 true true linear_table linear_row).
  - vm_compute. reflexivity.
  - left. reflexivity.
Defined.

(** The floor comes last: a forecast of 10 with MAE 0 has base 0, cap 5 and
    uncertainty 50. *)
Example floor_applied_after_cap :
  base_uncertainty sqrt_approx 0 1 == 0 /\
  clamp_to_cap 10 (base_uncertainty sqrt_approx 0 1) == 0 /\
  raise_to_floor 10 (clamp_to_cap 10 (base_uncertainty sqrt_approx 0 1)) == 50 /\
  forecast_uncertainty sqrt_approx 0 1 10 == 50.
Proof. repeat split. Qed.

(** C3, as the code has it.  With the forecast value and the uncertainty
    taken before rounding: at an absolute forecast of 1000 or more the
    uncertainty is at most 50% of it; below 1000 the uncertainty is at least
    50 (and so is the stored, rounded one); in every case it is at most the
    larger of 50% of the absolute forecast and 50. *)
Theorem uncertainty_bounds (np_sqrt : Q -> Q)
    (dfs : list (string * DataFrame)) (target : list (string * list string))
    (h : Z) (include_cv include_r2 : bool) (table : list ForecastRow)
    (r : ForecastRow) :
  generate_forecast_table np_sqrt dfs target h include_cv include_r2 = Ok table ->
  In r table ->
  exists last_year st fv u,
    get_last_year dfs = Ok last_year /\
    fitted_from np_sqrt dfs target (Category r) (Metric r) st /\
    fv = predict (model st) (Year r) /\
    u = forecast_uncertainty np_sqrt (mae st) (Year r - last_year) fv /\
    Forecast r = py_round fv /\
    Uncertainty r = py_round u /\
    (1000 <= Qabs fv -> u <= (50 # 100) * Qabs fv) /\
    (Qabs fv < 1000 -> 50 <= u /\ (50 <= Uncertainty r)%Z) /\
    u <= Qmax ((50 # 100) * Qabs fv) 50.
Proof.
  intros Hgen Hin.
  destruct (generated_row_values _ _ _ _ _ _ _ _ Hgen Hin)
    as (last_year & st & Hly & Hfit & Hk & HF & HU).
  exists last_year, st. do 2 eexists.
  split; [exact Hly |]. split; [exact Hfit |].
  split; [reflexivity |]. split; [reflexivity |].
  split; [exact HF |]. split; [exact HU |].
  split; [| split].
  - intros Hbig. pose proof (forecast_uncertainty_cap np_sqrt (mae st)
                               (Year r - last_year) _ Hbig). lra.
  - intros Hsmall.
    pose proof (forecast_uncertainty_floor np_sqrt (mae st)
                  (Year r - last_year) _ Hsmall) as Hfl.
    split; [exact Hfl |]. rewrite HU. now apply py_round_lower.
  - pose proof (forecast_uncertainty_upper np_sqrt (mae st) (Year r - last_year)
                  (predict (model st) (Year r))) as Hup.
    eapply Qle_trans; [exact Hup |].
    apply Q.max_le_compat_r. lra.
Qed.

Lemma uncertainty_bounds_witness :
  exists last_year st fv u,
    get_last_year [("A"%string, linear_df)] = Ok last_year /\
    fitted_from sqrt_approx [("A"%string, linear_df)] linear_target
      (Category linear_row) (Metric linear_row) st /\
    fv = predict (model st) (Year linear_row) /\
    u = forecast_uncertainty sqrt_approx (mae st) (Year linear_row - last_year) fv /\
    Forecast linear_row = py_round fv /\
    Uncertainty linear_row = py_round u /\
    (1000 <= Qabs fv -> u <= (50 # 100) * Qabs fv) /\
    (Qabs fv < 1000 -> 50 <= u /\ (50 <= Uncertainty linear_row)%Z) /\
    u <= Qmax ((50 # 100) * Qabs fv) 50.
Proof.
  apply (uncertainty_bounds sqrt_approx [("A"%string, linear_df)]
           linear_target 2 true true linear_table linear_row).
  - vm_compute. reflexivity.
  - left. reflexivity.
Defined.

(** C3 fails as stated: a constant series at 10 is forecast at 10 with an
    uncertainty of 50, ten times the 50% cap of 5. *)
Lemma uncertainty_above_half_of_forecast :
  exists r,
    run [("P"%string, constant_df)] [("P", ["permits"])]%string 1 = Ok [r] /\
    Forecast r = 10%Z /\
    Uncertainty r = 50%Z /\
    forecast_uncertainty sqrt_approx 0 1 10 == 50 /\
    ~ inject_Z (Uncertainty r) <= (50 # 100) * inject_Z (Z.abs (Forecast r)).
Proof.
  eexists. split; [vm_compute; reflexivity |].
  split; [reflexivity |]. split; [reflexivity |]. split; [reflexivity |].
  intros H. vm_compute in H. apply H. reflexivity.
Qed.

(** ** The point forecast *)

Lemma fit_column_model (np_sqrt : Q -> Q) (X : list Z) (y : list Q) (st : FitStats) :
  fit_column np_sqrt X y = Ok st -> fit X y = Ok (model st).
Proof.
  unfold fit_column. intros H. bind_inv H. injection H as <-. exact Ha.
Qed.

(** Python's [round] returns an integer nearest to its argument. *)
Lemma py_round_nearest (x : Q) : Qabs (inject_Z (py_round x) - x) <= 1 # 2.
Proof.
  unfold py_round; cbv zeta.
  pose proof (Qfloor_le x) as H1. pose proof (Qlt_floor x) as H2.
  rewrite inject_Z_plus in H2. change (inject_Z 1) with 1 in H2.
  apply Qabs_Qle_condition.
  destruct (Qcompare_spec (x - inject_Z (Qfloor x)) (1 # 2)) as [E | L | G].
  - destruct (Z.even (Qfloor x)).
    + split; lra.
    + rewrite inject_Z_plus. change (inject_Z 1) with 1. split; lra.
  - split; lra.
  - rewrite inject_Z_plus. change (inject_Z 1) with 1. split; lra.
Qed.

(** C6, as the code has it.  The stored point forecast of every row is the
    prediction, at the year of the row, of the model that [fit] returned for
    the years and the values of the row's column, rounded by Python's [round]
    and nothing else: it is an integer at most 1/2 away from the model's own
    output.  The statement names the fit and its prediction and does not
    depend on how the library computes them. *)
Theorem forecast_is_rounded_line (np_sqrt : Q -> Q)
    (dfs : list (string * DataFrame)) (target : list (string * list string))
    (h : Z) (include_cv include_r2 : bool) (table : list ForecastRow)
    (r : ForecastRow) :
  generate_forecast_table np_sqrt dfs target h include_cv include_r2 = Ok table ->
  In r table ->
  exists df s m,
    In (Category r, df) dfs /\
    lookup (Metric r) (df_columns df) = Some s /\
    isnull_any s = false /\
    fit (df_Year df) (values s) = Ok m /\
    Forecast r = py_round (predict m (Year r)) /\
    Qabs (inject_Z (Forecast r) - predict m (Year r)) <= 1 # 2.
Proof.
  intros Hgen Hin.
  destruct (generated_row_values _ _ _ _ _ _ _ _ Hgen Hin)
    as (last_year & st & _ & (df & columns & s & Hdf & _ & _ & Hs & Hnull & Hfit)
        & _ & HF & _).
  exists df, s, (model st).
  split; [exact Hdf |]. split; [now apply getitem_lookup |].
  split; [exact Hnull |].
  split; [exact (fit_column_model _ _ _ _ Hfit) |].
  split; [exact HF |].
  rewrite HF. apply py_round_nearest.
Qed.

Lemma forecast_is_rounded_line_witness :
  exists df s m,
    In (Category rounding_row, df) [("R"%string, rounding_df)] /\
    lookup (Metric rounding_row) (df_columns df) = Some s /\
    isnull_any s = false /\
    fit (df_Year df) (values s) = Ok m /\
    Forecast rounding_row = py_round (predict m (Year rounding_row)) /\
    Qabs (inject_Z (Forecast rounding_row) - predict m (Year rounding_row)) <= 1 # 2.
Proof.
  apply (forecast_is_rounded_line sqrt_approx [("R"%string, rounding_df)]
           rounding_target 1 true true rounding_table rounding_row).
  - vm_compute. reflexivity.
  - left. reflexivity.
Defined.

(** C6 fails as stated: the line fitted to 0, 0, 1 over 2021-2023 gives a
    value between 1.3 and 1.4 at 2024, and the row of 2024 stores 1. *)
Lemma forecast_differs_from_line :
  exists m r,
    fit [2021; 2022; 2023]%Z [0; 0; 1] = Ok m /\
    run [("V"%string, uneven_df)] [("V", ["visas"])]%string 1 = Ok [r] /\
    Year r = 2024%Z /\
    13 # 10 < predict m (Year r) < 14 # 10 /\
    Forecast r = 1%Z /\
    ~ inject_Z (Forecast r) == predict m (Year r).
Proof.
  do 2 eexists.
  split; [vm_compute; reflexivity |].
  split; [vm_compute; reflexivity |].
  split; [reflexivity |].
  split; [split; vm_compute; reflexivity |].
  split; [reflexivity |].
  intros H. vm_compute in H. discriminate H.
Qed.

(** ** Rounded values and the relative uncertainty *)

Local Close Scope Q_scope.

Lemma for_each_assess_row (table : list ForecastRow) :
  (forall r, In r table -> R2 r <> None) ->
  for_each assess_row table =
  Ok (map (fun r => {| forecast_row := r;
                       Uncertainty_pct := np_round 1 (uncertainty_percentage r);
                       Reliability := reliability (uncertainty_percentage r) (r2_or_nan r) |})
          table).
Proof.
  induction table as [| r table IH]; simpl; intros H; [reflexivity |].
  rewrite IH by auto.
  unfold assess_row, r2_or_nan.
  destruct (R2 r) eqn:E; [reflexivity |].
  exfalso. apply (H r); auto.
Qed.

Lemma assess_forecast_reliability_rows (table : list ForecastRow) :
  (forall r, In r table -> R2 r <> None) ->
  table <> [] ->
  assess_forecast_reliability table =
  Ok (map (fun r => {| forecast_row := r;
                       Uncertainty_pct := np_round 1 (uncertainty_percentage r);
                       Reliability := reliability (uncertainty_percentage r) (r2_or_nan r) |})
          table).
Proof.
  intros H Hne. unfold assess_forecast_reliability.
  destruct table as [| r table]; [congruence |].
  now apply for_each_assess_row.
Qed.

Lemma generated_rows_have_r2 (np_sqrt : Q -> Q)
    (dfs : list (string * DataFrame)) (target : list (string * list string))
    (h : Z) (include_cv : bool) (table : list ForecastRow) (r : ForecastRow) :
  generate_forecast_table np_sqrt dfs target h include_cv true = Ok table ->
  In r table -> R2 r <> None.
Proof.
  intros Hgen Hin.
  destruct (generated_row_inv _ _ _ _ _ _ _ _ Hgen Hin)
    as (last_year & st & Hly & Hfit & Hk & Hr).
  apply (f_equal R2) in Hr. simpl in Hr. congruence.
Qed.

(** The assessment of a built table raises nothing. *)
Lemma assess_generated_table (np_sqrt : Q -> Q)
    (dfs : list (string * DataFrame)) (target : list (string * list string))
    (h : Z) (include_cv : bool) (table : list ForecastRow) :
  generate_forecast_table np_sqrt dfs target h include_cv true = Ok table ->
  assess_forecast_reliability table =
  Ok (map (fun r => {| forecast_row := r;
                       Uncertainty_pct := np_round 1 (uncertainty_percentage r);
                       Reliability := reliability (uncertainty_percentage r) (r2_or_nan r) |})
          table).
Proof.
  intros Hgen. apply assess_forecast_reliability_rows.
  - intros r Hin. exact (generated_rows_have_r2 _ _ _ _ _ _ _ Hgen Hin).
  - exact (generated_table_nonempty _ _ _ _ _ _ _ Hgen).
Qed.

Lemma uncertainty_percentage_finite (r : ForecastRow) :
  Forecast r <> 0 ->
  uncertainty_percentage r =
  Fin (inject_Z (Uncertainty r) / inject_Z (Z.abs (Forecast r)) * 100)%Q.
Proof.
  intros H. unfold uncertainty_percentage, of_int, npf_div, Qsign.
  destruct (Qcompare_spec (inject_Z (Z.abs (Forecast r))) 0) as [E | L | G];
    try reflexivity.
  exfalso. unfold Qeq in E. simpl in E. lia.
Qed.

Lemma uncertainty_percentage_zero_forecast (r : ForecastRow) :
  Forecast r = 0 -> 0 < Uncertainty r -> uncertainty_percentage r = PosInf.
Proof.
  intros H0 Hpos. unfold uncertainty_percentage, of_int, npf_div, Qsign.
  rewrite H0. simpl.
  destruct (Qcompare_spec (inject_Z (Uncertainty r)) 0) as [E | L | G].
  - exfalso. unfold Qeq in E. simpl in E. lia.
  - exfalso. unfold Qlt in L. simpl in L. lia.
  - reflexivity.
Qed.



(** A run where the rounding matters: the line gives about 1026.67 and the
    uncertainty is about 62.22; the row stores 1027 and 62, and the assessment
    stores
    6.0, the rounding of 62/1027*100 = 6.04, where the unrounded values give
    6.06, rounded 6.1.  None of the four roundings is near a tie. *)
Example rounding_changes_the_percentage :
  exists st rr,
    fit_column sqrt_approx [2021; 2022; 2023]%Z [1100; 1200; 1020]%Q = Ok st /\
    assess_forecast_reliability rounding_table = Ok [rr] /\
    let fv := predict (model st) 2024 in
    let u := forecast_uncertainty sqrt_approx (mae st) 1 fv in
    (10266 # 10 < fv < 10267 # 10)%Q /\
    Forecast (forecast_row rr) = 1027 /\
    (622 # 10 < u < 623 # 10)%Q /\
    Uncertainty (forecast_row rr) = 62 /\
    Uncertainty_pct rr = Fin (60 # 10) /\
    np_round 1 (npf_mul (npf_div (Fin u) (Fin (Qabs fv))) (Fin 100)) = Fin (61 # 10).
Proof.
  do 2 eexists.
  split; [vm_compute; reflexivity |].
  split; [vm_compute; reflexivity |].
  cbv zeta. repeat split; vm_compute; reflexivity.
Qed.

(** ** A forecast of zero *)

(** A built row with a stored forecast of 0 has a stored uncertainty of at
    least 50. *)
Lemma generated_row_zero_forecast (np_sqrt : Q -> Q) (dfs : list (string * DataFrame))
    (target : list (string * list string)) (h : Z) (include_cv include_r2 : bool)
    (table : list ForecastRow) (r : ForecastRow) :
  generate_forecast_table np_sqrt dfs target h include_cv include_r2 = Ok table ->
  In r table -> Forecast r = 0 -> 50 <= Uncertainty r.
Proof.
  intros Hgen Hin Hzero.
  destruct (generated_row_values _ _ _ _ _ _ _ _ Hgen Hin)
    as (last_year & st & _ & _ & _ & HF & HU).
  rewrite HF in Hzero. apply py_round_zero in Hzero.
  rewrite HU. apply py_round_lower.
  apply forecast_uncertainty_floor.
  eapply Qle_lt_trans; [exact Hzero | reflexivity].
Qed.

(** C4, as the code has it.  A row of the table whose stored forecast is 0
    has a stored uncertainty of at least 50; the assessment gives it the
    percentage +infinity, raising nothing, and the tier Very Low
    Reliability. *)
Theorem zero_forecast_is_very_low (np_sqrt : Q -> Q)
    (dfs : list (string * DataFrame)) (target : list (string * list string))
    (h : Z) (include_cv : bool) (table : list ForecastRow) :
  generate_forecast_table np_sqrt dfs target h include_cv true = Ok table ->
  exists rtable,
    assess_forecast_reliability table = Ok rtable /\
    map forecast_row rtable = table /\
    forall rr, In rr rtable ->
      Forecast (forecast_row rr) = 0 ->
      50 <= Uncertainty (forecast_row rr) /\
      Uncertainty_pct rr = PosInf /\
      Reliability rr = "Very Low Reliability"%string.
Proof.
  intros Hgen.
  eexists. split.
  { exact (assess_generated_table _ _ _ _ _ _ Hgen). }
  split.
  { rewrite map_map. simpl. apply map_id. }
  intros rr Hrr. apply in_map_iff in Hrr. destruct Hrr as (r & <- & Hin). simpl.
  intros Hzero.
  pose proof (generated_row_zero_forecast _ _ _ _ _ _ _ _ Hgen Hin Hzero) as H50.
  split; [exact H50 |].
  rewrite (uncertainty_percentage_zero_forecast r Hzero) by lia.
  split; reflexivity.
Qed.

Lemma zero_forecast_is_very_low_witness :
  exists rtable,
    assess_forecast_reliability zero_table = Ok rtable /\
    map forecast_row rtable = zero_table /\
    forall rr, In rr rtable ->
      Forecast (forecast_row rr) = 0 ->
      50 <= Uncertainty (forecast_row rr) /\
      Uncertainty_pct rr = PosInf /\
      Reliability rr = "Very Low Reliability"%string.
Proof.
  apply (zero_forecast_is_very_low sqrt_approx [("M"%string, zero_df)]
           [("M", ["net"])]%string 1 true zero_table).
  vm_compute. reflexivity.
Defined.

(** C4 fails as stated: an all-zero series is forecast at 0 with an
    uncertainty of 50; its percentage is +infinity, not an undefined marker,
    and its tier is Very Low Reliability, not Unknown. *)
Lemma zero_forecast_not_unknown :
  exists rr,
    (table <- run [("M"%string, zero_df)] [("M", ["net"])]%string 1 ;;
     assess_forecast_reliability table) = Ok [rr] /\
    Forecast (forecast_row rr) = 0 /\
    Uncertainty (forecast_row rr) = 50 /\
    Uncertainty_pct rr = PosInf /\
    Reliability rr = "Very Low Reliability"%string /\
    Reliability rr <> "Unknown"%string.
Proof.
  eexists. split; [vm_compute; reflexivity |].
  repeat split. discriminate.
Qed.

(** ** The reliability tier *)

(** C2, as the code has it.  The tier is a total function of the percentage
    and R²: when the percentage is NaN no rule holds and the tier is Unknown;
    otherwise it is the first match of the ordered rule table, Very Low
    Reliability when none of the first four rules holds. *)
Theorem reliability_by_rule_table (uncertainty_pct r2 : npfloat) :
  reliability uncertainty_pct r2 =
  match uncertainty_pct with
  | NaN => "Unknown"%string
  | _ => tier_by_rules uncertainty_pct r2
  end.
Proof.
  unfold reliability, tier_by_rules, rule_table.
  generalize (npf_geb r2 (Fin (9 # 10))) (npf_geb r2 (Fin (7 # 10)))
             (npf_geb r2 (Fin (5 # 10))).
  intros c1 c2 c3.
  destruct uncertainty_pct as [q | | |]; simpl; unfold Qlt_bool.
  - destruct (Qle_bool q 10), (Qle_bool q 25), (Qle_bool q 40), (Qle_bool q 60),
      c1, c2, c3; reflexivity.
  - reflexivity.
  - destruct c1, c2, c3; reflexivity.
  - reflexivity.
Qed.

(** C2 fails as stated: a row with a forecast and an uncertainty of 0 has the
    percentage 0/0 = NaN; no condition holds for it and the tier is Unknown,
    where the rule table ends in Very Low Reliability. *)
Lemma reliability_unknown_for_nan :
  uncertainty_percentage null_row = NaN /\
  (exists rr, assess_forecast_reliability [null_row] = Ok [rr] /\
              Reliability rr = "Unknown"%string) /\
  reliability NaN (Fin 1) = "Unknown"%string /\
  tier_by_rules NaN (Fin 1) = "Very Low Reliability"%string /\
  reliability NaN (Fin 1) <> tier_by_rules NaN (Fin 1).
Proof.
  split; [reflexivity |].
  split; [eexists; split; reflexivity |].
  split; [reflexivity |].
  split; [reflexivity |].
  discriminate.
Qed.

(** ** Short series *)

Local Open Scope Q_scope.

Lemma fit_single_point (year : Z) (v : Q) :
  exists m, fit [year] [v] = Ok m /\ coef_ m = 0 /\ intercept_ m == v.
Proof.
  unfold fit.
  assert (E : Qeq_bool (dot (centre (map inject_Z [year]))
                            (centre (map inject_Z [year]))) 0 = true).
  { apply Qeq_eq_bool. unfold dot, centre, np_mean, np_sum. simpl.
    change (inject_Z 1) with 1. field. }
  rewrite E. eexists. split; [reflexivity |]. split; [reflexivity |].
  simpl. unfold np_mean, np_sum. simpl. change (inject_Z 1) with 1. field.
Qed.

Local Close Scope Q_scope.

(** C5, as the code has it.  A column with exactly one historical point is
    not refused and not skipped: the fit succeeds with slope 0 and the value
    as intercept, and the column yields one row per forecast year, each with
    the rounded value as forecast; nothing is raised for it. *)
Theorem single_point_series_is_forecast (np_sqrt : Q -> Q)
    (include_cv include_r2 : bool) (forecast_years : list Z)
    (category column : string) (df : DataFrame) (year : Z) (v : Q) :
  df_Year df = [year] ->
  lookup column (df_columns df) = Some [Some v] ->
  exists st rows,
    fit_column np_sqrt [year] [v] = Ok st /\
    coef_ (model st) = 0%Q /\
    (intercept_ (model st) == v)%Q /\
    forecast_column np_sqrt include_cv include_r2 forecast_years category df column
      = Ok rows /\
    map Year rows = forecast_years /\
    forall r, In r rows ->
      Category r = category /\ Metric r = column /\ Forecast r = py_round v.
Proof.
  intros HY Hcol.
  destruct (fit_single_point year v) as (m & Hm & Hc & Hi).
  assert (Hst : exists st, fit_column np_sqrt [year] [v] = Ok st /\ model st = m).
  { unfold fit_column. rewrite Hm. cbn [bind]. eexists. split; reflexivity. }
  destruct Hst as (st & Hst & Hmodel).
  exists st. eexists.
  split; [exact Hst |].
  rewrite Hmodel. split; [exact Hc |]. split; [exact Hi |].
  split; [| split].
  - unfold forecast_column, getitem. rewrite Hcol. cbn [bind isnull_any existsb orb].
    rewrite HY. change (values [Some v]) with [v].
    rewrite Hst. cbn [bind]. reflexivity.
  - rewrite map_map. simpl. apply enumerate_snd.
  - intros r Hr. apply in_map_iff in Hr. destruct Hr as ([i y] & <- & _). simpl.
    repeat split. apply py_round_comp. unfold predict.
    rewrite Hmodel, Hc, Hi. ring.
Qed.

Lemma single_point_series_is_forecast_witness :
  exists st rows,
    fit_column sqrt_approx [2025] [7%Q] = Ok st /\
    coef_ (model st) = 0%Q /\
    (intercept_ (model st) == 7)%Q /\
    forecast_column sqrt_approx true true [2026; 2027] "S" single_df "pilot"
      = Ok rows /\
    map Year rows = [2026; 2027] /\
    forall r, In r rows ->
      Category r = "S"%string /\ Metric r = "pilot"%string /\ Forecast r = py_round 7.
Proof.
  apply (single_point_series_is_forecast sqrt_approx true true [2026; 2027]
           "S" "pilot" single_df 2025 7%Q); reflexivity.
Defined.

(** C5 fails as stated: a frame with the single point (2025, 7) is not
    skipped; the run ends normally with one row per forecast year. *)
Lemma single_point_series_not_skipped :
  List.length (df_Year single_df) = 1%nat /\
  exists r1 r2,
    run [("S"%string, single_df)] [("S", ["pilot"])]%string 2 = Ok [r1; r2] /\
    Metric r1 = "pilot"%string /\ Year r1 = 2026 /\ Forecast r1 = 7 /\
    Metric r2 = "pilot"%string /\ Year r2 = 2027 /\ Forecast r2 = 7.
Proof.
  split; [reflexivity |].
  do 2 eexists. split; [vm_compute; reflexivity |].
  repeat split.
Qed.

(** ** Columns with missing values *)






(** The scenario of the specification: of the three requested columns, the
    two complete ones, of opposite trend, get their rows; the one with a
    missing value gets none. *)
Example gap_frame_rows :
  map (fun r => (Metric r, Forecast r))
      (table_of (run [("G"%string, gap_df)] [("G", ["up"; "holes"; "down"])]%string 1))
  = [("down", 30); ("up", 180)]%string.
Proof. vm_compute. reflexivity. Qed.

(** ** The coefficient of variation of a zero-mean series *)

Lemma NoDup_keys_In {V} (d : list (string * V)) (key : string) (v v' : V) :
  NoDup (map fst d) -> In (key, v) d -> In (key, v') d -> v = v'.
Proof.
  induction d as [| [k w] d IH]; simpl; intros Hnd Hv Hv'; [contradiction |].
  inversion Hnd as [| ? ? Hnotin Hnd']; subst.
  destruct Hv as [E | Hv]; destruct Hv' as [E' | Hv'].
  - congruence.
  - injection E as -> ->. exfalso. apply Hnotin.
    apply (in_map fst) in Hv'. exact Hv'.
  - injection E' as -> ->. exfalso. apply Hnotin.
    apply (in_map fst) in Hv. exact Hv.
  - now apply IH.
Qed.

Lemma fit_column_zero_mean (np_sqrt : Q -> Q) (X : list Z) (y : list Q) (st : FitStats) :
  fit_column np_sqrt X y = Ok st -> (np_mean y == 0)%Q -> cv st = PosInf.
Proof.
  unfold fit_column. intros H Hmean. bind_inv H. injection H as <-. simpl.
  now rewrite (Qeq_eq_bool _ _ Hmean).
Qed.

(** C8, as the code has it.  For a series whose mean is 0, the coefficient of
    variation is the float +infinity, and every row of that column carries
    +infinity in CV (%): rounding leaves it unchanged.  Nothing is raised for
    it, neither by the builder nor by the reliability assessment of the
    table. *)
Theorem zero_mean_cv_is_infinite (np_sqrt : Q -> Q)
    (dfs : list (string * DataFrame)) (target : list (string * list string))
    (h : Z) (table : list ForecastRow)
    (category column : string) (df : DataFrame) (s : list (option Q)) :
  NoDup (map fst dfs) ->
  generate_forecast_table np_sqrt dfs target h true true = Ok table ->
  In (category, df) dfs ->
  lookup column (df_columns df) = Some s ->
  (np_mean (values s) == 0)%Q ->
  (forall r, In r table -> Category r = category -> Metric r = column ->
             CV r = Some PosInf) /\
  exists rtable,
    assess_forecast_reliability table = Ok rtable /\
    map forecast_row rtable = table.
Proof.
  intros Hnd Hgen Hdf Hs Hmean. split.
  - intros r Hin Hc Hm.
    destruct (generated_row_inv _ _ _ _ _ _ _ _ Hgen Hin)
      as (last_year & st & _
          & (df' & columns & s' & Hdf' & _ & _ & Hs' & _ & Hfit) & _ & Hr).
    rewrite Hc in Hdf'. rewrite Hm in Hs'.
    assert (df' = df) by exact (NoDup_keys_In _ _ _ _ Hnd Hdf' Hdf). subst df'.
    apply getitem_lookup in Hs'. rewrite Hs in Hs'. injection Hs' as <-.
    apply (f_equal CV) in Hr. simpl in Hr. rewrite Hr.
    now rewrite (fit_column_zero_mean _ _ _ _ Hfit Hmean).
  - eexists. split.
    + exact (assess_generated_table _ _ _ _ _ _ Hgen).
    + rewrite map_map. simpl. apply map_id.
Qed.

Lemma zero_mean_cv_is_infinite_witness :
  (forall r, In r zero_mean_table ->
             Category r = "B"%string -> Metric r = "balance"%string ->
             CV r = Some PosInf) /\
  exists rtable,
    assess_forecast_reliability zero_mean_table = Ok rtable /\
    map forecast_row rtable = zero_mean_table.
Proof.
  apply (zero_mean_cv_is_infinite sqrt_approx [("B"%string, zero_mean_df)]
           [("B", ["balance"])]%string 1 zero_mean_table "B" "balance"
           zero_mean_df [Some (-1)%Q; Some 1%Q]).
  - repeat constructor. simpl. tauto.
  - vm_compute. reflexivity.
  - left. reflexivity.
  - reflexivity.
  - reflexivity.
Defined.

(** C8 fails as stated: the series -1, 1 has mean 0 and a variance that is
    not 0, and its row carries the number +infinity in CV (%), not an absent
    value. *)
Lemma zero_mean_cv_not_absent :
  exists r,
    run [("B"%string, zero_mean_df)] [("B", ["balance"])]%string 1 = Ok [r] /\
    (np_mean [-1; 1] == 0)%Q /\
    ~ (np_mean [square (-1 - 0); square (1 - 0)] == 0)%Q /\
    CV r = Some PosInf /\
    CV r <> None.
Proof.
  eexists. split; [vm_compute; reflexivity |].
  split; [reflexivity |].
  split; [intros H; vm_compute in H; discriminate H |].
  split; [reflexivity | discriminate].
Qed.

(** ** The forecast years *)

(** C10.  The table is, up to the final sort, one block of rows per
    non-skipped (category, column) pair.  Every block has the same years,
    [last_year + 1 .. last_year + h], where [last_year] is the largest year
    of all the frames together; it has [h] rows, and its row of year
    [last_year + k] is computed at horizon step [k], the first at step 1. *)
Theorem forecast_years_are_global (np_sqrt : Q -> Q)
    (dfs : list (string * DataFrame)) (target : list (string * list string))
    (h : Z) (include_cv include_r2 : bool) (table : list ForecastRow) :
  generate_forecast_table np_sqrt dfs target h include_cv include_r2 = Ok table ->
  exists last_year blocks,
    get_last_year dfs = Ok last_year /\
    (exists entry, In entry dfs /\ In last_year (df_Year (snd entry))) /\
    (forall entry y, In entry dfs -> In y (df_Year (snd entry)) -> y <= last_year) /\
    Permutation table (List.concat blocks) /\
    Forall2
      (fun pair block =>
         map Year block = py_range (last_year + 1) (last_year + h + 1) /\
         Z.of_nat (List.length block) = Z.max 0 h /\
         exists st,
           fit_column np_sqrt (df_Year (snd (fst pair)))
             (values (match lookup (snd pair) (df_columns (snd (fst pair))) with
                      | Some s => s
                      | None => []
                      end)) = Ok st /\
           forall r, In r block ->
             Category r = fst (fst pair) /\
             Metric r = snd pair /\
             1 <= Year r - last_year <= h /\
             Forecast r = py_round (predict (model st) (Year r)) /\
             Uncertainty r =
               py_round (forecast_uncertainty np_sqrt (mae st) (Year r - last_year)
                           (predict (model st) (Year r))))
      (non_skipped_pairs dfs target) blocks.
Proof.
  intros Hgen.
  destruct (generate_forecast_table_blocks _ _ _ _ _ _ _ Hgen)
    as (last_year & blocks & Hly & Hperm & Hall).
  destruct (get_last_year_spec _ _ Hly) as [Hmax1 Hmax2].
  exists last_year, blocks.
  split; [exact Hly |]. split; [exact Hmax1 |]. split; [exact Hmax2 |].
  split; [exact Hperm |].
  eapply Forall2_impl; [| exact Hall].
  intros [[category df] column] block (s & st & Hs & Hnull & Hfit & ->). simpl in *.
  split; [| split].
  - rewrite map_map. simpl. unfold py_range.
    now replace (last_year + h + 1 - (last_year + 1)) with h by lia.
  - rewrite length_map, length_seq. lia.
  - exists st. split.
    + apply getitem_lookup in Hs. now rewrite Hs.
    + intros r Hr. apply in_map_iff in Hr. destruct Hr as (i & <- & Hi).
      apply in_seq in Hi. simpl.
      replace (last_year + 1 + Z.of_nat i - last_year) with (Z.of_nat i + 1) by lia.
      repeat split; lia.
Qed.

Lemma forecast_years_are_global_witness :
  exists last_year blocks,
    get_last_year two_frames = Ok last_year /\
    (exists entry, In entry two_frames /\ In last_year (df_Year (snd entry))) /\
    (forall entry y, In entry two_frames -> In y (df_Year (snd entry)) -> y <= last_year) /\
    Permutation two_frames_table (List.concat blocks) /\
    Forall2
      (fun pair block =>
         map Year block = py_range (last_year + 1) (last_year + 2 + 1) /\
         Z.of_nat (List.length block) = Z.max 0 2 /\
         exists st,
           fit_column sqrt_approx (df_Year (snd (fst pair)))
             (values (match lookup (snd pair) (df_columns (snd (fst pair))) with
                      | Some s => s
                      | None => []
                      end)) = Ok st /\
           forall r, In r block ->
             Category r = fst (fst pair) /\
             Metric r = snd pair /\
             1 <= Year r - last_year <= 2 /\
             Forecast r = py_round (predict (model st) (Year r)) /\
             Uncertainty r =
               py_round (forecast_uncertainty sqrt_approx (mae st) (Year r - last_year)
                           (predict (model st) (Year r))))
      (non_skipped_pairs two_frames two_frames_target) blocks.
Proof.
  apply (forecast_years_are_global sqrt_approx two_frames two_frames_target 2
           true true two_frames_table).
  vm_compute. reflexivity.
Defined.

(** The frame that ends in 2024 is forecast for 2026 and 2027 like the one
    that ends in 2025: the years follow the latest frame. *)
Example early_frame_years :
  get_last_year two_frames = Ok 2025 /\
  map (fun r => (Year r, Metric r)) two_frames_table =
  [(2026, "workers"); (2026, "arrivals"); (2027, "workers"); (2027, "arrivals")]%string.
Proof. split; reflexivity. Qed.

(** ** Unknown is out of reach of built tables *)

Lemma reliability_unknown_iff (uncertainty_pct r2 : npfloat) :
  reliability uncertainty_pct r2 = "Unknown"%string <-> uncertainty_pct = NaN.
Proof.
  unfold reliability.
  generalize (npf_geb r2 (Fin (9 # 10))) (npf_geb r2 (Fin (7 # 10)))
             (npf_geb r2 (Fin (5 # 10))).
  intros c1 c2 c3.
  destruct uncertainty_pct as [q | | |]; simpl; unfold Qlt_bool.
  - destruct (Qle_bool q 10), (Qle_bool q 25), (Qle_bool q 40), (Qle_bool q 60),
      c1, c2, c3; simpl; split; discriminate.
  - split; discriminate.
  - destruct c1, c2, c3; simpl; split; discriminate.
  - split; reflexivity.
Qed.

(** The percentage of a built row is a number or +infinity, never NaN, so
    no row of a built table is rated Unknown. *)
Lemma built_rows_never_unknown (np_sqrt : Q -> Q)
    (dfs : list (string * DataFrame)) (target : list (string * list string))
    (h : Z) (include_cv : bool) (table : list ForecastRow) :
  generate_forecast_table np_sqrt dfs target h include_cv true = Ok table ->
  exists rtable,
    assess_forecast_reliability table = Ok rtable /\
    forall rr, In rr rtable -> Reliability rr <> "Unknown"%string.
Proof.
  intros Hgen.
  eexists. split.
  { exact (assess_generated_table _ _ _ _ _ _ Hgen). }
  intros rr Hrr. apply in_map_iff in Hrr. destruct Hrr as (r & <- & Hin). simpl.
  rewrite reliability_unknown_iff.
  destruct (Z.eq_dec (Forecast r) 0) as [Hzero | Hnz].
  - pose proof (generated_row_zero_forecast _ _ _ _ _ _ _ _ Hgen Hin Hzero) as H50.
    rewrite (uncertainty_percentage_zero_forecast r Hzero) by lia. discriminate.
  - rewrite (uncertainty_percentage_finite r Hnz). discriminate.
Qed.

(** ** Runs that raise *)

(** A frame without rows cannot be fitted: [fit] raises ValueError. *)
Example empty_series_raises :
  run [("A"%string, linear_df); ("N"%string, series "none" [] [])]
      [("A", ["workers"]); ("N", ["none"])]%string 1 = Raise ValueError.
Proof. vm_compute. reflexivity. Qed.

(** The scenario of the specification: a perfect linear trend from 100 to
    180 is forecast at 200 for 2026, with uncertainty 50, 25.0 percent and
    Good Reliability. *)
Example linear_trend_scenario :
  exists rr rr',
    (table <- run [("A"%string, linear_df)] linear_target 2 ;;
     assess_forecast_reliability table) = Ok [rr; rr'] /\
    Year (forecast_row rr) = 2026 /\
    Forecast (forecast_row rr) = 200 /\
    Uncertainty (forecast_row rr) = 50 /\
    Uncertainty_pct rr = Fin (250 # 10) /\
    Reliability rr = "Good Reliability"%string.
Proof.
  do 2 eexists. split; [vm_compute; reflexivity |]. repeat split.
Qed.

(** ** The table is sorted *)

Lemma string_compare_trans (a b c : string) :
  String.compare a b = Lt -> String.compare b c = Lt -> String.compare a c = Lt.
Proof.
  change (String_as_OT.lt a b -> String_as_OT.lt b c -> String_as_OT.lt a c).
  apply String_as_OT.lt_strorder.
Qed.

Lemma string_compare_refl (a : string) : String.compare a a = Eq.
Proof.
  destruct (String.compare a a) eqn:E; [reflexivity | |];
    pose proof (String.compare_antisym a a) as H; rewrite E in H; discriminate.
Qed.

(** [row_leb] spelled out: the lexicographic order of the three keys. *)
Lemma row_leb_spec (a b : ForecastRow) :
  row_leb a b = true <->
  Year a < Year b \/
  (Year a = Year b /\
   (String.compare (Category a) (Category b) = Lt \/
    (Category a = Category b /\ String.compare (Metric a) (Metric b) <> Gt))).
Proof.
  assert (Hc : Category a = Category b ->
               String.compare (Category a) (Category b) = Eq)
    by (intros ->; apply string_compare_refl).
  unfold row_leb.
  destruct (Z.compare_spec (Year a) (Year b)) as [E | L | G];
    destruct (String.compare (Category a) (Category b)) eqn:Ec;
    destruct (String.compare (Metric a) (Metric b)) eqn:Em;
    try (apply String.compare_eq_iff in Ec);
    split; intros H; try discriminate; try reflexivity;
    try (left; lia);
    try (right; split; [exact E |]; first
           [ left; reflexivity
           | right; split; [exact Ec | discriminate] ]);
    try (destruct H as [H | (H1 & [H | (H2 & H)])];
         first [ lia | discriminate | congruence
               | specialize (Hc H2); congruence ]).
Qed.

Lemma row_leb_total (a b : ForecastRow) : row_leb a b = false -> row_leb b a = true.
Proof.
  unfold row_leb. rewrite (Z.compare_antisym (Year a) (Year b)).
  rewrite (String.compare_antisym (Category b) (Category a)).
  rewrite (String.compare_antisym (Metric b) (Metric a)).
  destruct (Year a ?= Year b); simpl; try discriminate; try reflexivity.
  destruct (String.compare (Category a) (Category b)); simpl;
    try discriminate; try reflexivity.
  destruct (String.compare (Metric a) (Metric b)); simpl;
    try discriminate; reflexivity.
Qed.

Lemma string_compare_not_gt_trans (a b c : string) :
  String.compare a b <> Gt -> String.compare b c <> Gt -> String.compare a c <> Gt.
Proof.
  intros H1 H2.
  destruct (String.compare a b) eqn:E1; [| | congruence].
  - apply String.compare_eq_iff in E1. now subst.
  - destruct (String.compare b c) eqn:E2; [| | congruence].
    + apply String.compare_eq_iff in E2. subst. now rewrite E1.
    + now rewrite (string_compare_trans _ _ _ E1 E2).
Qed.

Lemma row_leb_trans (a b c : ForecastRow) :
  row_leb a b = true -> row_leb b c = true -> row_leb a c = true.
Proof.
  rewrite !row_leb_spec.
  intros [H1 | (E1 & H1)] [H2 | (E2 & H2)]; try (left; lia).
  right. split; [lia |].
  destruct H1 as [H1 | (C1 & H1)]; destruct H2 as [H2 | (C2 & H2)].
  - left. exact (string_compare_trans _ _ _ H1 H2).
  - left. now rewrite <- C2.
  - left. now rewrite C1.
  - right. split; [congruence |].
    exact (string_compare_not_gt_trans _ _ _ H1 H2).
Qed.

Lemma insert_row_sorted (r : ForecastRow) (l : list ForecastRow) :
  StronglySorted (fun a b => row_leb a b = true) l ->
  StronglySorted (fun a b => row_leb a b = true) (insert_row r l).
Proof.
  induction 1 as [| r' l Hs IH Hall]; simpl.
  - constructor; constructor.
  - destruct (row_leb r r') eqn:E.
    + constructor; [constructor; assumption |].
      constructor; [exact E |].
      eapply Forall_impl; [| exact Hall].
      intros x Hx. exact (row_leb_trans _ _ _ E Hx).
    + constructor; [exact IH |].
      apply (Permutation_Forall (x := r :: l)).
      * symmetry. apply insert_row_perm.
      * constructor; [now apply row_leb_total | exact Hall].
Qed.

Lemma StronglySorted_impl {A} (R R' : A -> A -> Prop) (l : list A) :
  (forall a b, R a b -> R' a b) -> StronglySorted R l -> StronglySorted R' l.
Proof.
  intros HR. induction 1 as [| x l Hs IH Hall]; constructor; [exact IH |].
  eapply Forall_impl; [| exact Hall]. intros y. apply HR.
Qed.

Lemma sort_values_sorted (l : list ForecastRow) :
  StronglySorted (fun a b => row_leb a b = true) (sort_values l).
Proof.
  induction l as [| r l IH]; simpl; [constructor | now apply insert_row_sorted].
Qed.

(** X1.  The table the builder returns is in ascending order of (Year,
    Category, Metric): every row precedes, or ties with, all the rows after
    it. *)
Theorem table_is_sorted (np_sqrt : Q -> Q)
    (dfs : list (string * DataFrame)) (target : list (string * list string))
    (h : Z) (include_cv include_r2 : bool) (table : list ForecastRow) :
  generate_forecast_table np_sqrt dfs target h include_cv include_r2 = Ok table ->
  StronglySorted
    (fun a b =>
       Year a < Year b \/
       (Year a = Year b /\
        (String.compare (Category a) (Category b) = Lt \/
         (Category a = Category b /\ String.compare (Metric a) (Metric b) <> Gt))))
    table.
Proof.
  unfold generate_forecast_table. intros H. bind_inv H.
  destruct a as [| r rs]; [discriminate |]. injection H as <-.
  apply (StronglySorted_impl (fun a b => row_leb a b = true)).
  - intros x y. apply row_leb_spec.
  - apply (sort_values_sorted (r :: rs)).
Qed.

Lemma table_is_sorted_witness :
  StronglySorted
    (fun a b =>
       Year a < Year b \/
       (Year a = Year b /\
        (String.compare (Category a) (Category b) = Lt \/
         (Category a = Category b /\ String.compare (Metric a) (Metric b) <> Gt))))
    two_frames_table.
Proof.
  apply (table_is_sorted sqrt_approx two_frames two_frames_target 2 true true).
  vm_compute. reflexivity.
Defined.

(** ** The size of the table *)

Lemma concat_blocks_length {A B} (R : A -> list B -> Prop) (n : nat)
    (pairs : list A) (blocks : list (list B)) :
  Forall2 R pairs blocks ->
  (forall a block, R a block -> List.length block = n) ->
  List.length (List.concat blocks) = (n * List.length pairs)%nat.
Proof.
  intros H Hn. induction H as [| a block pairs blocks Hab _ IH]; simpl; [lia |].
  rewrite length_app, IH, (Hn _ _ Hab). lia.
Qed.

(** X2.  A table the builder returns is never empty: it has exactly
    [years_to_forecast] rows for each non-skipped pair, so the horizon is at
    least 1 and at least one requested column is free of missing values.
    With a horizon of 0 or less, or with nothing left to forecast, the
    builder raises instead. *)
Theorem table_size (np_sqrt : Q -> Q)
    (dfs : list (string * DataFrame)) (target : list (string * list string))
    (h : Z) (include_cv include_r2 : bool) (table : list ForecastRow) :
  generate_forecast_table np_sqrt dfs target h include_cv include_r2 = Ok table ->
  table <> [] /\
  1 <= h /\
  non_skipped_pairs dfs target <> [] /\
  Z.of_nat (List.length table) =
    h * Z.of_nat (List.length (non_skipped_pairs dfs target)).
Proof.
  intros Hgen.
  destruct (generate_forecast_table_blocks _ _ _ _ _ _ _ Hgen)
    as (last_year & blocks & _ & Hperm & Hall).
  assert (Hne : table <> []) by exact (generated_table_nonempty _ _ _ _ _ _ _ Hgen).
  assert (Hlen : List.length table =
                 (Z.to_nat h * List.length (non_skipped_pairs dfs target))%nat).
  { rewrite (Permutation_length Hperm).
    apply (concat_blocks_length _ _ _ _ Hall).
    intros pair block (s & st & _ & _ & _ & ->).
    now rewrite length_map, length_seq. }
  assert (Hpos : (0 < List.length table)%nat)
    by (destruct table; [congruence | simpl; lia]).
  split; [exact Hne |].
  assert (Hh : 1 <= h) by (destruct (Z.to_nat h) eqn:E; lia).
  split; [exact Hh |]. split.
  - intros E. rewrite E in Hlen. simpl in Hlen. lia.
  - rewrite Hlen. lia.
Qed.

Lemma table_size_witness :
  two_frames_table <> [] /\
  1 <= 2 /\
  non_skipped_pairs two_frames two_frames_target <> [] /\
  Z.of_nat (List.length two_frames_table) =
    2 * Z.of_nat (List.length (non_skipped_pairs two_frames two_frames_target)).
Proof.
  apply (table_size sqrt_approx two_frames two_frames_target 2 true true).
  vm_compute. reflexivity.
Defined.

(** ** Missing keys *)

Lemma Forall2_In_l {A B} (R : A -> B -> Prop) (l : list A) (bs : list B) (a : A) :
  Forall2 R l bs -> In a l -> exists b, In b bs /\ R a b.
Proof.
  induction 1 as [| a' b l bs Hab _ IH]; simpl; intros Hin; [contradiction |].
  destruct Hin as [<- | Hin].
  - exists b; auto.
  - destruct (IH Hin) as (b' & Hb' & HR). exists b'; auto.
Qed.

(** A returned table means every frame was visited without an exception. *)
Lemma generated_categories_ok (np_sqrt : Q -> Q)
    (dfs : list (string * DataFrame)) (target : list (string * list string))
    (h : Z) (include_cv include_r2 : bool) (table : list ForecastRow)
    (entry : string * DataFrame) :
  generate_forecast_table np_sqrt dfs target h include_cv include_r2 = Ok table ->
  In entry dfs ->
  exists last_year rows,
    forecast_category np_sqrt include_cv include_r2
      (py_range (last_year + 1) (last_year + h + 1)) target entry = Ok rows.
Proof.
  unfold generate_forecast_table, collect_results. intros H Hin.
  bind_inv H. bind_inv Ha. bind_inv Ha. clear Ha H.
  apply for_each_Ok_inv in Ha1.
  destruct (Forall2_In_l _ _ _ _ Ha1 Hin) as (rows & _ & Hrows).
  exists a0, rows. exact Hrows.
Qed.

(** X5.  When a frame is registered under a category that has no entry in
    [target_columns], the builder returns no table: it raises. *)
Theorem unlisted_category_raises (np_sqrt : Q -> Q)
    (dfs : list (string * DataFrame)) (target : list (string * list string))
    (h : Z) (include_cv include_r2 : bool) (category : string) (df : DataFrame) :
  In (category, df) dfs ->
  lookup category target = None ->
  exists e,
    generate_forecast_table np_sqrt dfs target h include_cv include_r2 = Raise e.
Proof.
  intros Hin Hnone.
  destruct (generate_forecast_table np_sqrt dfs target h include_cv include_r2)
    as [table | e] eqn:Hgen; [| now exists e].
  destruct (generated_categories_ok _ _ _ _ _ _ _ _ Hgen Hin) as (ly & rows & H).
  unfold forecast_category, getitem in H. simpl in H. rewrite Hnone in H.
  discriminate.
Qed.

(** X6.  When a requested column is absent from its frame, the builder
    returns no table: it raises. *)
Theorem absent_column_raises (np_sqrt : Q -> Q)
    (dfs : list (string * DataFrame)) (target : list (string * list string))
    (h : Z) (include_cv include_r2 : bool) (category column : string)
    (df : DataFrame) (columns : list string) :
  In (category, df) dfs ->
  lookup category target = Some columns ->
  In column columns ->
  lookup column (df_columns df) = None ->
  exists e,
    generate_forecast_table np_sqrt dfs target h include_cv include_r2 = Raise e.
Proof.
  intros Hin Hcols Hcol Hnone.
  destruct (generate_forecast_table np_sqrt dfs target h include_cv include_r2)
    as [table | e] eqn:Hgen; [| now exists e].
  destruct (generated_categories_ok _ _ _ _ _ _ _ _ Hgen Hin) as (ly & rows & H).
  unfold forecast_category, getitem in H. simpl in H. rewrite Hcols in H.
  simpl in H. bind_inv H. clear H.
  apply for_each_Ok_inv in Ha.
  destruct (Forall2_In_l _ _ _ _ Ha Hcol) as (block & _ & Hblock).
  unfold forecast_column, getitem in Hblock. rewrite Hnone in Hblock.
  discriminate.
Qed.

Lemma unlisted_category_raises_witness :
  exists e,
    generate_forecast_table sqrt_approx [("A"%string, linear_df)] [] 2 true true
    = Raise e.
Proof.
  apply (unlisted_category_raises sqrt_approx [("A"%string, linear_df)] [] 2
           true true "A" linear_df).
  - left. reflexivity.
  - reflexivity.
Defined.

Lemma absent_column_raises_witness :
  exists e,
    generate_forecast_table sqrt_approx [("A"%string, linear_df)]
      [("A", ["workers"; "students"])]%string 2 true true = Raise e.
Proof.
  apply (absent_column_raises sqrt_approx [("A"%string, linear_df)]
           [("A", ["workers"; "students"])]%string 2 true true "A" "students"
           linear_df ["workers"; "students"]%string).
  - left. reflexivity.
  - reflexivity.
  - right. left. reflexivity.
  - reflexivity.
Defined.

(** ** A table without the R² column *)

(** X11.  A table built with [include_r2] off cannot be assessed: the
    assessment raises KeyError for the R² column. *)
Theorem assess_without_r2_raises (np_sqrt : Q -> Q)
    (dfs : list (string * DataFrame)) (target : list (string * list string))
    (h : Z) (include_cv : bool) (table : list ForecastRow) :
  generate_forecast_table np_sqrt dfs target h include_cv false = Ok table ->
  assess_forecast_reliability table = Raise (KeyError "R²").
Proof.
  intros Hgen.
  assert (Hne : table <> []) by exact (generated_table_nonempty _ _ _ _ _ _ _ Hgen).
  destruct table as [| r table]; [congruence |].
  destruct (generated_row_inv _ _ _ _ _ _ _ _ Hgen (or_introl eq_refl))
    as (last_year & st & _ & _ & _ & Hr).
  apply (f_equal R2) in Hr. simpl in Hr.
  unfold assess_forecast_reliability. simpl. unfold assess_row.
  rewrite Hr. reflexivity.
Qed.

Lemma assess_without_r2_raises_witness :
  assess_forecast_reliability
    (table_of (generate_forecast_table sqrt_approx two_frames two_frames_target 2
                 true false))
  = Raise (KeyError "R²").
Proof.
  apply (assess_without_r2_raises sqrt_approx two_frames two_frames_target 2 true).
  vm_compute. reflexivity.
Defined.

(** ** MAPE *)

Local Open Scope Q_scope.

Lemma combine_map_r {A B C} (f : B -> C) (a : list A) (b : list B) :
  combine a (map f b) = map (fun p => (fst p, f (snd p))) (combine a b).
Proof.
  revert b; induction a as [| x a IH]; intros [| y b]; simpl; try reflexivity.
  now rewrite IH.
Qed.

Lemma filter_nil_iff {A} (f : A -> bool) (l : list A) :
  filter f l = [] <-> forall a, In a l -> f a = false.
Proof.
  induction l as [| a l IH]; simpl; [tauto |].
  destruct (f a) eqn:E; split.
  - discriminate.
  - intros H. specialize (H a (or_introl eq_refl)). congruence.
  - intros H b [<- | Hb]; [exact E | now apply IH].
  - intros H. apply IH. auto.
Qed.

Lemma fit_column_mape_none (np_sqrt : Q -> Q) (X : list Z) (y : list Q) (st : FitStats) :
  fit_column np_sqrt X y = Ok st ->
  List.length X = List.length y ->
  (mape st = None <-> Forall (fun v => v == 0) y).
Proof.
  unfold fit_column. intros H Hlen. bind_inv H. injection H as <-. simpl.
  set (valid := filter _ _).
  assert (Hvalid : valid = [] <-> Forall (fun v => v == 0) y).
  { unfold valid. rewrite filter_nil_iff, Forall_forall. split.
    - intros H v Hv.
      assert (Hin : exists p, In (v, p) (combine y (map (predict a) X))).
      { rewrite <- (combine_snd X y Hlen) in Hv at 1.
        rewrite combine_map_r.
        revert Hv. generalize Hlen. clear. revert y.
        induction X as [| x X IH]; intros [| w y] Hlen; simpl; try contradiction;
          try discriminate.
        intros [<- | Hv].
        - eexists. left. reflexivity.
        - injection Hlen as Hlen. destruct (IH _ Hlen Hv) as (p & Hp).
          exists p. right. exact Hp. }
      destruct Hin as (p & Hp). specialize (H _ Hp). simpl in H.
      apply negb_false_iff, Qeq_bool_eq in H. exact H.
    - intros H [v p] Hp. simpl. apply negb_false_iff, Qeq_eq_bool.
      apply H. exact (in_combine_l _ _ _ _ Hp). }
  destruct valid as [| p valid']; simpl.
  - split; [intros _; now apply Hvalid | reflexivity].
  - split; [discriminate |]. intros H. apply Hvalid in H. discriminate.
Qed.

(** X7.  The MAPE cell of a row is empty (None) exactly when every historical
    value of its column is 0; otherwise it holds a number. *)
Theorem mape_absent_iff_all_zero (np_sqrt : Q -> Q)
    (dfs : list (string * DataFrame)) (target : list (string * list string))
    (h : Z) (include_cv include_r2 : bool) (table : list ForecastRow)
    (r : ForecastRow) :
  generate_forecast_table np_sqrt dfs target h include_cv include_r2 = Ok table ->
  In r table ->
  exists df s,
    In (Category r, df) dfs /\
    lookup (Metric r) (df_columns df) = Some s /\
    isnull_any s = false /\
    (List.length (df_Year df) = List.length s ->
     (MAPE r = None <-> Forall (fun v => v == 0) (values s))).
Proof.
  intros Hgen Hin.
  destruct (generated_row_inv _ _ _ _ _ _ _ _ Hgen Hin)
    as (last_year & st & _ & (df & columns & s & Hdf & _ & _ & Hs & Hnull & Hfit)
        & _ & Hr).
  exists df, s. split; [exact Hdf |]. split; [now apply getitem_lookup |].
  split; [exact Hnull |]. intros Hlen.
  apply (f_equal MAPE) in Hr. simpl in Hr. rewrite Hr.
  rewrite <- (fit_column_mape_none _ _ _ _ Hfit)
    by (unfold values; now rewrite length_map).
  destruct (mape st); simpl; split; congruence.
Qed.

Lemma mape_absent_iff_all_zero_witness :
  exists df s,
    In (Category linear_row, df) [("A"%string, linear_df)] /\
    lookup (Metric linear_row) (df_columns df) = Some s /\
    isnull_any s = false /\
    (List.length (df_Year df) = List.length s ->
     (MAPE linear_row = None <-> Forall (fun v => v == 0) (values s))).
Proof.
  apply (mape_absent_iff_all_zero sqrt_approx [("A"%string, linear_df)]
           linear_target 2 true true linear_table linear_row).
  - vm_compute. reflexivity.
  - left. reflexivity.
Defined.

(** ** The uncertainty is not negative *)

Lemma np_sum_nonneg (l : list Q) : Forall (fun v => 0 <= v) l -> 0 <= np_sum l.
Proof.
  induction 1 as [| v l Hv _ IH]; simpl; [apply Qle_refl | lra].
Qed.

Lemma np_mean_nonneg (l : list Q) : Forall (fun v => 0 <= v) l -> 0 <= np_mean l.
Proof.
  intros H. unfold np_mean, Qdiv.
  apply Qmult_le_0_compat; [now apply np_sum_nonneg |].
  apply Qinv_le_0_compat.
  change 0 with (inject_Z 0). rewrite <- Zle_Qle. lia.
Qed.

Lemma fit_column_mae_nonneg (np_sqrt : Q -> Q) (X : list Z) (y : list Q) (st : FitStats) :
  fit_column np_sqrt X y = Ok st -> 0 <= mae st.
Proof.
  unfold fit_column. intros H. bind_inv H.
  assert (Hm : mae st = np_mean (map (fun p => Qabs (fst p - snd p))
                                     (combine y (map (predict a) X))))
    by (injection H as <-; reflexivity).
  rewrite Hm. apply np_mean_nonneg, Forall_forall.
  intros v Hv. apply in_map_iff in Hv. destruct Hv as (p & Hp & _).
  rewrite <- Hp. apply Qabs_nonneg.
Qed.

Lemma forecast_uncertainty_nonneg (np_sqrt : Q -> Q) (mae : Q) (k : Z) (fv : Q) :
  (forall x, 0 <= np_sqrt x) -> 0 <= mae ->
  0 <= forecast_uncertainty np_sqrt mae k fv.
Proof.
  intros Hsqrt Hmae. unfold forecast_uncertainty.
  rewrite py_min_Qmin.
  assert (H0 : 0 <= Qmin (mae * np_sqrt (inject_Z k)) (Qabs fv * (50 / 100))).
  { apply Q.min_glb.
    - apply Qmult_le_0_compat; auto.
    - apply Qmult_le_0_compat; [apply Qabs_nonneg | discriminate]. }
  destruct (Qlt_bool (Qabs fv) 1000); [| exact H0].
  rewrite py_max_Qmax. eapply Qle_trans; [exact H0 | apply Q.le_max_l].
Qed.

Lemma generated_row_uncertainty_nonneg (np_sqrt : Q -> Q)
    (dfs : list (string * DataFrame)) (target : list (string * list string))
    (h : Z) (include_cv include_r2 : bool) (table : list ForecastRow)
    (r : ForecastRow) :
  (forall x, 0 <= np_sqrt x) ->
  generate_forecast_table np_sqrt dfs target h include_cv include_r2 = Ok table ->
  In r table ->
  (0 <= Uncertainty r)%Z.
Proof.
  intros Hsqrt Hgen Hin.
  destruct (generated_row_values _ _ _ _ _ _ _ _ Hgen Hin)
    as (last_year & st & _ & (df & columns & s & _ & _ & _ & _ & _ & Hfit)
        & _ & _ & HU).
  rewrite HU. apply py_round_lower.
  apply forecast_uncertainty_nonneg; [exact Hsqrt |].
  exact (fit_column_mae_nonneg _ _ _ _ Hfit).
Qed.

(** X10.  With a square root that is never negative, the uncertainty stored in
    a row is never negative. *)
Theorem uncertainty_not_negative (np_sqrt : Q -> Q)
    (dfs : list (string * DataFrame)) (target : list (string * list string))
    (h : Z) (include_cv include_r2 : bool) (table : list ForecastRow)
    (r : ForecastRow) :
  (forall x, 0 <= np_sqrt x) ->
  generate_forecast_table np_sqrt dfs target h include_cv include_r2 = Ok table ->
  In r table ->
  (0 <= Uncertainty r)%Z.
Proof.
  exact (generated_row_uncertainty_nonneg np_sqrt dfs target h include_cv include_r2
           table r).
Qed.

Lemma sqrt_approx_nonneg (x : Q) : 0 <= sqrt_approx x.
Proof.
  unfold sqrt_approx, Qle. simpl. rewrite Z.mul_1_r. apply Z.sqrt_nonneg.
Qed.

Lemma uncertainty_not_negative_witness : (0 <= Uncertainty linear_row)%Z.
Proof.
  apply (uncertainty_not_negative sqrt_approx [("A"%string, linear_df)]
           linear_target 2 true true linear_table linear_row).
  - exact sqrt_approx_nonneg.
  - vm_compute. reflexivity.
  - left. reflexivity.
Defined.

(** ** Small forecasts and the tiers *)

Lemma py_round_near (x : Q) : Qabs x <= inject_Z (Z.abs (py_round x)) + 1.
Proof.
  pose proof (py_round_floor x) as Hr.
  pose proof (Qfloor_le x) as H1. pose proof (Qlt_floor x) as H2.
  rewrite inject_Z_plus in H2. change (inject_Z 1) with 1 in H2.
  assert (Hlo : inject_Z (py_round x) - 1 <= inject_Z (Qfloor x)).
  { change 1 with (inject_Z 1). unfold Qminus. rewrite <- inject_Z_opp, <- inject_Z_plus.
    rewrite <- Zle_Qle. lia. }
  assert (Hhi : inject_Z (Qfloor x) <= inject_Z (py_round x))
    by (rewrite <- Zle_Qle; lia).
  assert (Habs : inject_Z (Z.abs (py_round x)) == Qabs (inject_Z (py_round x))).
  { unfold inject_Z. symmetry. apply Qeq_refl. }
  rewrite Habs.
  pose proof (Qle_Qabs (inject_Z (py_round x))) as Hp1.
  pose proof (Qle_Qabs (- inject_Z (py_round x))) as Hp2.
  rewrite Qabs_opp in Hp2.
  apply Qabs_Qle_condition. split; lra.
Qed.

Lemma reliability_pct_bound (uncertainty_pct r2 : npfloat) :
  (reliability uncertainty_pct r2 = "High Reliability"%string ->
   npf_leb uncertainty_pct (Fin 10) = true) /\
  (reliability uncertainty_pct r2 = "Good Reliability"%string ->
   npf_leb uncertainty_pct (Fin 25) = true) /\
  (reliability uncertainty_pct r2 = "Moderate Reliability"%string ->
   npf_leb uncertainty_pct (Fin 40) = true) /\
  (reliability uncertainty_pct r2 = "Low Reliability"%string ->
   npf_leb uncertainty_pct (Fin 60) = true) /\
  (npf_leb uncertainty_pct (Fin 60) = false -> uncertainty_pct <> NaN ->
   reliability uncertainty_pct r2 = "Very Low Reliability"%string).
Proof.
  unfold reliability.
  generalize (npf_geb r2 (Fin (9 # 10))) (npf_geb r2 (Fin (7 # 10)))
             (npf_geb r2 (Fin (5 # 10))).
  intros c1 c2 c3.
  destruct uncertainty_pct as [q | | |]; simpl; unfold Qlt_bool.
  - assert (M : forall a : Q, a <= 60 -> Qle_bool q a = true -> Qle_bool q 60 = true).
    { intros a Ha H. apply Qle_bool_iff in H. apply Qle_bool_iff. lra. }
    pose proof (M 10 ltac:(lra)) as M1. pose proof (M 25 ltac:(lra)) as M2.
    pose proof (M 40 ltac:(lra)) as M3. clear M. revert M1 M2 M3.
    destruct (Qle_bool q 10), (Qle_bool q 25), (Qle_bool q 40), (Qle_bool q 60),
      c1, c2, c3; simpl; intros M1 M2 M3; repeat split; intros;
      try discriminate; try reflexivity;
      try discriminate (M1 eq_refl); try discriminate (M2 eq_refl);
      try discriminate (M3 eq_refl).
  - repeat split; intros; try discriminate; reflexivity.
  - destruct c1, c2, c3; simpl; repeat split; intros; try discriminate; reflexivity.
  - repeat split; intros; try discriminate; congruence.
Qed.

(** The percentage of a built row with a forecast below 1000 in absolute
    value is at least 5000 / |forecast|. *)
Lemma small_forecast_percentage (r : ForecastRow) (limit : Z) :
  (0 < Z.abs (Forecast r))%Z ->
  (50 <= Uncertainty r)%Z ->
  (Z.abs (Forecast r) * limit < 5000)%Z ->
  npf_leb (uncertainty_percentage r) (Fin (inject_Z limit)) = false.
Proof.
  intros Hpos HU Hlim.
  rewrite uncertainty_percentage_finite by lia.
  simpl. apply not_true_iff_false. rewrite Qle_bool_iff.
  set (u := inject_Z (Uncertainty r)). set (f := inject_Z (Z.abs (Forecast r))).
  assert (Hu : 50 <= u) by (unfold u; change 50 with (inject_Z 50);
                            rewrite <- Zle_Qle; exact HU).
  assert (Hf : 0 < f) by (unfold f; change 0 with (inject_Z 0);
                          rewrite <- Zlt_Qlt; exact Hpos).
  assert (Hfl : f * inject_Z limit < 5000).
  { unfold f. rewrite <- inject_Z_mult. change 5000 with (inject_Z 5000).
    rewrite <- Zlt_Qlt. exact Hlim. }
  intros Hle.
  assert (E : u / f * 100 * f == u * 100) by (field; lra).
  assert (H1 : u / f * 100 * f <= inject_Z limit * f)
    by (apply Qmult_le_compat_r; lra).
  nra.
Qed.

Local Close Scope Q_scope.

Lemma generated_row_small_forecast (np_sqrt : Q -> Q) (dfs : list (string * DataFrame))
    (target : list (string * list string)) (h : Z) (include_cv include_r2 : bool)
    (table : list ForecastRow) (r : ForecastRow) :
  generate_forecast_table np_sqrt dfs target h include_cv include_r2 = Ok table ->
  In r table -> Z.abs (Forecast r) < 999 -> 50 <= Uncertainty r.
Proof.
  intros Hgen Hin Hsmall.
  destruct (generated_row_values _ _ _ _ _ _ _ _ Hgen Hin)
    as (last_year & st & _ & _ & _ & HF & HU).
  rewrite HU. apply py_round_lower, forecast_uncertainty_floor.
  pose proof (py_round_near (predict (model st) (Year r))) as Hnear.
  rewrite <- HF in Hnear.
  assert (Hq : (inject_Z (Z.abs (Forecast r)) <= inject_Z 998)%Q)
    by (rewrite <- Zle_Qle; lia).
  change (inject_Z 998) with 998%Q in Hq. lra.
Qed.

(** X12.  The floor of 50 bounds the tier of small forecasts whatever the fit:
    a row of a built table whose stored forecast is below 500 in absolute
    value is never rated High Reliability, below 200 never Good, below 125
    never Moderate, and at 83 or less it is always Very Low Reliability. *)
Theorem small_forecasts_rate_low (np_sqrt : Q -> Q)
    (dfs : list (string * DataFrame)) (target : list (string * list string))
    (h : Z) (include_cv : bool) (table : list ForecastRow) :
  generate_forecast_table np_sqrt dfs target h include_cv true = Ok table ->
  exists rtable,
    assess_forecast_reliability table = Ok rtable /\
    map forecast_row rtable = table /\
    forall rr, In rr rtable ->
      (Z.abs (Forecast (forecast_row rr)) < 500 ->
       Reliability rr <> "High Reliability"%string) /\
      (Z.abs (Forecast (forecast_row rr)) < 200 ->
       Reliability rr <> "Good Reliability"%string) /\
      (Z.abs (Forecast (forecast_row rr)) < 125 ->
       Reliability rr <> "Moderate Reliability"%string) /\
      (Z.abs (Forecast (forecast_row rr)) <= 83 ->
       Reliability rr = "Very Low Reliability"%string).
Proof.
  intros Hgen.
  eexists. split.
  { exact (assess_generated_table _ _ _ _ _ _ Hgen). }
  split.
  { rewrite map_map. simpl. apply map_id. }
  intros rr Hrr. apply in_map_iff in Hrr. destruct Hrr as (r & <- & Hin). simpl.
  pose proof (generated_row_small_forecast _ _ _ _ _ _ _ _ Hgen Hin) as H50.
  destruct (reliability_pct_bound (uncertainty_percentage r) (r2_or_nan r))
    as (Hhigh & Hgood & Hmod & _ & Hvlow).
  destruct (Z.eq_dec (Forecast r) 0) as [Hzero | Hnz].
  - assert (HU : 50 <= Uncertainty r) by (apply H50; rewrite Hzero; simpl; lia).
    rewrite (uncertainty_percentage_zero_forecast r Hzero) in * by lia.
    assert (E : reliability PosInf (r2_or_nan r) = "Very Low Reliability"%string)
      by (apply Hvlow; [reflexivity | discriminate]).
    rewrite E. repeat split; intros; try discriminate; reflexivity.
  - assert (Hpos : 0 < Z.abs (Forecast r)) by lia.
    split; [| split; [| split]]; intros Hlt.
    + intros E. apply Hhigh in E.
      pose proof (small_forecast_percentage r 10 Hpos
                    ltac:(apply H50; lia) ltac:(lia)) as Hf.
      unfold inject_Z in Hf. congruence.
    + intros E. apply Hgood in E.
      pose proof (small_forecast_percentage r 25 Hpos
                    ltac:(apply H50; lia) ltac:(lia)) as Hf.
      unfold inject_Z in Hf. congruence.
    + intros E. apply Hmod in E.
      pose proof (small_forecast_percentage r 40 Hpos
                    ltac:(apply H50; lia) ltac:(lia)) as Hf.
      unfold inject_Z in Hf. congruence.
    + apply Hvlow.
      * pose proof (small_forecast_percentage r 60 Hpos
                      ltac:(apply H50; lia) ltac:(lia)) as Hf.
        unfold inject_Z in Hf. exact Hf.
      * rewrite (uncertainty_percentage_finite r Hnz). discriminate.
Qed.

Lemma small_forecasts_rate_low_witness :
  exists rtable,
    assess_forecast_reliability linear_table = Ok rtable /\
    map forecast_row rtable = linear_table /\
    forall rr, In rr rtable ->
      (Z.abs (Forecast (forecast_row rr)) < 500 ->
       Reliability rr <> "High Reliability"%string) /\
      (Z.abs (Forecast (forecast_row rr)) < 200 ->
       Reliability rr <> "Good Reliability"%string) /\
      (Z.abs (Forecast (forecast_row rr)) < 125 ->
       Reliability rr <> "Moderate Reliability"%string) /\
      (Z.abs (Forecast (forecast_row rr)) <= 83 ->
       Reliability rr = "Very Low Reliability"%string).
Proof.
  apply (small_forecasts_rate_low sqrt_approx [("A"%string, linear_df)]
           linear_target 2 true linear_table).
  vm_compute. reflexivity.
Defined.

Lemma npf_leb_trans (a b c : npfloat) :
  npf_leb a b = true -> npf_leb b c = true -> npf_leb a c = true.
Proof.
  destruct a as [x | | |], b as [y | | |], c as [z | | |]; simpl;
    try discriminate; try reflexivity.
  rewrite !Qle_bool_iff. apply Qle_trans.
Qed.

Lemma npf_not_leb_gtb (a : npfloat) (c : Q) :
  a <> NaN -> npf_leb a (Fin c) = false -> npf_gtb a (Fin c) = true.
Proof.
  destruct a as [x | | |]; simpl; try discriminate; try congruence.
  unfold Qlt_bool. now intros _ ->.
Qed.

(** X13.  A smaller percentage together with a larger R² never gives a worse
    tier. *)
Theorem tier_follows_inputs (pct pct' r2 r2' : npfloat) :
  npf_leb pct pct' = true ->
  npf_leb r2' r2 = true ->
  (tier_index (reliability pct r2) <= tier_index (reliability pct' r2'))%nat.
Proof.
  intros Hp Hr.
  assert (Hnan : pct <> NaN) by (intros ->; discriminate).
  assert (Hnan' : pct' <> NaN) by (intros ->; destruct pct; discriminate).
  assert (Hc : forall a b : Q,
             npf_leb pct' (Fin a) && npf_geb r2' (Fin b) = true ->
             npf_leb pct (Fin a) && npf_geb r2 (Fin b) = true).
  { intros a b H. apply andb_true_iff in H. destruct H as [H1 H2].
    apply andb_true_iff. split.
    - exact (npf_leb_trans _ _ _ Hp H1).
    - unfold npf_geb in *. exact (npf_leb_trans _ _ _ H2 Hr). }
  pose proof (Hc 10%Q (9 # 10)%Q) as H1. pose proof (Hc 25%Q (7 # 10)%Q) as H2.
  pose proof (Hc 40%Q (5 # 10)%Q) as H3.
  assert (H4 : npf_leb pct' (Fin 60) = true -> npf_leb pct (Fin 60) = true)
    by (intros H; exact (npf_leb_trans _ _ _ Hp H)).
  pose proof (npf_not_leb_gtb pct 60%Q Hnan) as G.
  pose proof (npf_not_leb_gtb pct' 60%Q Hnan') as G'.
  unfold reliability. cbn [np_select].
  revert H1 H2 H3 H4 G G'.
  generalize (npf_leb pct (Fin 10) && npf_geb r2 (Fin (9 # 10)))
             (npf_leb pct (Fin 25) && npf_geb r2 (Fin (7 # 10)))
             (npf_leb pct (Fin 40) && npf_geb r2 (Fin (5 # 10)))
             (npf_leb pct (Fin 60)) (npf_gtb pct (Fin 60))
             (npf_leb pct' (Fin 10) && npf_geb r2' (Fin (9 # 10)))
             (npf_leb pct' (Fin 25) && npf_geb r2' (Fin (7 # 10)))
             (npf_leb pct' (Fin 40) && npf_geb r2' (Fin (5 # 10)))
             (npf_leb pct' (Fin 60)) (npf_gtb pct' (Fin 60)).
  intros c1 c2 c3 c4 c5 d1 d2 d3 d4 d5 H1 H2 H3 H4 G G'.
  destruct d1; [rewrite H1 by reflexivity; apply Nat.le_refl |].
  destruct d2; [rewrite H2 by reflexivity; destruct c1; vm_compute; lia |].
  destruct d3; [rewrite H3 by reflexivity; destruct c1, c2; vm_compute; lia |].
  destruct d4; [rewrite H4 by reflexivity; destruct c1, c2, c3; vm_compute; lia |].
  rewrite G' by reflexivity.
  destruct c1, c2, c3, c4; try (vm_compute; lia).
  rewrite G by reflexivity. vm_compute. lia.
Qed.

Lemma tier_follows_inputs_witness :
  (tier_index (reliability (Fin 8) (Fin 1)) <=
   tier_index (reliability (Fin 30) (Fin (8 # 10))))%nat.
Proof.
  apply (tier_follows_inputs (Fin 8) (Fin 30) (Fin 1) (Fin (8 # 10)));
    reflexivity.
Defined.

(** ** R² lies between 0 and 1 *)

Local Open Scope Q_scope.

Lemma py_round_upper (n : Z) (x : Q) : x <= inject_Z n -> (py_round x <= n)%Z.
Proof.
  intros H. unfold py_round; cbv zeta.
  pose proof (Qfloor_le x) as Hf.
  assert (Hle : (Qfloor x <= n)%Z)
    by (apply Qfloor_resp_le in H; now rewrite Qfloor_Z in H).
  destruct (Z.eq_dec (Qfloor x) n) as [E | NE].
  - assert (Hx : x - inject_Z (Qfloor x) < 1 # 2) by (rewrite E; lra).
    rewrite (proj1 (Qlt_alt _ _) Hx). lia.
  - destruct (x - inject_Z (Qfloor x) ?= 1 # 2); [destruct (Z.even _) | |]; lia.
Qed.

Lemma np_sum_squares_nonneg {A} (f : A -> Q) (l : list A) :
  0 <= np_sum (map (fun a => square (f a)) l).
Proof.
  apply np_sum_nonneg, Forall_forall. intros v Hv.
  apply in_map_iff in Hv. destruct Hv as (a & Ha & _). rewrite <- Ha.
  unfold square. nra.
Qed.

(** For the least-squares line the residual sum of squares is at most the
    total sum of squares: they differ by slope² times the spread of x. *)
Lemma ss_res_le_ss_tot_pairs (l : list (Q * Q)) :
  l <> [] ->
  let xm := np_mean (map fst l) in
  let ym := np_mean (map snd l) in
  let sxx := dot (centre (map fst l)) (centre (map fst l)) in
  let sxy := dot (centre (map fst l)) (centre (map snd l)) in
  let a := if Qeq_bool sxx 0 then 0 else sxy / sxx in
  let b := ym - xm * a in
  np_sum (map (fun p => square (snd p - (fst p * a + b))) l) <=
  np_sum (map (fun p => square (snd p - ym)) l).
Proof.
  intros Hne xm ym sxx sxy a b.
  destruct (least_squares_pairs l Hne) as [Hres Horth].
  fold xm ym sxx sxy a b in Hres, Horth.
  set (res := fun p : Q * Q => snd p - (fst p * a + b)) in *.
  assert (E : np_sum (map (fun p => square (snd p - ym)) l) ==
              np_sum (map (fun p => square (res p)) l)
              + a * a * np_sum (map (fun p => square (fst p - xm)) l)).
  { rewrite (np_sum_ext _ (fun p => (square (res p)
                                     + (2 * a) * (fst p * res p))
                                    + ((- (2 * a * xm)) * res p
                                       + (a * a) * square (fst p - xm)))).
    - rewrite !np_sum_plus, !np_sum_scale.
      change (np_sum (map (fun a0 : Q * Q => fst a0 * res a0) l))
        with (np_sum (map (fun p : Q * Q => fst p * (snd p - (fst p * a + b))) l)).
      change (np_sum (map (fun a0 : Q * Q => res a0) l))
        with (np_sum (map (fun p : Q * Q => snd p - (fst p * a + b)) l)).
      rewrite Hres, Horth. ring.
    - intros p _. unfold res, square, b. ring. }
  rewrite E.
  pose proof (np_sum_squares_nonneg (fun p : Q * Q => fst p - xm) l) as Hx.
  assert (Haa : 0 <= a * a) by (clearbody a; nra).
  pose proof (Qmult_le_0_compat _ _ Haa Hx) as Hprod.
  rewrite <- (Qplus_0_r (np_sum (map (fun p => square (snd p - (fst p * a + b))) l))).
  apply Qplus_le_compat; [apply Qle_refl | exact Hprod].
Qed.

Lemma combine_swap_map {B C} (F : Q * B -> C) (G : Q * Q -> C) (g : Z -> B)
    (X : list Z) (y : list Q) :
  (forall x v, F (v, g x) = G (inject_Z x, v)) ->
  map F (combine y (map g X)) = map G (combine (map inject_Z X) y).
Proof.
  intros H. revert y; induction X as [| x X IH]; intros [| v y]; simpl;
    try reflexivity.
  now rewrite H, IH.
Qed.

Lemma fit_ss_res_le_ss_tot (X : list Z) (y : list Q) (m : LinearRegression) :
  fit X y = Ok m ->
  List.length X = List.length y ->
  np_sum (map (fun p => square (fst p - snd p)) (combine y (map (predict m) X))) <=
  np_sum (map (fun v => square (v - np_mean y)) y).
Proof.
  intros Hfit Hlen.
  set (l := combine (map inject_Z X) y).
  assert (Hl1 : map fst l = map inject_Z X)
    by (unfold l; apply combine_fst; now rewrite length_map).
  assert (Hl2 : map snd l = y)
    by (unfold l; apply combine_snd; now rewrite length_map).
  assert (Hne : l <> []).
  { destruct X as [| x0 X]; [discriminate Hfit |].
    destruct y as [| y0 y]; [discriminate Hlen |]. discriminate. }
  pose proof (ss_res_le_ss_tot_pairs l Hne) as H. cbv zeta in H.
  rewrite Hl1, Hl2 in H.
  rewrite (combine_swap_map (fun p => square (fst p - snd p))
             (fun p => square (snd p - (fst p * coef_ m + intercept_ m)))
             (predict m)) by (intros; reflexivity).
  fold l.
  assert (Hy : map (fun v => square (v - np_mean y)) y =
               map (fun p => square (snd p - np_mean y)) l).
  { transitivity (map (fun v => square (v - np_mean y)) (map snd l));
      [now rewrite Hl2 | now rewrite map_map]. }
  rewrite Hy.
  unfold fit in Hfit. destruct X as [| x0 X]; [discriminate |].
  injection Hfit as <-. cbn [coef_ intercept_]. exact H.
Qed.

Lemma fit_column_r2_range (np_sqrt : Q -> Q) (X : list Z) (y : list Q) (st : FitStats) :
  fit_column np_sqrt X y = Ok st ->
  List.length X = List.length y ->
  ((List.length y < 2)%nat /\ r2 st = NaN) \/
  ((2 <= List.length y)%nat /\ exists q, r2 st = Fin q /\ 0 <= q <= 1).
Proof.
  unfold fit_column. intros H Hlen. bind_inv H.
  assert (Hr : r2 st = r2_score y (map (predict a) X))
    by (injection H as <-; reflexivity).
  rewrite Hr. clear H Hr. unfold r2_score.
  destruct (Nat.ltb_spec (List.length y) 2) as [Hlt | Hge]; [left; auto |].
  right. split; [exact Hge |].
  pose proof (fit_ss_res_le_ss_tot X y a Ha Hlen) as Hle.
  pose proof (np_sum_squares_nonneg (fun p : Q * Q => fst p - snd p)
                (combine y (map (predict a) X))) as Hres.
  pose proof (np_sum_squares_nonneg (fun v : Q => v - np_mean y) y) as Htot.
  set (ss_res := np_sum (map (fun p => square (fst p - snd p))
                             (combine y (map (predict a) X)))) in *.
  set (ss_tot := np_sum (map (fun v => square (v - np_mean y)) y)) in *.
  destruct (Qeq_bool ss_tot 0) eqn:Etot.
  - destruct (Qeq_bool ss_res 0); eexists; (split; [reflexivity |]); lra.
  - apply Qeq_bool_neq in Etot.
    assert (Hpos : 0 < ss_tot) by lra.
    eexists. split; [reflexivity |].
    assert (H1 : ss_res / ss_tot <= 1)
      by (apply Qle_shift_div_r; [exact Hpos | lra]).
    assert (H0 : 0 <= ss_res / ss_tot)
      by (apply Qle_shift_div_l; [exact Hpos | lra]).
    lra.
Qed.

Lemma round_nd_unit_range (ndigits : nat) (q : Q) :
  0 <= q <= 1 -> 0 <= round_nd ndigits q <= 1.
Proof.
  intros [H0 H1]. unfold round_nd.
  set (p := pow10 ndigits).
  assert (Hp : 0 < inject_Z (Zpos p)) by reflexivity.
  assert (Hlo : (0 <= py_round (q * inject_Z (Zpos p)))%Z).
  { apply py_round_lower. change (inject_Z 0) with 0.
    apply Qmult_le_0_compat; lra. }
  assert (Hhi : (py_round (q * inject_Z (Zpos p)) <= Zpos p)%Z).
  { apply py_round_upper.
    rewrite <- (Qmult_1_l (inject_Z (Zpos p))) at 2.
    apply Qmult_le_compat_r; lra. }
  unfold Qle. simpl. lia.
Qed.

(** X8.  The R² stored in a row is NaN when the column has fewer than two
    historical points, and otherwise a number between 0 and 1. *)
Theorem r2_between_zero_and_one (np_sqrt : Q -> Q)
    (dfs : list (string * DataFrame)) (target : list (string * list string))
    (h : Z) (include_cv : bool) (table : list ForecastRow) (r : ForecastRow) :
  generate_forecast_table np_sqrt dfs target h include_cv true = Ok table ->
  In r table ->
  exists df s,
    In (Category r, df) dfs /\
    lookup (Metric r) (df_columns df) = Some s /\
    (List.length (df_Year df) = List.length s ->
     ((List.length s < 2)%nat /\ R2 r = Some NaN) \/
     ((2 <= List.length s)%nat /\ exists q, R2 r = Some (Fin q) /\ 0 <= q <= 1)).
Proof.
  intros Hgen Hin.
  destruct (generated_row_inv _ _ _ _ _ _ _ _ Hgen Hin)
    as (last_year & st & _ & (df & columns & s & Hdf & _ & _ & Hs & _ & Hfit)
        & _ & Hr).
  exists df, s. split; [exact Hdf |]. split; [now apply getitem_lookup |].
  intros Hlen.
  apply (f_equal R2) in Hr. simpl in Hr. rewrite Hr.
  assert (Hlv : List.length (values s) = List.length s)
    by (unfold values; apply length_map).
  destruct (fit_column_r2_range _ _ _ _ Hfit) as [[Hlt E] | [Hge (q & E & Hq)]].
  - now rewrite Hlv.
  - left. rewrite Hlv in Hlt. split; [exact Hlt |]. now rewrite E.
  - right. rewrite Hlv in Hge. split; [exact Hge |].
    exists (round_nd 3 q). rewrite E. split; [reflexivity |].
    now apply round_nd_unit_range.
Qed.

Lemma r2_between_zero_and_one_witness :
  exists df s,
    In (Category linear_row, df) [("A"%string, linear_df)] /\
    lookup (Metric linear_row) (df_columns df) = Some s /\
    (List.length (df_Year df) = List.length s ->
     ((List.length s < 2)%nat /\ R2 linear_row = Some NaN) \/
     ((2 <= List.length s)%nat /\
      exists q, R2 linear_row = Some (Fin q) /\ 0 <= q <= 1)).
Proof.
  apply (r2_between_zero_and_one sqrt_approx [("A"%string, linear_df)]
           linear_target 2 true linear_table linear_row).
  - vm_compute. reflexivity.
  - left. reflexivity.
Defined.

(** ** A history that lies on a line *)

Lemma np_sum_all_zero {A} (f : A -> Q) (l : list A) :
  (forall a, In a l -> f a == 0) -> np_sum (map f l) == 0.
Proof.
  intros H. rewrite (np_sum_ext f (fun _ => 0) l H), np_sum_const. ring.
Qed.

Lemma np_mean_all_zero {A} (f : A -> Q) (l : list A) :
  (forall a, In a l -> f a == 0) -> np_mean (map f l) == 0.
Proof.
  intros H. unfold np_mean. rewrite (np_sum_all_zero f l H).
  unfold Qdiv. ring.
Qed.

Lemma Forall2_combine_In {A B} (R : A -> B -> Prop) (l : list A) (l' : list B)
    (p : A * B) :
  Forall2 R l l' -> In p (combine l l') -> R (fst p) (snd p).
Proof.
  induction 1 as [| x y l l' Hxy _ IH]; simpl; [contradiction |].
  intros [<- | Hin]; [exact Hxy | exact (IH Hin)].
Qed.

Lemma Forall2_length_eq {A B} (R : A -> B -> Prop) (l : list A) (l' : list B) :
  Forall2 R l l' -> List.length l = List.length l'.
Proof. induction 1; simpl; congruence. Qed.

(** The fit of points that lie on the line a*x + b, over at least two
    different years, is that line. *)
Lemma fit_recovers_line (X : list Z) (y : list Q) (a b : Q) (x1 x2 : Z) :
  In x1 X -> In x2 X -> x1 <> x2 ->
  Forall2 (fun x v => v == a * inject_Z x + b) X y ->
  exists m, fit X y = Ok m /\ coef_ m == a /\ intercept_ m == b.
Proof.
  intros H1 H2 Hne Hline.
  pose proof (Forall2_length_eq _ _ _ Hline) as Hlen.
  set (l := combine (map inject_Z X) y).
  assert (Hfst : map fst l = map inject_Z X)
    by (unfold l; apply combine_fst; now rewrite length_map).
  assert (Hsnd : map snd l = y)
    by (unfold l; apply combine_snd; now rewrite length_map).
  assert (Hon : forall p, In p l -> snd p == a * fst p + b).
  { intros p Hp. unfold l in Hp.
    assert (HF : Forall2 (fun q v => v == a * q + b) (map inject_Z X) y).
    { clear - Hline. induction Hline; simpl; constructor; auto. }
    exact (Forall2_combine_In _ _ _ _ HF Hp). }
  assert (Hl : l <> []).
  { intros E. rewrite E in Hfst. destruct X; [contradiction | discriminate]. }
  assert (Hn : ~ inject_Z (Z.of_nat (List.length l)) == 0).
  { destruct l as [| p l']; [congruence |].
    simpl List.length. intros E. unfold Qeq in E. simpl in E. lia. }
  set (xm := np_mean (map fst l)).
  assert (Hym : np_mean (map snd l) == a * xm + b).
  { unfold xm, np_mean. rewrite !length_map.
    rewrite (np_sum_ext snd (fun p => a * fst p + b) l Hon).
    rewrite np_sum_plus, np_sum_scale, np_sum_const. field. exact Hn. }
  assert (Hnz : ~ dot (centre (map fst l)) (centre (map fst l)) == 0).
  { rewrite dot_centre_self. fold xm. intros E.
    pose proof (np_sum_squares_zero (fun p => fst p - xm) l E) as Hall.
    assert (Hin : forall x, In x X -> inject_Z x - xm == 0).
    { intros x Hx.
      assert (Hx' : In (inject_Z x) (map fst l))
        by (rewrite Hfst; now apply in_map).
      apply in_map_iff in Hx'. destruct Hx' as (p & Hp & Hpl).
      rewrite <- Hp. exact (Hall p Hpl). }
    apply Hne. apply inject_Z_injective.
    pose proof (Hin x1 H1). pose proof (Hin x2 H2). lra. }
  assert (Hsxy : dot (centre (map fst l)) (centre (map snd l)) ==
                 a * dot (centre (map fst l)) (centre (map fst l))).
  { rewrite dot_centre, dot_centre_self, <- np_sum_scale. fold xm.
    apply np_sum_ext. intros p Hp. cbv beta. rewrite Hym, (Hon p Hp). ring. }
  assert (Hfit : fit X y =
                 Ok {| coef_ :=
                         if Qeq_bool (dot (centre (map fst l)) (centre (map fst l))) 0
                         then 0
                         else dot (centre (map fst l)) (centre (map snd l)) /
                              dot (centre (map fst l)) (centre (map fst l));
                       intercept_ :=
                         np_mean (map snd l) -
                         np_mean (map fst l) *
                         (if Qeq_bool (dot (centre (map fst l)) (centre (map fst l))) 0
                          then 0
                          else dot (centre (map fst l)) (centre (map snd l)) /
                               dot (centre (map fst l)) (centre (map fst l))) |}).
  { rewrite Hfst, Hsnd. unfold fit. destruct X; [contradiction | reflexivity]. }
  eexists. split; [exact Hfit |]. cbn [coef_ intercept_].
  destruct (Qeq_bool (dot (centre (map fst l)) (centre (map fst l))) 0) eqn:E;
    [apply Qeq_bool_eq in E; contradiction |].
  assert (Hcoef : dot (centre (map fst l)) (centre (map snd l)) /
                  dot (centre (map fst l)) (centre (map fst l)) == a).
  { rewrite Hsxy. field. exact Hnz. }
  split; [exact Hcoef |].
  rewrite Hcoef, Hym. fold xm. ring.
Qed.

Lemma forecast_uncertainty_zero_mae (np_sqrt : Q -> Q) (mae : Q) (k : Z) (fv : Q) :
  mae == 0 ->
  forecast_uncertainty np_sqrt mae k fv ==
  if Qlt_le_dec (Qabs fv) 1000 then 50 else 0.
Proof.
  intros Hmae. rewrite forecast_uncertainty_steps.
  unfold raise_to_floor, clamp_to_cap, base_uncertainty.
  assert (Hcap : 0 <= (50 # 100) * Qabs fv)
    by (apply Qmult_le_0_compat; [discriminate | apply Qabs_nonneg]).
  assert (Hmin : Qmin (mae * np_sqrt (inject_Z k)) ((50 # 100) * Qabs fv) == 0).
  { assert (Hb : mae * np_sqrt (inject_Z k) == 0) by (rewrite Hmae; ring).
    rewrite (Q.min_compat _ _ Hb _ _ (Qeq_refl _)).
    now apply Q.min_l. }
  destruct (Qlt_le_dec (Qabs fv) 1000); [| exact Hmin].
  rewrite (Q.max_compat _ _ Hmin _ _ (Qeq_refl 50)).
  apply Q.max_r. discriminate.
Qed.

(** X9.  When the historical values of a column lie on a line a * year + b,
    over at least two different years, the column's rows continue that line:
    one row per forecast year, with a forecast that is an integer nearest to
    the value of the line at that year (the value itself when it is an
    integer), and an uncertainty of 50, the floor, where the line is below
    1000 in absolute value, and of 0 where it is above. *)
Theorem exact_trend_is_continued (np_sqrt : Q -> Q)
    (include_cv include_r2 : bool) (forecast_years : list Z)
    (category column : string) (df : DataFrame) (s : list (option Q))
    (a b : Q) (x1 x2 : Z) :
  In x1 (df_Year df) -> In x2 (df_Year df) -> x1 <> x2 ->
  lookup column (df_columns df) = Some s ->
  Forall2 (fun x cell => exists v, cell = Some v /\ v == a * inject_Z x + b)
          (df_Year df) s ->
  exists rows,
    forecast_column np_sqrt include_cv include_r2 forecast_years category df column
      = Ok rows /\
    map Year rows = forecast_years /\
    forall r, In r rows ->
      Qabs (inject_Z (Forecast r) - (a * inject_Z (Year r) + b)) <= 1 # 2 /\
      (forall n, a * inject_Z (Year r) + b == inject_Z n -> Forecast r = n) /\
      (Qabs (a * inject_Z (Year r) + b) < 1000 -> Uncertainty r = 50%Z) /\
      (1000 < Qabs (a * inject_Z (Year r) + b) -> Uncertainty r = 0%Z) /\
      (Uncertainty r = 0%Z \/ Uncertainty r = 50%Z).
Proof.
  intros H1 H2 Hne Hcol Hcells.
  assert (Hnull : isnull_any s = false).
  { clear - Hcells. unfold isnull_any.
    induction Hcells as [| x cell X s (v & -> & _) _ IH]; simpl; auto. }
  assert (Hvalues : Forall2 (fun x v => v == a * inject_Z x + b) (df_Year df) (values s)).
  { clear - Hcells. unfold values.
    induction Hcells as [| x cell X s (v & -> & Hv) _ IH]; simpl; constructor; auto. }
  destruct (fit_recovers_line (df_Year df) (values s) a b x1 x2 H1 H2 Hne Hvalues)
    as (m & Hm & Hc & Hi).
  assert (Hline : forall x, predict m x == a * inject_Z x + b)
    by (intros x; unfold predict; rewrite Hc, Hi; ring).
  assert (Hst : exists st, fit_column np_sqrt (df_Year df) (values s) = Ok st /\
                           model st = m /\ mae st == 0).
  { unfold fit_column. rewrite Hm. cbn [bind]. eexists.
    split; [reflexivity |]. split; [reflexivity |]. cbn [mae].
    apply np_mean_all_zero. intros p Hp.
    assert (HF : Forall2 (fun v q => v == q) (values s) (map (predict m) (df_Year df))).
    { clear - Hvalues Hline.
      induction Hvalues as [| x v X y Hv _ IH]; simpl; constructor; [| exact IH].
      eapply Qeq_trans; [exact Hv | symmetry; apply Hline]. }
    pose proof (Forall2_combine_In _ _ _ _ HF Hp) as E. cbv beta in E.
    assert (E0 : fst p - snd p == 0) by (rewrite E; ring).
    rewrite (Qabs_wd _ _ E0). reflexivity. }
  destruct Hst as (st & Hst & Hmodel & Hmae).
  eexists. split.
  { unfold forecast_column, getitem. rewrite Hcol. cbn [bind].
    rewrite Hnull, Hst. cbn [bind]. reflexivity. }
  split.
  { rewrite map_map. simpl. apply enumerate_snd. }
  intros r Hr. apply in_map_iff in Hr. destruct Hr as ([i year] & <- & _).
  cbn [fst snd Forecast Uncertainty Year result_row]. rewrite Hmodel.
  pose proof (py_round_nearest (predict m year)) as Hnear.
  assert (HF : Qabs (inject_Z (py_round (predict m year)) - (a * inject_Z year + b))
               <= 1 # 2).
  { assert (E : inject_Z (py_round (predict m year)) - (a * inject_Z year + b) ==
                inject_Z (py_round (predict m year)) - predict m year)
      by (unfold Qminus; apply Qplus_comp;
          [reflexivity | apply Qopp_comp; symmetry; apply Hline]).
    now rewrite (Qabs_wd _ _ E). }
  assert (HU : Uncertainty
                 (result_row np_sqrt include_cv include_r2 category column st i year) =
               if Qlt_le_dec (Qabs (a * inject_Z year + b)) 1000 then 50%Z else 0%Z).
  { cbn [Uncertainty result_row]. rewrite Hmodel.
    rewrite (py_round_comp _ _ (forecast_uncertainty_zero_mae np_sqrt (mae st) (i + 1)
                                  (predict m year) Hmae)).
    pose proof (Qabs_wd _ _ (Hline year)) as Habs.
    destruct (Qlt_le_dec (Qabs (predict m year)) 1000) as [L | G];
      destruct (Qlt_le_dec (Qabs (a * inject_Z year + b)) 1000) as [L' | G'];
      try reflexivity; exfalso; lra. }
  cbn [Uncertainty result_row] in HU. rewrite Hmodel in HU.
  split; [exact HF |]. split; [| split; [| split]].
  - intros n Hn.
    assert (E : inject_Z (py_round (predict m year)) - (a * inject_Z year + b) ==
                inject_Z (py_round (predict m year) - n)).
    { rewrite Hn. unfold Z.sub. rewrite inject_Z_plus, inject_Z_opp. ring. }
    rewrite (Qabs_wd _ _ E) in HF. apply Qabs_Qle_condition in HF.
    destruct HF as [Hlo Hhi].
    assert (Hlo' : inject_Z (-1) < inject_Z (py_round (predict m year) - n))
      by (change (inject_Z (-1)) with (-1); lra).
    assert (Hhi' : inject_Z (py_round (predict m year) - n) < inject_Z 1)
      by (change (inject_Z 1) with 1; lra).
    rewrite <- Zlt_Qlt in Hlo', Hhi'. lia.
  - intros L. rewrite HU.
    destruct (Qlt_le_dec (Qabs (a * inject_Z year + b)) 1000); [reflexivity | lra].
  - intros G. rewrite HU.
    destruct (Qlt_le_dec (Qabs (a * inject_Z year + b)) 1000); [lra | reflexivity].
  - rewrite HU.
    destruct (Qlt_le_dec (Qabs (a * inject_Z year + b)) 1000); auto.
Qed.

Lemma exact_trend_is_continued_witness :
  exists rows,
    forecast_column sqrt_approx true true [2025; 2026]%Z "H" halfstep_df "steps"
      = Ok rows /\
    map Year rows = [2025; 2026]%Z /\
    forall r, In r rows ->
      Qabs (inject_Z (Forecast r) - ((1 # 2) * inject_Z (Year r) + - (1000))) <= 1 # 2 /\
      (forall n, (1 # 2) * inject_Z (Year r) + - (1000) == inject_Z n ->
                 Forecast r = n) /\
      (Qabs ((1 # 2) * inject_Z (Year r) + - (1000)) < 1000 -> Uncertainty r = 50%Z) /\
      (1000 < Qabs ((1 # 2) * inject_Z (Year r) + - (1000)) -> Uncertainty r = 0%Z) /\
      (Uncertainty r = 0%Z \/ Uncertainty r = 50%Z).
Proof.
  apply (exact_trend_is_continued sqrt_approx true true [2025; 2026]%Z
           "H" "steps" halfstep_df [Some 10; Some 11; Some 12]
           (1 # 2) (- (1000)) 2020 2022).
  - left. reflexivity.
  - right. left. reflexivity.
  - discriminate.
  - reflexivity.
  - repeat constructor; eexists; (split; [reflexivity | vm_compute; reflexivity]).
Defined.

Local Close Scope Q_scope.

(** ** The line of a sum or difference of columns *)

Local Open Scope Q_scope.

Section Linear.

Context {A : Type}.
Variables (fx g1 g2 g : A -> Q) (c : Q).
Hypothesis g_linear : forall p, g p == g1 p + c * g2 p.

Lemma dot_centre_maps (f f' : A -> Q) (l : list A) :
  dot (centre (map f l)) (centre (map f' l)) =
  np_sum (map (fun p => (f p - np_mean (map f l)) * (f' p - np_mean (map f' l))) l).
Proof.
  unfold dot, centre. rewrite !map_map, combine_map_same, map_map. reflexivity.
Qed.

Lemma np_mean_linear (l : list A) :
  l <> [] ->
  np_mean (map g l) == np_mean (map g1 l) + c * np_mean (map g2 l).
Proof.
  intros Hne. unfold np_mean. rewrite !length_map.
  rewrite (np_sum_ext g (fun p => g1 p + c * g2 p) l) by (intros; apply g_linear).
  rewrite np_sum_plus, np_sum_scale. field.
  destruct l as [| p l]; [congruence |].
  simpl List.length. intros E. unfold Qeq in E. simpl in E. lia.
Qed.

Lemma dot_centre_linear (l : list A) :
  l <> [] ->
  dot (centre (map fx l)) (centre (map g l)) ==
  dot (centre (map fx l)) (centre (map g1 l))
  + c * dot (centre (map fx l)) (centre (map g2 l)).
Proof.
  intros Hne. rewrite !dot_centre_maps, <- np_sum_scale, <- np_sum_plus.
  apply np_sum_ext. intros p _. cbv beta.
  rewrite (np_mean_linear l Hne), (g_linear p). ring.
Qed.

End Linear.

(** Least squares is linear in the values: the line fitted to g1 + c * g2 is
    the line of g1 plus c times the line of g2. *)
Lemma fit_linear {A} (fz : A -> Z) (g1 g2 g : A -> Q) (c : Q) (l : list A)
    (m1 m2 : LinearRegression) :
  (forall p, g p == g1 p + c * g2 p) ->
  fit (map fz l) (map g1 l) = Ok m1 ->
  fit (map fz l) (map g2 l) = Ok m2 ->
  exists m,
    fit (map fz l) (map g l) = Ok m /\
    coef_ m == coef_ m1 + c * coef_ m2 /\
    intercept_ m == intercept_ m1 + c * intercept_ m2.
Proof.
  intros Hg H1 H2.
  assert (Hne : l <> []) by (destruct l; [discriminate H1 | discriminate]).
  unfold fit in *.
  destruct (map fz l) as [| x0 X] eqn:EX; [discriminate |]. rewrite <- EX in *.
  rewrite map_map in *.
  set (fx := fun p => inject_Z (fz p)) in *.
  injection H1 as <-. injection H2 as <-.
  eexists. split; [reflexivity |]. cbn [coef_ intercept_].
  pose proof (dot_centre_linear fx g1 g2 g c Hg l Hne) as Hdot.
  pose proof (np_mean_linear g1 g2 g c Hg l Hne) as Hmean.
  destruct (Qeq_bool (dot (centre (map fx l)) (centre (map fx l))) 0) eqn:E.
  - split; [ring |]. rewrite Hmean. ring.
  - apply Qeq_bool_neq in E.
    assert (Hc : dot (centre (map fx l)) (centre (map g l)) /
                 dot (centre (map fx l)) (centre (map fx l)) ==
                 dot (centre (map fx l)) (centre (map g1 l)) /
                 dot (centre (map fx l)) (centre (map fx l))
                 + c * (dot (centre (map fx l)) (centre (map g2 l)) /
                        dot (centre (map fx l)) (centre (map fx l)))).
    { rewrite Hdot. field. exact E. }
    split; [exact Hc |]. rewrite Hc, Hmean. ring.
Qed.

Lemma py_round_error (x : Q) : Qabs (x - inject_Z (py_round x)) <= 1 # 2.
Proof.
  unfold py_round; cbv zeta.
  pose proof (Qfloor_le x) as H1. pose proof (Qlt_floor x) as H2.
  rewrite inject_Z_plus in H2. change (inject_Z 1) with 1 in H2.
  apply Qabs_Qle_condition.
  destruct (Qcompare_spec (x - inject_Z (Qfloor x)) (1 # 2)) as [E | L | G].
  - destruct (Z.even (Qfloor x)).
    + split; lra.
    + rewrite inject_Z_plus. change (inject_Z 1) with 1. split; lra.
  - split; lra.
  - rewrite inject_Z_plus. change (inject_Z 1) with 1. split; lra.
Qed.

(** Rounding a sum or a difference moves it at most 1 away from the sum or
    difference of the rounded terms. *)
Lemma py_round_linear_near (x y z : Q) (sign : Z) :
  (sign = 1 \/ sign = -1)%Z ->
  z == x + inject_Z sign * y ->
  (Z.abs (py_round z - (py_round x + sign * py_round y)) <= 1)%Z.
Proof.
  intros Hs Hz.
  pose proof (py_round_error x) as Ex. pose proof (py_round_error y) as Ey.
  pose proof (py_round_error z) as Ez.
  apply Qabs_Qle_condition in Ex, Ey, Ez.
  assert (Hq : Qabs (inject_Z (py_round z - (py_round x + sign * py_round y))) <= 3 # 2).
  { apply Qabs_Qle_condition.
    unfold Z.sub. rewrite !inject_Z_plus, !inject_Z_opp, inject_Z_plus, inject_Z_mult.
    destruct Hs as [-> | ->].
    - change (inject_Z 1) with 1 in *. split; lra.
    - change (inject_Z (-1)) with (-1) in *. split; lra. }
  apply Qabs_Qle_condition in Hq. destruct Hq as [Hlo Hhi].
  assert (Hlo' : inject_Z (-2) < inject_Z (py_round z - (py_round x + sign * py_round y)))
    by (change (inject_Z (-2)) with (-2); lra).
  assert (Hhi' : inject_Z (py_round z - (py_round x + sign * py_round y)) < inject_Z 2)
    by (change (inject_Z 2) with 2; lra).
  rewrite <- Zlt_Qlt in Hlo', Hhi'. lia.
Qed.

Lemma series_op_values (op : Q -> Q -> Q) (s1 s2 : list (option Q)) :
  isnull_any s1 = false -> isnull_any s2 = false ->
  isnull_any (series_op op s1 s2) = false /\
  values (series_op op s1 s2) =
  map (fun p => op (fst p) (snd p)) (combine (values s1) (values s2)).
Proof.
  unfold series_op, isnull_any, values.
  revert s2; induction s1 as [| [a |] s1 IH]; intros [| [b |] s2]; simpl;
    intros H1 H2; try discriminate; auto.
  destruct (IH s2 H1 H2) as [IH1 IH2]. split; [exact IH1 | now rewrite IH2].
Qed.

Lemma fit_column_fit (np_sqrt : Q -> Q) (X : list Z) (y : list Q) (m : LinearRegression) :
  fit X y = Ok m -> exists st, fit_column np_sqrt X y = Ok st /\ model st = m.
Proof.
  intros H. unfold fit_column. rewrite H. cbn [bind].
  eexists. split; reflexivity.
Qed.

(** The line fitted to the column [a + c * b] is the line of [a] plus [c]
    times the line of [b]. *)
Lemma derived_column_line (np_sqrt : Q -> Q) (op : Q -> Q -> Q) (c : Q)
    (X : list Z) (s1 s2 : list (option Q)) (st1 st2 : FitStats) :
  (forall a b, op a b == a + c * b) ->
  isnull_any s1 = false -> isnull_any s2 = false ->
  List.length X = List.length s1 -> List.length X = List.length s2 ->
  fit_column np_sqrt X (values s1) = Ok st1 ->
  fit_column np_sqrt X (values s2) = Ok st2 ->
  exists st,
    fit_column np_sqrt X (values (series_op op s1 s2)) = Ok st /\
    forall year,
      predict (model st) year ==
      predict (model st1) year + c * predict (model st2) year.
Proof.
  intros Hop Hn1 Hn2 Hl1 Hl2 Hf1 Hf2.
  apply fit_column_model in Hf1, Hf2.
  destruct (series_op_values op s1 s2 Hn1 Hn2) as [_ Hv]. rewrite Hv.
  set (v1 := values s1) in *. set (v2 := values s2) in *.
  assert (Hv1 : List.length v1 = List.length X)
    by (unfold v1, values; rewrite length_map; auto).
  assert (Hv2 : List.length v2 = List.length X)
    by (unfold v2, values; rewrite length_map; auto).
  set (l := combine X (combine v1 v2)).
  assert (HX : map fst l = X).
  { unfold l. apply combine_fst. rewrite length_combine, Hv1, Hv2.
    now rewrite Nat.min_id. }
  assert (Hs : map snd l = combine v1 v2).
  { unfold l. apply combine_snd. rewrite length_combine, Hv1, Hv2.
    now rewrite Nat.min_id. }
  assert (H1 : map (fun p => fst (snd p)) l = v1).
  { rewrite <- (map_map snd fst), Hs. apply combine_fst. congruence. }
  assert (H2 : map (fun p => snd (snd p)) l = v2).
  { rewrite <- (map_map snd snd), Hs. apply combine_snd. congruence. }
  assert (Hg : map (fun p => op (fst (snd p)) (snd (snd p))) l =
               map (fun p => op (fst p) (snd p)) (combine v1 v2)).
  { rewrite <- Hs, map_map. reflexivity. }
  rewrite <- Hg. rewrite <- HX in Hf1, Hf2 |- *.
  rewrite <- H1 in Hf1. rewrite <- H2 in Hf2.
  destruct (fit_linear fst (fun p => fst (snd p)) (fun p => snd (snd p))
              (fun p => op (fst (snd p)) (snd (snd p))) c l _ _
              (fun p => Hop _ _) Hf1 Hf2) as (m & Hm & Hc & Hi).
  destruct (fit_column_fit np_sqrt _ _ _ Hm) as (st & Hst & Hmodel).
  exists st. split; [exact Hst |].
  intros year. unfold predict. rewrite Hmodel, Hc, Hi. ring.
Qed.

Local Close Scope Q_scope.

(** ** [load_data] *)

Lemma lookup_assign_same {V} (key : string) (v : V) (d : list (string * V)) :
  lookup key (assign key v d) = Some v.
Proof.
  induction d as [| [k w] d IH]; simpl.
  - now rewrite String.eqb_refl.
  - destruct (String.eqb key k) eqn:E; simpl; rewrite E; [reflexivity | exact IH].
Qed.

Lemma lookup_assign_other {V} (key key' : string) (v : V) (d : list (string * V)) :
  key' <> key -> lookup key' (assign key v d) = lookup key' d.
Proof.
  intros Hne. induction d as [| [k w] d IH]; simpl.
  - apply String.eqb_neq in Hne. now rewrite Hne.
  - destruct (String.eqb key k) eqn:E; simpl.
    + apply String.eqb_eq in E. subst k.
      apply String.eqb_neq in Hne. now rewrite Hne.
    + destruct (String.eqb key' k); [reflexivity | exact IH].
Qed.

Lemma load_data_inv (wp mig pop ret allp wp' mig' pop' ret' allp' : DataFrame) :
  load_data wp mig pop ret allp = Ok (wp', mig', pop', ret', allp') ->
  exists tc eu imm emi,
    lookup "Full time third country workers" (df_columns wp) = Some tc /\
    lookup "Full time EU workers" (df_columns wp) = Some eu /\
    lookup "Immigration foreign citizens 20-64 years" (df_columns mig) = Some imm /\
    lookup "Emigration foreign citizens 20-64 years" (df_columns mig) = Some emi /\
    wp' = setitem wp "Total workers" (series_op Qplus tc eu) /\
    mig' = setitem mig "Net migration" (series_op Qminus imm emi) /\
    pop' = rename_column quoted_population_column "Foreign citizens 20-64 years" pop /\
    ret' = ret /\ allp' = allp.
Proof.
  unfold load_data. intros H.
  bind_inv H. bind_inv H. bind_inv H. bind_inv H.
  apply getitem_lookup in Ha, Ha0, Ha1, Ha2.
  injection H as <- <- <- <- <-.
  exists a, a0, a1, a2. repeat split; assumption.
Qed.

(** X14.  [load_data] returns normally exactly when the two worker columns and
    the two migration columns are in the files read; otherwise it raises
    KeyError. *)
Theorem load_data_needs_four_columns (wp mig pop ret allp : DataFrame) :
  (exists frames, load_data wp mig pop ret allp = Ok frames) <->
  (lookup "Full time third country workers" (df_columns wp) <> None /\
   lookup "Full time EU workers" (df_columns wp) <> None /\
   lookup "Immigration foreign citizens 20-64 years" (df_columns mig) <> None /\
   lookup "Emigration foreign citizens 20-64 years" (df_columns mig) <> None).
Proof.
  split.
  - intros ([[[[wp' mig'] pop'] ret'] allp'] & H).
    destruct (load_data_inv _ _ _ _ _ _ _ _ _ _ H)
      as (tc & eu & imm & emi & H1 & H2 & H3 & H4 & _).
    rewrite H1, H2, H3, H4. repeat split; discriminate.
  - intros (H1 & H2 & H3 & H4). unfold load_data, getitem.
    destruct (lookup "Full time third country workers" (df_columns wp));
      [| congruence].
    destruct (lookup "Full time EU workers" (df_columns wp)); [| congruence].
    destruct (lookup "Immigration foreign citizens 20-64 years" (df_columns mig));
      [| congruence].
    destruct (lookup "Emigration foreign citizens 20-64 years" (df_columns mig));
      [| congruence].
    cbn [bind]. eexists. reflexivity.
Qed.

Lemma load_data_needs_four_columns_witness :
  exists frames,
    load_data work_permits_raw migration_raw population_raw retention_raw
      all_permits_raw = Ok frames.
Proof.
  apply (proj2 (load_data_needs_four_columns work_permits_raw migration_raw
                  population_raw retention_raw all_permits_raw)).
  repeat split; discriminate.
Defined.

(** X15.  [load_data] leaves what it read as it is, apart from the columns it
    derives: the years and every column other than 'Total workers' of the
    worker frame, the years and every column other than 'Net migration' of the
    migration frame, and the retention and permit frames. *)
Theorem load_data_keeps_columns (wp mig pop ret allp wp' mig' pop' ret' allp' : DataFrame) :
  load_data wp mig pop ret allp = Ok (wp', mig', pop', ret', allp') ->
  df_Year wp' = df_Year wp /\
  (forall name, name <> "Total workers"%string ->
                lookup name (df_columns wp') = lookup name (df_columns wp)) /\
  df_Year mig' = df_Year mig /\
  (forall name, name <> "Net migration"%string ->
                lookup name (df_columns mig') = lookup name (df_columns mig)) /\
  df_Year pop' = df_Year pop /\
  ret' = ret /\ allp' = allp.
Proof.
  intros H.
  destruct (load_data_inv _ _ _ _ _ _ _ _ _ _ H)
    as (tc & eu & imm & emi & _ & _ & _ & _ & -> & -> & -> & -> & ->).
  repeat split; try reflexivity.
  - intros name Hne. simpl. now apply lookup_assign_other.
  - intros name Hne. simpl. now apply lookup_assign_other.
Qed.

Lemma columns_aligned_lookup (df : DataFrame) (name : string) (s : list (option Q)) :
  columns_aligned df = true ->
  lookup name (df_columns df) = Some s ->
  List.length (df_Year df) = List.length s.
Proof.
  unfold columns_aligned. generalize (List.length (df_Year df)) as n.
  induction (df_columns df) as [| [k w] d IH]; simpl; intros n Hall Hl;
    [discriminate |].
  apply andb_true_iff in Hall. destruct Hall as [Hw Hd].
  destruct (String.eqb name k).
  - injection Hl as <-. apply Nat.eqb_eq in Hw. auto.
  - now apply IH.
Qed.

(** The forecast of a column [load_data] derives as [a + sign * b]: it is
    the rounded value of the line of [a] plus [sign] times the line of [b],
    hence at most 1 away from the forecasts of [a] and [b] combined. *)
Lemma derived_forecast_near (np_sqrt : Q -> Q) (op : Q -> Q -> Q) (sign : Z)
    (raw : DataFrame) (derived first second : string) (s1 s2 : list (option Q))
    (dfs : list (string * DataFrame)) (target : list (string * list string))
    (h : Z) (include_cv include_r2 : bool) (table : list ForecastRow)
    (category : string) (r r1 r2 : ForecastRow) :
  (sign = 1 \/ sign = -1) ->
  (forall a b, op a b == a + inject_Z sign * b)%Q ->
  first <> derived -> second <> derived ->
  lookup first (df_columns raw) = Some s1 ->
  lookup second (df_columns raw) = Some s2 ->
  columns_aligned raw = true ->
  NoDup (map fst dfs) ->
  In (category, setitem raw derived (series_op op s1 s2)) dfs ->
  generate_forecast_table np_sqrt dfs target h include_cv include_r2 = Ok table ->
  In r table -> In r1 table -> In r2 table ->
  Category r = category -> Category r1 = category -> Category r2 = category ->
  Metric r = derived -> Metric r1 = first -> Metric r2 = second ->
  Year r1 = Year r -> Year r2 = Year r ->
  Z.abs (Forecast r - (Forecast r1 + sign * Forecast r2)) <= 1.
Proof.
  intros Hsign Hop Hne1 Hne2 Hl1 Hl2 Hal Hnd Hin Hgen Hr Hr1 Hr2
         Hc Hc1 Hc2 Hm Hm1 Hm2 Hy1 Hy2.
  destruct (generated_row_values _ _ _ _ _ _ _ _ Hgen Hr)
    as (ly & st & _ & (df & cols & s & Hdf & _ & _ & Hs & Hnull & Hfit) & _ & HF & _).
  destruct (generated_row_values _ _ _ _ _ _ _ _ Hgen Hr1)
    as (ly1 & st1 & _ & (df1 & cols1 & s1' & Hdf1 & _ & _ & Hs1 & Hnull1 & Hfit1)
        & _ & HF1 & _).
  destruct (generated_row_values _ _ _ _ _ _ _ _ Hgen Hr2)
    as (ly2 & st2 & _ & (df2 & cols2 & s2' & Hdf2 & _ & _ & Hs2 & Hnull2 & Hfit2)
        & _ & HF2 & _).
  rewrite Hc in Hdf. rewrite Hc1 in Hdf1. rewrite Hc2 in Hdf2.
  rewrite (NoDup_keys_In _ _ _ _ Hnd Hdf Hin) in *.
  rewrite (NoDup_keys_In _ _ _ _ Hnd Hdf1 Hin) in *.
  rewrite (NoDup_keys_In _ _ _ _ Hnd Hdf2 Hin) in *.
  clear Hdf Hdf1 Hdf2.
  apply getitem_lookup in Hs, Hs1, Hs2. cbn [setitem df_columns df_Year] in *.
  rewrite Hm, lookup_assign_same in Hs. injection Hs as <-.
  rewrite Hm1, lookup_assign_other, Hl1 in Hs1 by exact Hne1. injection Hs1 as <-.
  rewrite Hm2, lookup_assign_other, Hl2 in Hs2 by exact Hne2. injection Hs2 as <-.
  destruct (derived_column_line np_sqrt op (inject_Z sign) (df_Year raw) s1 s2 st1 st2
              Hop Hnull1 Hnull2
              (columns_aligned_lookup _ _ _ Hal Hl1)
              (columns_aligned_lookup _ _ _ Hal Hl2) Hfit1 Hfit2)
    as (st' & Hst' & Hline).
  rewrite Hfit in Hst'. injection Hst' as <-.
  rewrite HF, HF1, HF2, Hy1, Hy2.
  apply py_round_linear_near; [exact Hsign | apply Hline].
Qed.

(** X17.  The forecast of 'Total workers' is the rounded value of the sum of
    the lines of its two components, so it differs by at most 1 from the sum
    of the forecasts of third-country and EU workers of the same year. *)
Theorem total_workers_forecast_adds_up (np_sqrt : Q -> Q)
    (work_permits migration population retention all_permits : DataFrame)
    (work_permits' migration' population' retention' all_permits' : DataFrame)
    (dfs : list (string * DataFrame)) (target : list (string * list string))
    (h : Z) (include_cv include_r2 : bool) (table : list ForecastRow)
    (category : string) (total third_country eu : ForecastRow) :
  load_data work_permits migration population retention all_permits =
    Ok (work_permits', migration', population', retention', all_permits') ->
  columns_aligned work_permits = true ->
  NoDup (map fst dfs) ->
  In (category, work_permits') dfs ->
  generate_forecast_table np_sqrt dfs target h include_cv include_r2 = Ok table ->
  In total table -> In third_country table -> In eu table ->
  Category total = category -> Category third_country = category ->
  Category eu = category ->
  Metric total = "Total workers"%string ->
  Metric third_country = "Full time third country workers"%string ->
  Metric eu = "Full time EU workers"%string ->
  Year third_country = Year total -> Year eu = Year total ->
  Z.abs (Forecast total - (Forecast third_country + Forecast eu)) <= 1.
Proof.
  intros Hload Hal Hnd Hin Hgen Hr Hr1 Hr2 Hc Hc1 Hc2 Hm Hm1 Hm2 Hy1 Hy2.
  destruct (load_data_inv _ _ _ _ _ _ _ _ _ _ Hload)
    as (tc & eu' & imm & emi & H1 & H2 & _ & _ & Hwp & _).
  subst work_permits'.
  replace (Forecast eu) with (1 * Forecast eu) by lia.
  apply (derived_forecast_near np_sqrt Qplus 1 work_permits "Total workers"
           "Full time third country workers" "Full time EU workers" tc eu'
           dfs target h include_cv include_r2 table category); auto;
    try discriminate.
  intros a b. change (inject_Z 1) with 1%Q. ring.
Qed.

(** X18.  The forecast of 'Net migration' is the rounded value of the
    difference of the lines of immigration and emigration, so it differs by at
    most 1 from the difference of their forecasts of the same year. *)
Theorem net_migration_forecast_is_difference (np_sqrt : Q -> Q)
    (work_permits migration population retention all_permits : DataFrame)
    (work_permits' migration' population' retention' all_permits' : DataFrame)
    (dfs : list (string * DataFrame)) (target : list (string * list string))
    (h : Z) (include_cv include_r2 : bool) (table : list ForecastRow)
    (category : string) (net immigration emigration : ForecastRow) :
  load_data work_permits migration population retention all_permits =
    Ok (work_permits', migration', population', retention', all_permits') ->
  columns_aligned migration = true ->
  NoDup (map fst dfs) ->
  In (category, migration') dfs ->
  generate_forecast_table np_sqrt dfs target h include_cv include_r2 = Ok table ->
  In net table -> In immigration table -> In emigration table ->
  Category net = category -> Category immigration = category ->
  Category emigration = category ->
  Metric net = "Net migration"%string ->
  Metric immigration = "Immigration foreign citizens 20-64 years"%string ->
  Metric emigration = "Emigration foreign citizens 20-64 years"%string ->
  Year immigration = Year net -> Year emigration = Year net ->
  Z.abs (Forecast net - (Forecast immigration - Forecast emigration)) <= 1.
Proof.
  intros Hload Hal Hnd Hin Hgen Hr Hr1 Hr2 Hc Hc1 Hc2 Hm Hm1 Hm2 Hy1 Hy2.
  destruct (load_data_inv _ _ _ _ _ _ _ _ _ _ Hload)
    as (tc & eu' & imm & emi & _ & _ & H3 & H4 & _ & Hmig & _).
  subst migration'.
  replace (Forecast immigration - Forecast emigration)
    with (Forecast immigration + (-1) * Forecast emigration) by lia.
  apply (derived_forecast_near np_sqrt Qminus (-1) migration "Net migration"
           "Immigration foreign citizens 20-64 years"
           "Emigration foreign citizens 20-64 years" imm emi
           dfs target h include_cv include_r2 table category); auto;
    try discriminate.
  intros a b. change (inject_Z (-1)) with (-1)%Q. ring.
Qed.

Lemma rename_column_lookup (old new name : string) (df : DataFrame) :
  old <> new ->
  lookup new (df_columns df) = None ->
  lookup name (df_columns (rename_column old new df)) =
  if String.eqb name new then lookup old (df_columns df)
  else if String.eqb name old then None
  else lookup name (df_columns df).
Proof.
  intros Hne. unfold rename_column. cbn [df_columns].
  induction (df_columns df) as [| [k w] d IH]; simpl; intros Hnew.
  - now destruct (String.eqb name new), (String.eqb name old).
  - destruct (String.eqb new k) eqn:Enk; [discriminate |].
    specialize (IH Hnew).
    destruct (String.eqb k old) eqn:Eko; simpl.
    + apply String.eqb_eq in Eko. subst k.
      rewrite String.eqb_refl.
      destruct (String.eqb name new) eqn:E1; [reflexivity |].
      rewrite IH. destruct (String.eqb name old); reflexivity.
    + destruct (String.eqb name k) eqn:E2.
      * apply String.eqb_eq in E2. subst k.
        rewrite String.eqb_sym in Enk. rewrite Enk, Eko. reflexivity.
      * rewrite IH. destruct (String.eqb name new) eqn:E1; [| reflexivity].
        rewrite String.eqb_sym in Eko.
        destruct (String.eqb old k) eqn:E3; [discriminate | reflexivity].
Qed.

(** X16.  [load_data] hands the population column over under its plain name:
    a frame read with the quoted header and no column of the plain name has,
    after loading, the same cells under 'Foreign citizens 20-64 years', no
    column of the quoted name, and every other column as it was. *)
Theorem population_column_is_renamed
    (work_permits migration population retention all_permits : DataFrame)
    (work_permits' migration' population' retention' all_permits' : DataFrame) :
  load_data work_permits migration population retention all_permits =
    Ok (work_permits', migration', population', retention', all_permits') ->
  lookup "Foreign citizens 20-64 years" (df_columns population) = None ->
  lookup "Foreign citizens 20-64 years" (df_columns population') =
    lookup quoted_population_column (df_columns population) /\
  lookup quoted_population_column (df_columns population') = None /\
  (forall name, name <> "Foreign citizens 20-64 years"%string ->
                name <> quoted_population_column ->
                lookup name (df_columns population') =
                lookup name (df_columns population)) /\
  df_Year population' = df_Year population.
Proof.
  intros Hload Hplain.
  destruct (load_data_inv _ _ _ _ _ _ _ _ _ _ Hload)
    as (tc & eu & imm & emi & _ & _ & _ & _ & _ & _ & -> & _).
  assert (Hne : quoted_population_column <> "Foreign citizens 20-64 years"%string)
    by discriminate.
  split; [| split; [| split]].
  - rewrite (rename_column_lookup _ _ _ _ Hne Hplain). now rewrite String.eqb_refl.
  - rewrite (rename_column_lookup _ _ _ _ Hne Hplain). reflexivity.
  - intros name H1 H2. rewrite (rename_column_lookup _ _ _ _ Hne Hplain).
    apply String.eqb_neq in H1, H2. now rewrite H1, H2.
  - reflexivity.
Qed.

Lemma population_column_is_renamed_witness :
  lookup "Foreign citizens 20-64 years" (df_columns loaded_population) =
    lookup quoted_population_column (df_columns population_raw) /\
  lookup quoted_population_column (df_columns loaded_population) = None /\
  (forall name, name <> "Foreign citizens 20-64 years"%string ->
                name <> quoted_population_column ->
                lookup name (df_columns loaded_population) =
                lookup name (df_columns population_raw)) /\
  df_Year loaded_population = df_Year population_raw.
Proof.
  apply (population_column_is_renamed work_permits_raw migration_raw population_raw
           retention_raw all_permits_raw loaded_work_permits loaded_migration
           loaded_population retention_raw all_permits_raw).
  - vm_compute. reflexivity.
  - vm_compute. reflexivity.
Defined.

Lemma load_data_keeps_columns_witness :
  df_Year loaded_work_permits = df_Year work_permits_raw /\
  (forall name, name <> "Total workers"%string ->
                lookup name (df_columns loaded_work_permits) =
                lookup name (df_columns work_permits_raw)) /\
  df_Year loaded_migration = df_Year migration_raw /\
  (forall name, name <> "Net migration"%string ->
                lookup name (df_columns loaded_migration) =
                lookup name (df_columns migration_raw)) /\
  df_Year loaded_population = df_Year population_raw /\
  retention_raw = retention_raw /\ all_permits_raw = all_permits_raw.
Proof.
  apply (load_data_keeps_columns work_permits_raw migration_raw population_raw
           retention_raw all_permits_raw loaded_work_permits loaded_migration
           loaded_population retention_raw all_permits_raw).
  vm_compute. reflexivity.
Defined.

Lemma total_workers_forecast_adds_up_witness :
  Z.abs (Forecast (nth 5 loaded_table null_row)
         - (Forecast (nth 4 loaded_table null_row)
            + Forecast (nth 3 loaded_table null_row))) <= 1.
Proof.
  apply (total_workers_forecast_adds_up sqrt_approx work_permits_raw migration_raw
           population_raw retention_raw all_permits_raw loaded_work_permits
           loaded_migration loaded_population retention_raw all_permits_raw
           loaded_frames loaded_target 1 true true loaded_table "Work Permits").
  - vm_compute. reflexivity.
  - reflexivity.
  - repeat constructor; simpl; intuition discriminate.
  - left. reflexivity.
  - vm_compute. reflexivity.
  - do 5 right. left. reflexivity.
  - do 4 right. left. reflexivity.
  - do 3 right. left. reflexivity.
  - reflexivity.
  - reflexivity.
  - reflexivity.
  - reflexivity.
  - reflexivity.
  - reflexivity.
  - reflexivity.
  - reflexivity.
Defined.

Lemma net_migration_forecast_is_difference_witness :
  Z.abs (Forecast (nth 2 loaded_table null_row)
         - (Forecast (nth 1 loaded_table null_row)
            - Forecast (nth 0 loaded_table null_row))) <= 1.
Proof.
  apply (net_migration_forecast_is_difference sqrt_approx work_permits_raw
           migration_raw population_raw retention_raw all_permits_raw
           loaded_work_permits loaded_migration loaded_population retention_raw
           all_permits_raw loaded_frames loaded_target 1 true true loaded_table
           "Migration").
  - vm_compute. reflexivity.
  - reflexivity.
  - repeat constructor; simpl; intuition discriminate.
  - right. left. reflexivity.
  - vm_compute. reflexivity.
  - do 2 right. left. reflexivity.
  - do 1 right. left. reflexivity.
  - left. reflexivity.
  - reflexivity.
  - reflexivity.
  - reflexivity.
  - reflexivity.
  - reflexivity.
  - reflexivity.
  - reflexivity.
  - reflexivity.
Defined.

(** ** Plotting a built table *)

Lemma lookup_NoDup_In {V} (d : list (string * V)) (key : string) (v : V) :
  NoDup (map fst d) -> In (key, v) d -> lookup key d = Some v.
Proof.
  induction d as [| [k w] d IH]; simpl; intros Hnd Hin; [contradiction |].
  inversion Hnd as [| ? ? Hnotin Hnd']; subst.
  destruct Hin as [E | Hin].
  - injection E as -> ->. now rewrite String.eqb_refl.
  - destruct (String.eqb key k) eqn:Ek; [| now apply IH].
    apply String.eqb_eq in Ek. subst k. exfalso. apply Hnotin.
    apply (in_map fst) in Hin. exact Hin.
Qed.

Lemma has_r2_column_intro (table : list ForecastRow) (r : ForecastRow) :
  In r table -> R2 r <> None -> has_r2_column table = true.
Proof.
  intros Hin Hr. unfold has_r2_column. apply existsb_exists.
  exists r. split; [exact Hin |]. destruct (R2 r); [reflexivity | congruence].
Qed.

Lemma generated_has_r2_column (np_sqrt : Q -> Q) (dfs : list (string * DataFrame))
    (target : list (string * list string)) (h : Z) (include_cv : bool)
    (table : list ForecastRow) :
  generate_forecast_table np_sqrt dfs target h include_cv true = Ok table ->
  has_r2_column table = true.
Proof.
  intros Hgen.
  pose proof (generated_table_nonempty _ _ _ _ _ _ _ Hgen) as Hne.
  destruct table as [| r table]; [congruence |].
  apply (has_r2_column_intro _ r); [now left |].
  apply (generated_rows_have_r2 _ _ _ _ _ _ _ Hgen). now left.
Qed.

Lemma category_column_nonempty (table : list ForecastRow) :
  table <> [] -> category_column table = Return tt.
Proof. destruct table; [congruence | reflexivity]. Qed.

(** Every row of a built table belongs to a column without missing values. *)
Lemma generated_rows_not_missing (np_sqrt : Q -> Q) (dfs : list (string * DataFrame))
    (target : list (string * list string)) (h : Z) (include_cv include_r2 : bool)
    (table : list ForecastRow) (r : ForecastRow) :
  generate_forecast_table np_sqrt dfs target h include_cv include_r2 = Ok table ->
  In r table ->
  exists df, In (Category r, df) dfs /\ has_missing df (Metric r) = false.
Proof.
  intros Hgen Hin.
  destruct (generated_row_inv _ _ _ _ _ _ _ _ Hgen Hin)
    as (last_year & st & _ & (df & columns & s & Hdf & _ & _ & Hs & Hnull & _) & _).
  exists df. split; [exact Hdf |].
  unfold has_missing. apply getitem_lookup in Hs. now rewrite Hs.
Qed.

Lemma plot_one_title (dfs : list (string * DataFrame)) (table : list ForecastRow)
    (dir category metric : string) (fig : Figure) :
  plot_one dfs table dir category metric = Return fig ->
  title_category fig = category /\ title_metric fig = metric.
Proof.
  unfold plot_one. intros H.
  repeat match type of H with
         | bind_outcome ?c _ = Return _ =>
             destruct c; cbn [bind_outcome] in H; [| discriminate]
         end.
  injection H as <-. split; reflexivity.
Qed.

Lemma plot_forecasts_figures (dfs : list (string * DataFrame))
    (table : list ForecastRow) (metrics : list (string * string)) (dir : string)
    (fig : Figure) :
  In fig (fst (plot_forecasts dfs table metrics dir)) ->
  exists category metric,
    In (category, metric) metrics /\
    plot_one dfs table dir category metric = Return fig.
Proof.
  induction metrics as [| [c m] metrics IH]; simpl; [contradiction |].
  destruct (plot_one dfs table dir c m) as [fig0 | e] eqn:E; [| contradiction].
  destruct (plot_forecasts dfs table metrics dir) as [figs e]. simpl in *.
  intros [<- | Hin].
  - exists c, m. auto.
  - destruct (IH Hin) as (c' & m' & Hin' & H'). exists c', m'. auto.
Qed.

(** A metric whose plot raises ends the loop, at the latest when its turn
    comes. *)
Lemma plot_forecasts_stops (dfs : list (string * DataFrame))
    (table : list ForecastRow) (metrics : list (string * string)) (dir : string)
    (category metric : string) (e0 : pyexception) :
  plot_one dfs table dir category metric = Throw e0 ->
  In (category, metric) metrics ->
  exists figs e, plot_forecasts dfs table metrics dir = (figs, Some e).
Proof.
  intros Hthrow. induction metrics as [| [c m] metrics IH]; simpl; [contradiction |].
  intros Hin.
  destruct (plot_one dfs table dir c m) as [fig0 | e] eqn:E; [| eauto].
  destruct Hin as [Heq | Hin]; [injection Heq as -> ->; congruence |].
  destruct (IH Hin) as (figs & e & H). rewrite H. eauto.
Qed.

(** A metric skipped for its missing values has no row: reading the title
    from the first one raises IndexError. *)
Lemma plot_one_skipped (np_sqrt : Q -> Q)
    (dfs : list (string * DataFrame)) (target : list (string * list string))
    (h : Z) (include_cv : bool) (table : list ForecastRow)
    (dir category metric : string) (df : DataFrame) :
  NoDup (map fst dfs) ->
  generate_forecast_table np_sqrt dfs target h include_cv true = Ok table ->
  In (category, df) dfs ->
  has_missing df metric = true ->
  plot_one dfs table dir category metric = Throw IndexError.
Proof.
  intros Hnd Hgen Hdf Hmiss.
  unfold plot_one, getitem.
    rewrite (lookup_NoDup_In _ _ _ Hnd Hdf). cbn [lift bind_outcome].
    pose proof Hmiss as Hcol. unfold has_missing in Hcol.
    destruct (lookup metric (df_columns df)) as [s |]; [| discriminate].
    cbn [lift bind_outcome].
    rewrite (category_column_nonempty _ (generated_table_nonempty _ _ _ _ _ _ _ Hgen)).
    cbn [bind_outcome].
    rewrite (generated_has_r2_column _ _ _ _ _ _ Hgen). cbn [bind_outcome].
    assert (Hnil : filter (fun r => String.eqb (Category r) category
                                    && String.eqb (Metric r) metric) table = []).
    { apply filter_nil_iff. intros r Hin.
      destruct (String.eqb (Category r) category) eqn:Ec; [| reflexivity].
      destruct (String.eqb (Metric r) metric) eqn:Em; [| reflexivity].
      apply String.eqb_eq in Ec, Em. exfalso.
      destruct (generated_rows_not_missing _ _ _ _ _ _ _ _ Hgen Hin)
        as (df' & Hdf' & Hnm).
      rewrite Ec in Hdf'. rewrite Em in Hnm.
      rewrite (NoDup_keys_In _ _ _ _ Hnd Hdf' Hdf) in Hnm. congruence. }
    rewrite Hnil. reflexivity.
Qed.

(** X19.  Asking for the plot of a metric that the builder skipped for its
    missing values raises IndexError: the table has no row for it, and the
    title is read from the first one.  The loop ends there at the latest:
    [plot_forecasts] does not complete, and no figure of that metric is
    saved. *)
Theorem plot_of_skipped_metric_raises (np_sqrt : Q -> Q)
    (dfs : list (string * DataFrame)) (target : list (string * list string))
    (h : Z) (include_cv : bool) (table : list ForecastRow)
    (dir category metric : string) (df : DataFrame) :
  NoDup (map fst dfs) ->
  generate_forecast_table np_sqrt dfs target h include_cv true = Ok table ->
  In (category, df) dfs ->
  has_missing df metric = true ->
  plot_one dfs table dir category metric = Throw IndexError /\
  forall metrics, In (category, metric) metrics ->
    exists figs e,
      plot_forecasts dfs table metrics dir = (figs, Some e) /\
      forall fig, In fig figs ->
        ~ (title_category fig = category /\ title_metric fig = metric).
Proof.
  intros Hnd Hgen Hdf Hmiss.
  pose proof (plot_one_skipped _ _ _ _ _ _ dir _ _ _ Hnd Hgen Hdf Hmiss) as Hone.
  split; [exact Hone |].
  intros metrics Hin.
  destruct (plot_forecasts_stops _ _ _ dir _ _ _ Hone Hin) as (figs & e & H).
  exists figs, e. split; [exact H |].
  intros fig Hfig [Hc Hm].
  assert (Hfig' : In fig (fst (plot_forecasts dfs table metrics dir)))
    by (rewrite H; exact Hfig).
  destruct (plot_forecasts_figures _ _ _ _ _ Hfig') as (c & m & _ & Hplot).
  destruct (plot_one_title _ _ _ _ _ _ Hplot) as [Hc' Hm'].
  rewrite Hc in Hc'. rewrite Hm in Hm'. subst c m. congruence.
Qed.

Lemma plot_of_skipped_metric_raises_witness :
  plot_one [("G"%string, gap_df)] gap_table "plots" "G" "holes" = Throw IndexError /\
  forall metrics, In ("G"%string, "holes"%string) metrics ->
    exists figs e,
      plot_forecasts [("G"%string, gap_df)] gap_table metrics "plots" = (figs, Some e) /\
      forall fig, In fig figs ->
        ~ (title_category fig = "G"%string /\ title_metric fig = "holes"%string).
Proof.
  apply (plot_of_skipped_metric_raises sqrt_approx [("G"%string, gap_df)] gap_target 2
           true gap_table "plots" "G" "holes" gap_df).
  - repeat constructor; simpl; tauto.
  - vm_compute. reflexivity.
  - left. reflexivity.
  - reflexivity.
Defined.

(** Every non-skipped pair has its column in the frame and a row in the
    table. *)
Lemma generated_pair_rows (np_sqrt : Q -> Q) (dfs : list (string * DataFrame))
    (target : list (string * list string)) (h : Z) (include_cv include_r2 : bool)
    (table : list ForecastRow) (category metric : string) (df : DataFrame) :
  generate_forecast_table np_sqrt dfs target h include_cv include_r2 = Ok table ->
  In (category, df, metric) (non_skipped_pairs dfs target) ->
  (exists s, lookup metric (df_columns df) = Some s) /\
  exists r, In r table /\ Category r = category /\ Metric r = metric.
Proof.
  intros Hgen Hpair.
  destruct (generate_forecast_table_blocks _ _ _ _ _ _ _ Hgen)
    as (last_year & blocks & _ & Hperm & Hall).
  assert (Hlen : List.length table =
                 (Z.to_nat h * List.length (non_skipped_pairs dfs target))%nat).
  { rewrite (Permutation_length Hperm).
    apply (concat_blocks_length _ _ _ _ Hall).
    intros pair block (s & st & _ & _ & _ & ->).
    now rewrite length_map, length_seq. }
  assert (Hh : (0 < Z.to_nat h)%nat).
  { pose proof (generated_table_nonempty _ _ _ _ _ _ _ Hgen) as Hne.
    destruct table; [congruence |]. simpl in Hlen.
    destruct (Z.to_nat h); [discriminate | lia]. }
  destruct (Forall2_In_l _ _ _ _ Hall Hpair) as (block & Hblock & Hcb).
  destruct Hcb as (s & st & Hs & _ & _ & ->). simpl in *.
  split; [exists s; now apply getitem_lookup |].
  destruct (Z.to_nat h) as [| n] eqn:En; [lia |].
  eexists. split; [| split].
  - apply (Permutation_in _ (Permutation_sym Hperm)).
    apply in_concat. eexists. split; [exact Hblock |].
    simpl. left. reflexivity.
  - reflexivity.
  - reflexivity.
Qed.

Lemma plot_one_returns (dfs : list (string * DataFrame)) (table : list ForecastRow)
    (dir category metric : string) (df : DataFrame) (s : list (option Q))
    (r : ForecastRow) :
  lookup category dfs = Some df ->
  lookup metric (df_columns df) = Some s ->
  (forall r', In r' table -> R2 r' <> None) ->
  In r table -> Category r = category -> Metric r = metric ->
  exists fig,
    plot_one dfs table dir category metric = Return fig /\
    path fig = (dir ++ "/" ++ category ++ "_" ++ safe_metric metric ++ ".png")%string /\
    forecast_line fig <> [].
Proof.
  intros Hdf Hs Hr2 Hin Hc Hm.
  unfold plot_one, getitem. rewrite Hdf. cbn [lift bind_outcome].
  rewrite Hs. cbn [lift bind_outcome].
  rewrite category_column_nonempty by (intros E; rewrite E in Hin; contradiction).
  cbn [bind_outcome].
  rewrite (has_r2_column_intro table r Hin (Hr2 r Hin)). cbn [bind_outcome].
  set (keep := fun r0 => String.eqb (Category r0) category
                         && String.eqb (Metric r0) metric).
  assert (Hkeep : In r (filter keep table)).
  { apply filter_In. split; [exact Hin |].
    unfold keep. rewrite Hc, Hm, !String.eqb_refl. reflexivity. }
  destruct (filter keep table) as [| r0 rows] eqn:Ef; [contradiction |].
  cbn [map iloc0 bind_outcome].
  rewrite assess_forecast_reliability_rows; [| | discriminate].
  - cbn [lift bind_outcome map iloc0].
    eexists. split; [reflexivity |]. split; [reflexivity |].
    cbn [forecast_line map combine]. discriminate.
  - intros r' Hr'. apply Hr2.
    assert (H : In r' (filter keep table)) by (rewrite Ef; exact Hr').
    apply filter_In in H. tauto.
Qed.

(** X20.  With the table of the builder, plotting metrics that were all
    forecast completes: one figure is saved per metric, in the order asked,
    under [output_dir/category_metric.png] with the spaces and slashes of the
    metric replaced, and every forecast line has at least one point. *)
Theorem plot_forecasts_completes (np_sqrt : Q -> Q)
    (dfs : list (string * DataFrame)) (target : list (string * list string))
    (h : Z) (include_cv : bool) (table : list ForecastRow)
    (metrics : list (string * string)) (dir : string) :
  NoDup (map fst dfs) ->
  generate_forecast_table np_sqrt dfs target h include_cv true = Ok table ->
  (forall category metric, In (category, metric) metrics ->
     exists df, In (category, df, metric) (non_skipped_pairs dfs target)) ->
  exists figs,
    plot_forecasts dfs table metrics dir = (figs, None) /\
    map (fun fig => (title_category fig, title_metric fig)) figs = metrics /\
    forall fig, In fig figs ->
      path fig = (dir ++ "/" ++ title_category fig ++ "_"
                  ++ safe_metric (title_metric fig) ++ ".png")%string /\
      forecast_line fig <> [].
Proof.
  intros Hnd Hgen.
  induction metrics as [| [c m] metrics IH]; intros Hall.
  - exists []. simpl. repeat split; contradiction.
  - destruct (Hall c m (or_introl eq_refl)) as (df & Hpair).
    destruct (generated_pair_rows _ _ _ _ _ _ _ _ _ _ Hgen Hpair)
      as ((s & Hs) & (r & Hin & Hc & Hm)).
    destruct (non_skipped_pairs_In _ _ _ _ _ Hpair) as (columns & Hdf & _ & _).
    destruct (plot_one_returns dfs table dir c m df s r
                (lookup_NoDup_In _ _ _ Hnd Hdf) Hs
                (fun r' Hr' => generated_rows_have_r2 _ _ _ _ _ _ _ Hgen Hr')
                Hin Hc Hm) as (fig & Hfig & Hpath & Hline).
    destruct (IH (fun c' m' H' => Hall c' m' (or_intror H')))
      as (figs & Hfigs & Hmap & Hprop).
    exists (fig :: figs). simpl. rewrite Hfig, Hfigs.
    destruct (plot_one_title _ _ _ _ _ _ Hfig) as [Ht1 Ht2].
    split; [reflexivity |]. split.
    + simpl. now rewrite Ht1, Ht2, Hmap.
    + intros fig' [<- | Hin']; [| now apply Hprop].
      rewrite Ht1, Ht2. split; assumption.
Qed.

Lemma plot_forecasts_completes_witness :
  exists figs,
    plot_forecasts [("G"%string, gap_df)] gap_table
      [("G", "down"); ("G", "up")]%string "plots" = (figs, None) /\
    map (fun fig => (title_category fig, title_metric fig)) figs =
      [("G", "down"); ("G", "up")]%string /\
    forall fig, In fig figs ->
      path fig = ("plots" ++ "/" ++ title_category fig ++ "_"
                  ++ safe_metric (title_metric fig) ++ ".png")%string /\
      forecast_line fig <> [].
Proof.
  apply (plot_forecasts_completes sqrt_approx [("G"%string, gap_df)] gap_target 2
           true gap_table).
  - repeat constructor; simpl; tauto.
  - vm_compute. reflexivity.
  - intros category metric [E | [E | []]]; injection E as <- <-; exists gap_df.
    + right. left. reflexivity.
    + left. reflexivity.
Defined.

Lemma plot_one_band (dfs : list (string * DataFrame)) (table : list ForecastRow)
    (dir category metric : string) (fig : Figure) :
  plot_one dfs table dir category metric = Return fig ->
  exists rows,
    (forall r, In r rows -> In r table) /\
    forecast_line fig = map (fun r => (Year r, Forecast r)) rows /\
    band fig = map (fun r => (Year r, Forecast r - Uncertainty r,
                              Forecast r + Uncertainty r)) rows.
Proof.
  unfold plot_one. intros H.
  repeat match type of H with
         | bind_outcome ?c _ = Return _ =>
             destruct c; cbn [bind_outcome] in H; [| discriminate]
         end.
  injection H as <-. cbn [forecast_line band].
  eexists. split; [| split].
  - intros r Hr. apply filter_In in Hr. exact (proj1 Hr).
  - apply combine_map_same.
  - now rewrite !combine_map_same.
Qed.

(** X21.  In every figure saved from a built table the band encloses the
    forecast line: at each forecast year, lower <= forecast <= upper (with a
    square root that is never negative). *)
Theorem band_encloses_forecast (np_sqrt : Q -> Q)
    (dfs : list (string * DataFrame)) (target : list (string * list string))
    (h : Z) (include_cv include_r2 : bool) (table : list ForecastRow)
    (metrics : list (string * string)) (dir : string) (fig : Figure) :
  (forall x, (0 <= np_sqrt x)%Q) ->
  generate_forecast_table np_sqrt dfs target h include_cv include_r2 = Ok table ->
  In fig (fst (plot_forecasts dfs table metrics dir)) ->
  Forall2 (fun point b =>
             fst point = fst (fst b) /\
             snd (fst b) <= snd point <= snd b)
          (forecast_line fig) (band fig).
Proof.
  intros Hsqrt Hgen Hfig.
  destruct (plot_forecasts_figures _ _ _ _ _ Hfig) as (c & m & _ & Hplot).
  destruct (plot_one_band _ _ _ _ _ _ Hplot) as (rows & Hrows & -> & ->).
  induction rows as [| r rows IH]; simpl; constructor.
  - pose proof (generated_row_uncertainty_nonneg _ _ _ _ _ _ _ _ Hsqrt Hgen
                  (Hrows r (or_introl eq_refl))) as HU.
    simpl. split; [reflexivity | lia].
  - apply IH. intros r' Hr'. apply Hrows. now right.
Qed.

Lemma band_encloses_forecast_witness :
  Forall (fun fig =>
            Forall2 (fun point b =>
                       fst point = fst (fst b) /\
                       snd (fst b) <= snd point <= snd b)
                    (forecast_line fig) (band fig))
         loaded_figures.
Proof.
  apply Forall_forall. intros fig Hfig.
  apply (band_encloses_forecast sqrt_approx loaded_frames loaded_target 1 true true
           loaded_table
           [("Work Permits", "Total workers"); ("Migration", "Net migration")]%string
           "plots" fig).
  - exact sqrt_approx_nonneg.
  - vm_compute. reflexivity.
  - exact Hfig.
Defined.

(** ** File names *)

Lemma replace_char_length (old new : ascii) (s : string) :
  String.length (replace_char old new s) = String.length s.
Proof. induction s as [| c s IH]; simpl; [reflexivity | now rewrite IH]. Qed.

Lemma replace_char_removes (old new : ascii) (s : string) :
  old <> new -> occurs old (replace_char old new s) = false.
Proof.
  intros Hne. induction s as [| c s IH]; simpl; [reflexivity |].
  rewrite IH, orb_false_r.
  destruct (Ascii.eqb_spec c old) as [-> | Hc]; apply Ascii.eqb_neq; congruence.
Qed.

Lemma replace_char_keeps_absent (old new c : ascii) (s : string) :
  c <> new -> occurs c s = false -> occurs c (replace_char old new s) = false.
Proof.
  intros Hne. induction s as [| c' s IH]; simpl; [reflexivity |].
  intros H. apply orb_false_iff in H. destruct H as [H1 H2].
  rewrite (IH H2), orb_false_r.
  destruct (Ascii.eqb c' old); [apply Ascii.eqb_neq; congruence | exact H1].
Qed.

(** X24.  The metric part of a file name holds no space and no slash, and is
    as long as the metric's name. *)
Theorem safe_metric_has_no_separator (metric : string) :
  occurs " " (safe_metric metric) = false /\
  occurs "/" (safe_metric metric) = false /\
  String.length (safe_metric metric) = String.length metric.
Proof.
  unfold safe_metric. split; [| split].
  - apply replace_char_keeps_absent; [discriminate |].
    apply replace_char_removes. discriminate.
  - apply replace_char_removes. discriminate.
  - now rewrite !replace_char_length.
Qed.

(** ** The title of a figure *)

Lemma generated_table_sorted (np_sqrt : Q -> Q)
    (dfs : list (string * DataFrame)) (target : list (string * list string))
    (h : Z) (include_cv include_r2 : bool) (table : list ForecastRow) :
  generate_forecast_table np_sqrt dfs target h include_cv include_r2 = Ok table ->
  StronglySorted (fun a b => row_leb a b = true) table.
Proof.
  unfold generate_forecast_table. intros H. bind_inv H.
  destruct a as [| r rs]; [discriminate |]. injection H as <-.
  apply (sort_values_sorted (r :: rs)).
Qed.

Lemma StronglySorted_filter {A} (R : A -> A -> Prop) (f : A -> bool) (l : list A) :
  StronglySorted R l -> StronglySorted R (filter f l).
Proof.
  induction 1 as [| x l Hs IH Hall]; simpl; [constructor |].
  destruct (f x); [| exact IH].
  constructor; [exact IH |].
  apply Forall_forall. intros y Hy. apply filter_In in Hy.
  rewrite Forall_forall in Hall. apply Hall. tauto.
Qed.

Lemma row_leb_Year (a b : ForecastRow) : row_leb a b = true -> Year a <= Year b.
Proof. rewrite row_leb_spec. intros [H | [H _]]; lia. Qed.

(** The rows of a column start at the first forecast year. *)
Lemma generated_row_first_year (np_sqrt : Q -> Q)
    (dfs : list (string * DataFrame)) (target : list (string * list string))
    (h : Z) (include_cv include_r2 : bool) (table : list ForecastRow)
    (r : ForecastRow) :
  generate_forecast_table np_sqrt dfs target h include_cv include_r2 = Ok table ->
  In r table ->
  exists last_year r1,
    get_last_year dfs = Ok last_year /\
    In r1 table /\ Category r1 = Category r /\ Metric r1 = Metric r /\
    Year r1 = last_year + 1 /\ last_year + 1 <= Year r.
Proof.
  intros Hgen Hin.
  destruct (generate_forecast_table_blocks _ _ _ _ _ _ _ Hgen)
    as (last_year & blocks & Hly & Hperm & Hall).
  pose proof (Permutation_in _ Hperm Hin) as Hin'.
  apply in_concat in Hin'. destruct Hin' as (block & Hblock & Hr).
  destruct (Forall2_In_r _ _ _ _ Hall Hblock) as ([[category df] column] & Hpair & Hcb).
  destruct Hcb as (s & st & Hs & Hnull & Hfit & ->). simpl in *.
  apply in_map_iff in Hr. destruct Hr as (i & <- & Hi).
  apply in_seq in Hi.
  destruct (Z.to_nat h) as [| n] eqn:En; [lia |].
  exists last_year. eexists. split; [exact Hly |]. split; [| split; [| split; [| split]]].
  - apply (Permutation_in _ (Permutation_sym Hperm)).
    apply in_concat. eexists. split; [exact Hblock |].
    simpl. left. reflexivity.
  - reflexivity.
  - reflexivity.
  - simpl. lia.
  - simpl. lia.
Qed.

(** X22.  The R² and the reliability in the title of a figure are those of the
    first forecast year of its metric, whatever the horizon: the ratings of
    the later years do not appear in it. *)
Theorem title_rates_first_forecast_year (np_sqrt : Q -> Q)
    (dfs : list (string * DataFrame)) (target : list (string * list string))
    (h : Z) (include_cv : bool) (table : list ForecastRow)
    (metrics : list (string * string)) (dir : string) (fig : Figure)
    (last_year : Z) :
  generate_forecast_table np_sqrt dfs target h include_cv true = Ok table ->
  get_last_year dfs = Ok last_year ->
  In fig (fst (plot_forecasts dfs table metrics dir)) ->
  exists r,
    In r table /\
    Category r = title_category fig /\ Metric r = title_metric fig /\
    Year r = last_year + 1 /\
    title_r2 fig = r2_or_nan r /\
    title_reliability fig = reliability (uncertainty_percentage r) (r2_or_nan r).
Proof.
  intros Hgen Hly Hfig.
  destruct (plot_forecasts_figures _ _ _ _ _ Hfig) as (c & m & _ & Hplot).
  pose proof (generated_table_sorted _ _ _ _ _ _ _ Hgen) as Hsorted.
  unfold plot_one in Hplot.
  destruct (lift (getitem dfs c)) as [hist_df |]; cbn [bind_outcome] in Hplot;
    [| discriminate].
  destruct (lift (getitem (df_columns hist_df) m)) as [hist_values |];
    cbn [bind_outcome] in Hplot; [| discriminate].
  destruct (category_column table); cbn [bind_outcome] in Hplot; [| discriminate].
  destruct (has_r2_column table); cbn [bind_outcome] in Hplot; [| discriminate].
  set (keep := fun r0 => String.eqb (Category r0) c && String.eqb (Metric r0) m) in *.
  pose proof (StronglySorted_filter _ keep _ Hsorted) as Hfs.
  assert (Hsub : forall r, In r (filter keep table) ->
                           In r table /\ Category r = c /\ Metric r = m).
  { intros r Hr. apply filter_In in Hr. destruct Hr as [Hr Hk]. unfold keep in Hk.
    apply andb_true_iff in Hk. destruct Hk as [Hc Hm].
    apply String.eqb_eq in Hc, Hm. auto. }
  destruct (filter keep table) as [| r0 rows] eqn:Ef;
    cbn [map iloc0 bind_outcome] in Hplot; [discriminate |].
  rewrite assess_forecast_reliability_rows in Hplot; [| | discriminate].
  2:{ intros r' Hr'. apply (generated_rows_have_r2 _ _ _ _ _ _ _ Hgen).
      apply Hsub. exact Hr'. }
  cbn [lift bind_outcome map iloc0 Reliability] in Hplot.
  injection Hplot as <-. cbn [title_category title_metric title_r2 title_reliability].
  destruct (Hsub r0 (or_introl eq_refl)) as (Hin0 & Hc0 & Hm0).
  exists r0. repeat split; auto.
  destruct (generated_row_first_year _ _ _ _ _ _ _ _ Hgen Hin0)
    as (ly & r1 & Hly' & Hin1 & Hc1 & Hm1 & Hy1 & Hge).
  rewrite Hly in Hly'. injection Hly' as <-.
  assert (Hk1 : In r1 (filter keep table)).
  { apply filter_In. split; [exact Hin1 |]. unfold keep.
    rewrite Hc1, Hm1, Hc0, Hm0, !String.eqb_refl. reflexivity. }
  rewrite Ef in Hk1. inversion Hfs as [| ? ? _ Hall]; subst.
  destruct Hk1 as [<- | Hk1]; [exact Hy1 |].
  rewrite Forall_forall in Hall. apply Hall, row_leb_Year in Hk1. lia.
Qed.

Lemma title_rates_first_forecast_year_witness :
  Forall (fun fig =>
            exists r,
              In r loaded_table /\
              Category r = title_category fig /\ Metric r = title_metric fig /\
              Year r = 2025 + 1 /\
              title_r2 fig = r2_or_nan r /\
              title_reliability fig =
                reliability (uncertainty_percentage r) (r2_or_nan r))
         loaded_figures.
Proof.
  apply Forall_forall. intros fig Hfig.
  apply (title_rates_first_forecast_year sqrt_approx loaded_frames loaded_target 1
           true loaded_table
           [("Work Permits", "Total workers"); ("Migration", "Net migration")]%string
           "plots" fig 2025).
  - vm_compute. reflexivity.
  - vm_compute. reflexivity.
  - exact Hfig.
Defined.

(** ** Plotting a table without the R² column *)

Lemma generated_rows_without_r2 (np_sqrt : Q -> Q)
    (dfs : list (string * DataFrame)) (target : list (string * list string))
    (h : Z) (include_cv : bool) (table : list ForecastRow) (r : ForecastRow) :
  generate_forecast_table np_sqrt dfs target h include_cv false = Ok table ->
  In r table -> R2 r = None.
Proof.
  intros Hgen Hin.
  destruct (generated_row_inv _ _ _ _ _ _ _ _ Hgen Hin)
    as (last_year & st & Hly & Hfit & Hk & Hr).
  apply (f_equal R2) in Hr. exact Hr.
Qed.

(** X23.  A table built with [include_r2=False] cannot be plotted: whatever
    the metrics asked for, the first one raises KeyError and no figure is
    saved. *)
Theorem plot_without_r2_raises (np_sqrt : Q -> Q)
    (dfs : list (string * DataFrame)) (target : list (string * list string))
    (h : Z) (include_cv : bool) (table : list ForecastRow)
    (metrics : list (string * string)) (dir : string) :
  generate_forecast_table np_sqrt dfs target h include_cv false = Ok table ->
  metrics <> [] ->
  exists key,
    plot_forecasts dfs table metrics dir = ([], Some (Builtin (KeyError key))).
Proof.
  intros Hgen Hne.
  destruct metrics as [| [c m] metrics]; [congruence |].
  assert (Hcol : has_r2_column table = false).
  { unfold has_r2_column. apply not_true_is_false. intros H.
    apply existsb_exists in H. destruct H as (r & Hin & Hr).
    now rewrite (generated_rows_without_r2 _ _ _ _ _ _ _ Hgen Hin) in Hr. }
  cbn [plot_forecasts]. unfold plot_one, getitem.
  destruct (lookup c dfs) as [hist_df |]; cbn [lift bind_outcome]; [| eauto].
  destruct (lookup m (df_columns hist_df)); cbn [lift bind_outcome]; [| eauto].
  rewrite (category_column_nonempty _ (generated_table_nonempty _ _ _ _ _ _ _ Hgen)).
  cbn [bind_outcome]. rewrite Hcol. cbn [bind_outcome]. eauto.
Qed.

Lemma plot_without_r2_raises_witness :
  exists key,
    plot_forecasts [("A"%string, linear_df)]
      (table_of (generate_forecast_table sqrt_approx [("A"%string, linear_df)]
                   linear_target 2 true false))
      [("A"%string, "workers"%string)] "plots"
    = ([], Some (Builtin (KeyError key))).
Proof.
  apply (plot_without_r2_raises sqrt_approx [("A"%string, linear_df)] linear_target 2
           true).
  - vm_compute. reflexivity.
  - discriminate.
Defined.

(** ** When the builder returns *)

Lemma for_each_Ok_intro {A B} (body : A -> result B) (l : list A) :
  (forall a, In a l -> exists b, body a = Ok b) ->
  exists bs, for_each body l = Ok bs.
Proof.
  induction l as [| a l IH]; simpl; intros H; [eauto |].
  destruct (H a (or_introl eq_refl)) as (b & ->).
  destruct (IH (fun a' Ha' => H a' (or_intror Ha'))) as (bs & ->).
  simpl. eauto.
Qed.

Lemma fold_left_max_step_Some (l : list (option Z)) (a : Z) :
  exists m, fold_left max_step l (Some a) = Some m.
Proof.
  revert a; induction l as [| x l IH]; simpl; intros a; [eauto |].
  destruct x as [b |]; simpl; [| apply IH].
  destruct (b >? a); apply IH.
Qed.

Lemma get_last_year_returns (dfs : list (string * DataFrame)) :
  (exists entry rest, dfs = entry :: rest /\ df_Year (snd entry) <> []) ->
  exists last_year, get_last_year dfs = Ok last_year.
Proof.
  intros (entry & rest & -> & Hne). unfold get_last_year, py_max_list. simpl.
  destruct (df_Year (snd entry)) as [| z s]; [congruence |]. simpl.
  destruct (fold_left_max_step_Some
              (map (fun e => series_max (df_Year (snd e))) rest)
              (fold_left Z.max s z)) as (m & ->).
  simpl. eauto.
Qed.

Lemma fit_column_returns (np_sqrt : Q -> Q) (X : list Z) (y : list Q) :
  X <> [] -> exists st, fit_column np_sqrt X y = Ok st.
Proof.
  intros Hne. unfold fit_column, fit.
  destruct X as [| x X]; [congruence |]. cbn [bind]. eauto.
Qed.

Lemma forecast_column_returns (np_sqrt : Q -> Q) (include_cv include_r2 : bool)
    (forecast_years : list Z) (category : string) (df : DataFrame) (column : string) :
  df_Year df <> [] ->
  lookup column (df_columns df) <> None ->
  exists rows,
    forecast_column np_sqrt include_cv include_r2 forecast_years category df column
    = Ok rows.
Proof.
  intros Hy Hc. unfold forecast_column, getitem.
  destruct (lookup column (df_columns df)) as [s |]; [| congruence].
  cbn [bind]. destruct (isnull_any s); [eauto |].
  destruct (fit_column_returns np_sqrt _ (values s) Hy) as (st & ->).
  cbn [bind]. eauto.
Qed.

Lemma generate_forecast_table_returns (np_sqrt : Q -> Q)
    (dfs : list (string * DataFrame)) (target : list (string * list string))
    (h : Z) (include_cv include_r2 : bool) :
  (forall category df, In (category, df) dfs -> df_Year df <> []) ->
  (forall category df, In (category, df) dfs ->
     exists columns,
       lookup category target = Some columns /\
       forall column, In column columns -> lookup column (df_columns df) <> None) ->
  1 <= h ->
  non_skipped_pairs dfs target <> [] ->
  exists table,
    generate_forecast_table np_sqrt dfs target h include_cv include_r2 = Ok table /\
    Z.of_nat (List.length table) =
      h * Z.of_nat (List.length (non_skipped_pairs dfs target)).
Proof.
  intros Hyears Hcols Hh Hsome.
  assert (Hdfs : exists entry rest, dfs = entry :: rest /\ df_Year (snd entry) <> []).
  { destruct dfs as [| [c df] rest]; [now contradiction Hsome |].
    exists (c, df), rest. split; [reflexivity |]. apply (Hyears c). now left. }
  destruct (get_last_year_returns dfs Hdfs) as (last_year & Hly).
  assert (Hres : exists results,
             collect_results np_sqrt dfs target h include_cv include_r2 = Ok results).
  { unfold collect_results. rewrite Hly. cbn [bind].
    destruct (for_each_Ok_intro
                (forecast_category np_sqrt include_cv include_r2
                   (py_range (last_year + 1) (last_year + h + 1)) target) dfs)
      as (rows & ->); [| cbn [bind]; eauto].
    intros [c df] Hin. unfold forecast_category, getitem. cbn [fst snd].
    destruct (Hcols c df Hin) as (columns & -> & Hall). cbn [bind].
    destruct (for_each_Ok_intro
                (forecast_column np_sqrt include_cv include_r2
                   (py_range (last_year + 1) (last_year + h + 1)) c df) columns)
      as (rows & ->); [| cbn [bind]; eauto].
    intros column Hc. apply forecast_column_returns; [apply (Hyears c df Hin) |].
    now apply Hall. }
  destruct Hres as (results & Hres).
  destruct (collect_results_blocks _ _ _ _ _ _ _ Hres)
    as (ly & blocks & _ & Hconcat & Hall).
  assert (Hlen : List.length results =
                 (Z.to_nat h * List.length (non_skipped_pairs dfs target))%nat).
  { rewrite Hconcat. apply (concat_blocks_length _ _ _ _ Hall).
    intros pair block (s & st & _ & _ & _ & ->).
    now rewrite length_map, length_seq. }
  unfold generate_forecast_table. rewrite Hres. cbn [bind].
  destruct results as [| r rs].
  - exfalso. simpl in Hlen.
    destruct (non_skipped_pairs dfs target); [congruence | simpl in Hlen; nia].
  - eexists. split; [reflexivity |].
    rewrite (Permutation_length (sort_values_perm (r :: rs))), Hlen. lia.
Qed.

(** X3.  The builder returns a table, of [years_to_forecast] rows for each
    non-skipped column, whenever every frame has at least one year, every
    category has its entry in [target_columns], every requested column is in
    its frame, the horizon is at least 1, and one requested column at least
    is free of missing values. *)
Theorem builder_returns_table (np_sqrt : Q -> Q)
    (dfs : list (string * DataFrame)) (target : list (string * list string))
    (h : Z) (include_cv include_r2 : bool) :
  (forall category df, In (category, df) dfs -> df_Year df <> []) ->
  (forall category df, In (category, df) dfs ->
     exists columns,
       lookup category target = Some columns /\
       forall column, In column columns -> lookup column (df_columns df) <> None) ->
  1 <= h ->
  non_skipped_pairs dfs target <> [] ->
  exists table,
    generate_forecast_table np_sqrt dfs target h include_cv include_r2 = Ok table /\
    Z.of_nat (List.length table) =
      h * Z.of_nat (List.length (non_skipped_pairs dfs target)).
Proof. exact (generate_forecast_table_returns np_sqrt dfs target h include_cv include_r2). Qed.

Lemma builder_returns_table_witness :
  exists table,
    generate_forecast_table sqrt_approx two_frames two_frames_target 2 true true
      = Ok table /\
    Z.of_nat (List.length table) =
      2 * Z.of_nat (List.length (non_skipped_pairs two_frames two_frames_target)).
Proof.
  apply (builder_returns_table sqrt_approx two_frames two_frames_target 2 true true).
  - intros category df [E | [E | []]]; injection E as <- <-; discriminate.
  - intros category df [E | [E | []]]; injection E as <- <-;
      (eexists; split; [reflexivity |]);
      intros column [<- | []]; discriminate.
  - lia.
  - discriminate.
Defined.

(** ** A column with a missing value, among columns that are forecast *)





(** ** Properties of the run *)

Lemma non_skipped_pairs_intro (dfs : list (string * DataFrame))
    (target : list (string * list string)) (category : string) (df : DataFrame)
    (columns : list string) (column : string) :
  In (category, df) dfs ->
  lookup category target = Some columns ->
  In column columns ->
  has_missing df column = false ->
  In (category, df, column) (non_skipped_pairs dfs target).
Proof.
  intros Hdf Hcols Hcol Hnm. unfold non_skipped_pairs, requested_pairs.
  apply filter_In. split.
  - apply in_flat_map. exists (category, df). split; [exact Hdf |].
    cbn [fst snd]. rewrite Hcols. apply in_map_iff. exists column. auto.
  - cbn [fst snd]. now rewrite Hnm.
Qed.

(** A returned table means every requested column was found in its frame. *)
Lemma generated_requested_column (np_sqrt : Q -> Q)
    (dfs : list (string * DataFrame)) (target : list (string * list string))
    (h : Z) (include_cv include_r2 : bool) (table : list ForecastRow)
    (category column : string) (df : DataFrame) (columns : list string) :
  generate_forecast_table np_sqrt dfs target h include_cv include_r2 = Ok table ->
  In (category, df) dfs ->
  lookup category target = Some columns ->
  In column columns ->
  exists s, lookup column (df_columns df) = Some s.
Proof.
  intros Hgen Hin Hcols Hcol.
  destruct (generated_categories_ok _ _ _ _ _ _ _ _ Hgen Hin) as (ly & rows & H).
  unfold forecast_category, getitem in H. simpl in H. rewrite Hcols in H.
  simpl in H. bind_inv H. clear H.
  apply for_each_Ok_inv in Ha.
  destruct (Forall2_In_l _ _ _ _ Ha Hcol) as (block & _ & Hblock).
  unfold forecast_column, getitem in Hblock.
  destruct (lookup column (df_columns df)) as [s |]; [eauto | discriminate].
Qed.

(** Plotting a requested metric of a built table: IndexError when the metric
    was skipped, a figure otherwise. *)
Lemma plot_one_requested (np_sqrt : Q -> Q)
    (dfs : list (string * DataFrame)) (target : list (string * list string))
    (h : Z) (include_cv : bool) (table : list ForecastRow)
    (dir category metric : string) (df : DataFrame) (columns : list string) :
  NoDup (map fst dfs) ->
  generate_forecast_table np_sqrt dfs target h include_cv true = Ok table ->
  In (category, df) dfs ->
  lookup category target = Some columns ->
  In metric columns ->
  (has_missing df metric = true /\
   plot_one dfs table dir category metric = Throw IndexError) \/
  (has_missing df metric = false /\
   exists fig,
     plot_one dfs table dir category metric = Return fig /\
     path fig = (dir ++ "/" ++ category ++ "_" ++ safe_metric metric ++ ".png")%string).
Proof.
  intros Hnd Hgen Hdf Hcols Hcol.
  destruct (has_missing df metric) eqn:Hm.
  - left. split; [reflexivity |].
    exact (plot_one_skipped _ _ _ _ _ _ dir _ _ _ Hnd Hgen Hdf Hm).
  - right. split; [reflexivity |].
    pose proof (non_skipped_pairs_intro _ _ _ _ _ _ Hdf Hcols Hcol Hm) as Hpair.
    destruct (generated_pair_rows _ _ _ _ _ _ _ _ _ _ Hgen Hpair)
      as ((s & Hs) & (r & Hin & Hc & Hmr)).
    destruct (plot_one_returns dfs table dir category metric df s r
                (lookup_NoDup_In _ _ _ Hnd Hdf) Hs
                (fun r' Hr' => generated_rows_have_r2 _ _ _ _ _ _ _ Hgen Hr')
                Hin Hc Hmr) as (fig & Hfig & Hpath & _).
    eauto.
Qed.

(** The loop over requested metrics, one of which was skipped: it ends with
    IndexError before all the figures are saved. *)
Lemma plot_forecasts_gap (np_sqrt : Q -> Q)
    (dfs : list (string * DataFrame)) (target : list (string * list string))
    (h : Z) (include_cv : bool) (table : list ForecastRow)
    (metrics : list (string * string)) (dir : string) :
  NoDup (map fst dfs) ->
  generate_forecast_table np_sqrt dfs target h include_cv true = Ok table ->
  (forall category metric, In (category, metric) metrics ->
     exists df columns,
       In (category, df) dfs /\ lookup category target = Some columns /\
       In metric columns) ->
  (exists category metric df,
     In (category, metric) metrics /\ In (category, df) dfs /\
     has_missing df metric = true) ->
  exists figs,
    plot_forecasts dfs table metrics dir = (figs, Some IndexError) /\
    (List.length figs < List.length metrics)%nat.
Proof.
  intros Hnd Hgen. induction metrics as [| [c m] metrics IH]; intros Hreq Hgap.
  - destruct Hgap as (c & m & df & [] & _).
  - destruct (Hreq c m (or_introl eq_refl)) as (df & columns & Hdf & Hcols & Hcol).
    cbn [plot_forecasts].
    destruct (plot_one_requested _ _ _ _ _ _ dir _ _ _ _ Hnd Hgen Hdf Hcols Hcol)
      as [[Hm ->] | [Hm (fig & -> & _)]].
    + exists []. split; [reflexivity | simpl; lia].
    + destruct IH as (figs & -> & Hlen).
      * intros c' m' H'. apply Hreq. now right.
      * destruct Hgap as (c' & m' & df' & [E | Hin'] & Hdf' & Hm').
        -- injection E as <- <-.
           rewrite (NoDup_keys_In _ _ _ _ Hnd Hdf' Hdf) in Hm'. congruence.
        -- exists c', m', df'. auto.
      * exists (fig :: figs). split; [reflexivity | simpl; lia].
Qed.

Lemma iloc_last_nonempty {A} (l : list A) :
  l <> [] -> exists a, iloc_last l = Return a.
Proof.
  intros Hne. unfold iloc_last.
  destruct (rev l) as [| a l'] eqn:E; [| eauto].
  apply (f_equal (@rev A)) in E. rewrite rev_involutive in E. simpl in E. congruence.
Qed.

Lemma aligned_column_nonempty (df : DataFrame) (name : string) (s : list (option Q)) :
  columns_aligned df = true -> df_Year df <> [] ->
  lookup name (df_columns df) = Some s -> s <> [].
Proof.
  intros Hal Hy Hl E. subst s.
  pose proof (columns_aligned_lookup _ _ _ Hal Hl) as H.
  destruct (df_Year df); [congruence | discriminate].
Qed.

Lemma main_frames_NoDup (work_permits migration population all_permits : DataFrame) :
  NoDup (map fst (main_historical_dfs work_permits migration population all_permits)).
Proof.
  simpl. repeat constructor; simpl; intuition discriminate.
Qed.

Lemma metrics_to_plot_requested
    (work_permits migration population all_permits : DataFrame)
    (category metric : string) :
  In (category, metric) metrics_to_plot ->
  exists df columns,
    In (category, df)
       (main_historical_dfs work_permits migration population all_permits) /\
    lookup category columns_to_forecast = Some columns /\
    In metric columns.
Proof.
  unfold metrics_to_plot, main_historical_dfs, columns_to_forecast.
  intros [E | [E | [E | [E | [E | []]]]]]; injection E as <- <-;
    eexists; eexists; (split; [| split; [reflexivity |]]); simpl; auto 10.
Qed.

(** X25.  The whole run completes, and writes the three tables and the five
    figures, when the data files hold what [load_data] needs, every frame
    that is forecast has at least one year and columns as long as its years,
    the population column is there under its quoted header only, the six
    permit columns are there, and none of the five plotted columns has a
    missing value. *)
Theorem main_completes (np_sqrt : Q -> Q)
    (work_permits migration population retention all_permits : DataFrame)
    (work_permits' migration' population' retention' all_permits' : DataFrame) :
  load_data work_permits migration population retention all_permits =
    Ok (work_permits', migration', population', retention', all_permits') ->
  df_Year work_permits' <> [] -> df_Year migration' <> [] ->
  df_Year population' <> [] -> df_Year all_permits' <> [] ->
  columns_aligned work_permits' = true ->
  columns_aligned migration' = true ->
  columns_aligned population' = true ->
  lookup "Foreign citizens 20-64 years" (df_columns population) = None ->
  lookup quoted_population_column (df_columns population) <> None ->
  (forall column,
     In column ["Work permit 3rd country"; "Work permit EU"; "Study permit";
                "Family reunification"; "Permanent residency";
                "Ukraine Emergency Law"]%string ->
     lookup column (df_columns all_permits') <> None) ->
  has_missing work_permits' "Total workers" = false ->
  has_missing population' "Foreign citizens 20-64 years" = false ->
  has_missing migration' "Net migration" = false ->
  has_missing all_permits' "Work permit 3rd country" = false ->
  has_missing all_permits' "Work permit EU" = false ->
  main np_sqrt work_permits migration population retention all_permits =
    (main_files, None).
Proof.
  intros Hload Hy1 Hy2 Hy3 Hy4 Ha1 Ha2 Ha3 Hplain Hquoted Hperm Hm1 Hm2 Hm3 Hm4 Hm5.
  unfold main. rewrite Hload.
  destruct (load_data_inv _ _ _ _ _ _ _ _ _ _ Hload)
    as (tc & eu & imm & emi & H1 & H2 & H3 & H4 & Hwp & Hmig & Hren & _).
  assert (Hpop : lookup "Foreign citizens 20-64 years" (df_columns population')
                 <> None).
  { rewrite Hren, rename_column_lookup by (discriminate || exact Hplain).
    rewrite String.eqb_refl. exact Hquoted. }
  clear Hren.
  assert (Hwp_cols : forall column,
             In column ["Full time third country workers"; "Full time EU workers";
                        "Total workers"]%string ->
             lookup column (df_columns work_permits') <> None).
  { subst work_permits'. cbn [setitem df_columns].
    intros column [<- | [<- | [<- | []]]].
    - rewrite lookup_assign_other, H1 by discriminate. discriminate.
    - rewrite lookup_assign_other, H2 by discriminate. discriminate.
    - rewrite lookup_assign_same. discriminate. }
  assert (Hmig_cols : forall column,
             In column ["Immigration foreign citizens 20-64 years";
                        "Emigration foreign citizens 20-64 years";
                        "Net migration"]%string ->
             lookup column (df_columns migration') <> None).
  { subst migration'. cbn [setitem df_columns].
    intros column [<- | [<- | [<- | []]]].
    - rewrite lookup_assign_other, H3 by discriminate. discriminate.
    - rewrite lookup_assign_other, H4 by discriminate. discriminate.
    - rewrite lookup_assign_same. discriminate. }
  clear Hwp Hmig H1 H2 H3 H4.
  (* the data summary *)
  assert (Hsum : data_summary population' migration' work_permits' = Return tt).
  { unfold data_summary, getitem.
    destruct (lookup "Foreign citizens 20-64 years" (df_columns population'))
      as [s1 |] eqn:E1; [| congruence].
    cbn [lift bind_outcome].
    destruct (iloc_last_nonempty s1 (aligned_column_nonempty _ _ _ Ha3 Hy3 E1))
      as (v1 & ->). cbn [bind_outcome].
    destruct (lookup "Net migration" (df_columns migration')) as [s2 |] eqn:E2;
      [| exfalso; apply (Hmig_cols "Net migration"%string); simpl; auto].
    cbn [lift bind_outcome].
    destruct (iloc_last_nonempty s2 (aligned_column_nonempty _ _ _ Ha2 Hy2 E2))
      as (v2 & ->). cbn [bind_outcome].
    destruct (lookup "Total workers" (df_columns work_permits')) as [s3 |] eqn:E3;
      [| exfalso; apply (Hwp_cols "Total workers"%string); simpl; auto].
    cbn [lift bind_outcome].
    destruct (iloc_last_nonempty s3 (aligned_column_nonempty _ _ _ Ha1 Hy1 E3))
      as (v3 & ->). reflexivity. }
  rewrite Hsum.
  set (dfs := main_historical_dfs work_permits' migration' population' all_permits').
  pose proof (main_frames_NoDup work_permits' migration' population' all_permits')
    as Hnd. fold dfs in Hnd.
  (* the table *)
  assert (Hins : forall c df, In (c, df) dfs ->
             (c, df) = ("Foreign Workers"%string, work_permits') \/
             (c, df) = ("Migration"%string, migration') \/
             (c, df) = ("Foreign Population"%string, population') \/
             (c, df) = ("Work Permits"%string, all_permits')).
  { intros c df [E | [E | [E | [E | []]]]]; rewrite <- E; auto. }
  destruct (generate_forecast_table_returns np_sqrt dfs columns_to_forecast 5 true true)
    as (table & Hgen & _).
  { intros c df Hin.
    destruct (Hins c df Hin) as [E | [E | [E | E]]]; injection E as -> ->; assumption. }
  { intros c df Hin.
    destruct (Hins c df Hin) as [E | [E | [E | E]]]; injection E as -> ->;
      (eexists; split; [reflexivity |]); try assumption.
    intros column [<- | []]. exact Hpop. }
  { lia. }
  { intros E.
    assert (Hin : In ("Foreign Workers"%string, work_permits', "Total workers"%string)
                     (non_skipped_pairs dfs columns_to_forecast)).
    { apply (non_skipped_pairs_intro dfs columns_to_forecast _ _
               ["Full time third country workers"; "Full time EU workers";
                "Total workers"]%string);
        [left; reflexivity | reflexivity | simpl; auto | exact Hm1]. }
    rewrite E in Hin. contradiction. }
  rewrite Hgen.
  rewrite (assess_generated_table _ _ _ _ _ _ Hgen).
  (* the figures *)
  assert (Hplot : forall c m df columns,
             In (c, df) dfs -> lookup c columns_to_forecast = Some columns ->
             In m columns -> has_missing df m = false ->
             exists fig,
               plot_one dfs table "../outputs/plots" c m = Return fig /\
               path fig = ("../outputs/plots" ++ "/" ++ c ++ "_"
                           ++ safe_metric m ++ ".png")%string).
  { intros c m df columns Hin Hc Hcol Hm.
    destruct (plot_one_requested _ _ _ _ _ _ "../outputs/plots" _ _ _ _
                Hnd Hgen Hin Hc Hcol) as [[Hm' _] | [_ H]]; [congruence | exact H]. }
  destruct (Hplot "Foreign Workers"%string "Total workers"%string work_permits' _
              (or_introl eq_refl) eq_refl
              (or_intror (or_intror (or_introl eq_refl))) Hm1)
    as (f1 & Hf1 & Hp1).
  destruct (Hplot "Foreign Population"%string "Foreign citizens 20-64 years"%string
              population' _
              (or_intror (or_intror (or_introl eq_refl))) eq_refl
              (or_introl eq_refl) Hm2)
    as (f2 & Hf2 & Hp2).
  destruct (Hplot "Migration"%string "Net migration"%string migration' _
              (or_intror (or_introl eq_refl)) eq_refl
              (or_intror (or_intror (or_introl eq_refl))) Hm3)
    as (f3 & Hf3 & Hp3).
  destruct (Hplot "Work Permits"%string "Work permit 3rd country"%string all_permits' _
              (or_intror (or_intror (or_intror (or_introl eq_refl)))) eq_refl
              (or_introl eq_refl) Hm4)
    as (f4 & Hf4 & Hp4).
  destruct (Hplot "Work Permits"%string "Work permit EU"%string all_permits' _
              (or_intror (or_intror (or_intror (or_introl eq_refl)))) eq_refl
              (or_intror (or_introl eq_refl)) Hm5)
    as (f5 & Hf5 & Hp5).
  unfold metrics_to_plot. cbn [plot_forecasts].
  rewrite Hf1, Hf2, Hf3, Hf4, Hf5.
  cbn [map app]. rewrite Hp1, Hp2, Hp3, Hp4, Hp5. reflexivity.
Qed.

Lemma main_completes_witness :
  main sqrt_approx work_permits_raw migration_raw population_raw retention_raw
    all_permits_raw = (main_files, None).
Proof.
  apply (main_completes sqrt_approx work_permits_raw migration_raw population_raw
           retention_raw all_permits_raw loaded_work_permits loaded_migration
           loaded_population retention_raw all_permits_raw).
  - vm_compute. reflexivity.
  - discriminate.
  - discriminate.
  - discriminate.
  - discriminate.
  - reflexivity.
  - reflexivity.
  - reflexivity.
  - reflexivity.
  - discriminate.
  - intros column [<- | [<- | [<- | [<- | [<- | [<- | []]]]]]]; discriminate.
  - reflexivity.
  - reflexivity.
  - reflexivity.
  - reflexivity.
  - reflexivity.
Defined.

(** X26.  One missing value in any of the five plotted columns and the run
    does not complete (the population file having its column under the quoted
    header only).  If it gets as far as the table, the three tables are
    written, the plotting loop ends with IndexError, and fewer than five
    figures are saved. *)
Theorem main_stops_at_gap (np_sqrt : Q -> Q)
    (work_permits migration population retention all_permits : DataFrame)
    (work_permits' migration' population' retention' all_permits' : DataFrame)
    (category metric : string) (df : DataFrame) :
  load_data work_permits migration population retention all_permits =
    Ok (work_permits', migration', population', retention', all_permits') ->
  lookup "Foreign citizens 20-64 years" (df_columns population) = None ->
  In (category, metric) metrics_to_plot ->
  In (category, df)
     (main_historical_dfs work_permits' migration' population' all_permits') ->
  has_missing df metric = true ->
  (exists files e,
     main np_sqrt work_permits migration population retention all_permits =
       (files, Some e)) /\
  (forall table,
     data_summary population' migration' work_permits' = Return tt ->
     generate_forecast_table np_sqrt
       (main_historical_dfs work_permits' migration' population' all_permits')
       columns_to_forecast 5 true true = Ok table ->
     exists figures,
       main np_sqrt work_permits migration population retention all_permits =
         (firstn 3 main_files ++ map path figures, Some IndexError) /\
       (List.length figures < 5)%nat).
Proof.
  intros Hload _ Hmetric Hdf Hmiss.
  set (dfs := main_historical_dfs work_permits' migration' population' all_permits')
    in *.
  pose proof (main_frames_NoDup work_permits' migration' population' all_permits')
    as Hnd. fold dfs in Hnd.
  assert (Hrun : forall table,
             data_summary population' migration' work_permits' = Return tt ->
             generate_forecast_table np_sqrt dfs columns_to_forecast 5 true true
               = Ok table ->
             exists figures,
               main np_sqrt work_permits migration population retention all_permits =
                 (firstn 3 main_files ++ map path figures, Some IndexError) /\
               (List.length figures < 5)%nat).
  { intros table Hsum Hgen. unfold main. rewrite Hload, Hsum. fold dfs. rewrite Hgen.
    rewrite (assess_generated_table _ _ _ _ _ _ Hgen).
    destruct (plot_forecasts_gap np_sqrt dfs columns_to_forecast 5 true table
                metrics_to_plot "../outputs/plots" Hnd Hgen) as (figs & -> & Hlen).
    - intros c m Hin. apply metrics_to_plot_requested. exact Hin.
    - exists category, metric, df. auto.
    - exists figs. split; [reflexivity | exact Hlen]. }
  split; [| exact Hrun].
  destruct (data_summary population' migration' work_permits') as [[] | e] eqn:Hsum.
  - destruct (generate_forecast_table np_sqrt dfs columns_to_forecast 5 true true)
      as [table | e] eqn:Hgen.
    + destruct (Hrun table eq_refl eq_refl) as (figs & -> & _). eauto.
    + unfold main. rewrite Hload, Hsum. fold dfs. rewrite Hgen. eauto.
  - unfold main. rewrite Hload, Hsum. eauto.
Qed.

Lemma main_stops_at_gap_witness :
  (exists files e,
     main sqrt_approx work_permits_raw migration_raw population_raw retention_raw
       all_permits_gap = (files, Some e)) /\
  (forall table,
     data_summary loaded_population loaded_migration loaded_work_permits = Return tt ->
     generate_forecast_table sqrt_approx
       (main_historical_dfs loaded_work_permits loaded_migration loaded_population
          all_permits_gap)
       columns_to_forecast 5 true true = Ok table ->
     exists figures,
       main sqrt_approx work_permits_raw migration_raw population_raw retention_raw
         all_permits_gap =
         (firstn 3 main_files ++ map path figures, Some IndexError) /\
       (List.length figures < 5)%nat).
Proof.
  apply (main_stops_at_gap sqrt_approx work_permits_raw migration_raw population_raw
           retention_raw all_permits_gap loaded_work_permits loaded_migration
           loaded_population retention_raw all_permits_gap
           "Work Permits" "Work permit EU" all_permits_gap).
  - vm_compute. reflexivity.
  - reflexivity.
  - do 4 right. left. reflexivity.
  - do 3 right. left. reflexivity.
  - reflexivity.
Defined.

(** The run on the sample files, with the gap: the three tables and four
    figures are written before IndexError ends it. *)
Example main_with_gap_run :
  main sqrt_approx work_permits_raw migration_raw population_raw retention_raw
    all_permits_gap = (firstn 7 main_files, Some IndexError).
Proof. vm_compute. reflexivity. Qed.

(** ** The key of a row *)

Lemma NoDup_map_filter {A B} (g : A -> B) (f : A -> bool) (l : list A) :
  NoDup (map g l) -> NoDup (map g (filter f l)).
Proof.
  induction l as [| a l IH]; simpl; intros H; [constructor |].
  inversion H as [| ? ? Hnotin Hnd]; subst.
  destruct (f a); simpl; [| auto].
  constructor; [| auto].
  intros Hin. apply Hnotin. apply in_map_iff in Hin.
  destruct Hin as (x & Hx & Hin). apply filter_In in Hin.
  apply in_map_iff. exists x. tauto.
Qed.

Lemma NoDup_app_intro {A} (l l' : list A) :
  NoDup l -> NoDup l' -> (forall x, In x l -> ~ In x l') -> NoDup (l ++ l').
Proof.
  induction l as [| a l IH]; simpl; intros H H' Hd; [exact H' |].
  inversion H as [| ? ? Hnotin Hnd]; subst.
  constructor.
  - rewrite in_app_iff. intros [Hin | Hin]; [auto |]. exact (Hd a (or_introl eq_refl) Hin).
  - apply IH; auto.
Qed.

Lemma requested_pairs_NoDup (dfs : list (string * DataFrame))
    (target : list (string * list string)) :
  NoDup (map fst dfs) ->
  (forall category columns, lookup category target = Some columns -> NoDup columns) ->
  NoDup (map (fun pair => (fst (fst pair), snd pair)) (requested_pairs dfs target)).
Proof.
  intros Hnd Hcols. unfold requested_pairs.
  induction dfs as [| [c df] dfs IH]; simpl; [constructor |].
  inversion Hnd as [| ? ? Hnotin Hnd']; subst.
  rewrite map_app. apply NoDup_app_intro.
  - rewrite map_map. cbn [fst snd].
    destruct (lookup c target) as [columns |] eqn:E; [| constructor].
    specialize (Hcols _ _ E).
    clear E. induction Hcols as [| col columns Hn Hc IHc]; simpl; [constructor |].
    constructor; [| exact IHc].
    intros Hin. apply in_map_iff in Hin. destruct Hin as (x & Hx & Hin).
    injection Hx as ->. contradiction.
  - apply IH. exact Hnd'.
  - intros [c' col]. rewrite map_map. cbn [fst snd]. intros Hin Hin'.
    apply in_map_iff in Hin. destruct Hin as (x & Hx & _). injection Hx as <- _.
    apply Hnotin. apply in_map_iff in Hin'.
    destruct Hin' as ([[c2 df2] col2] & Hx & Hin'). cbn [fst snd] in Hx.
    injection Hx as -> ->.
    apply in_flat_map in Hin'. destruct Hin' as (entry & Hentry & Hin').
    apply in_map_iff in Hin'. destruct Hin' as (col' & Hx & _).
    injection Hx as <- _ _. apply in_map. exact Hentry.
Qed.

Lemma blocks_keys_NoDup (np_sqrt : Q -> Q) (include_cv include_r2 : bool)
    (last_year h : Z) (pairs : list (string * DataFrame * string))
    (blocks : list (list ForecastRow)) :
  Forall2 (column_block np_sqrt include_cv include_r2 last_year h) pairs blocks ->
  NoDup (map (fun pair => (fst (fst pair), snd pair)) pairs) ->
  NoDup (map (fun r => (Year r, Category r, Metric r)) (List.concat blocks)).
Proof.
  induction 1 as [| pair block pairs blocks Hcb Hall IH]; simpl; intros Hnd;
    [constructor |].
  inversion Hnd as [| ? ? Hnotin Hnd']; subst.
  destruct Hcb as (s & st & _ & _ & _ & ->).
  rewrite map_app. apply NoDup_app_intro.
  - rewrite map_map. cbn [Year Category Metric result_row].
    generalize (seq_NoDup (Z.to_nat h) 0).
    induction (seq 0 (Z.to_nat h)) as [| i l IHl]; simpl; intros Hs; [constructor |].
    inversion Hs as [| ? ? Hi Hs']; subst.
    constructor; [| auto].
    intros Hin. apply in_map_iff in Hin. destruct Hin as (j & Hj & Hin).
    injection Hj as Hj. assert (j = i) by lia. subst j. contradiction.
  - apply IH. exact Hnd'.
  - intros [[y c] m]. rewrite map_map. cbn [Year Category Metric result_row].
    intros Hin Hin'. apply in_map_iff in Hin. destruct Hin as (i & Hi & _).
    injection Hi as _ <- <-.
    apply Hnotin. apply in_map_iff in Hin'. destruct Hin' as (r & Hr & Hin').
    apply in_concat in Hin'. destruct Hin' as (block' & Hblock' & Hr').
    destruct (Forall2_In_r _ _ _ _ Hall Hblock') as (pair' & Hpair' & Hcb').
    destruct Hcb' as (s' & st' & _ & _ & _ & ->).
    apply in_map_iff in Hr'. destruct Hr' as (j & <- & _).
    cbn [Year Category Metric result_row] in Hr. injection Hr as _ Hc Hm.
    apply in_map_iff. exists pair'. split; [| exact Hpair']. congruence.
Qed.

(** X4.  With no column named twice in the request of a category, no two rows
    of the table share their (Year, Category, Metric). *)
Theorem table_keys_unique (np_sqrt : Q -> Q)
    (dfs : list (string * DataFrame)) (target : list (string * list string))
    (h : Z) (include_cv include_r2 : bool) (table : list ForecastRow) :
  NoDup (map fst dfs) ->
  (forall category columns, lookup category target = Some columns -> NoDup columns) ->
  generate_forecast_table np_sqrt dfs target h include_cv include_r2 = Ok table ->
  NoDup (map (fun r => (Year r, Category r, Metric r)) table).
Proof.
  intros Hnd Hcols Hgen.
  destruct (generate_forecast_table_blocks _ _ _ _ _ _ _ Hgen)
    as (last_year & blocks & _ & Hperm & Hall).
  apply (Permutation_NoDup
           (l := map (fun r => (Year r, Category r, Metric r)) (List.concat blocks))).
  - apply Permutation_map. symmetry. exact Hperm.
  - apply (blocks_keys_NoDup _ _ _ _ _ _ _ Hall).
    unfold non_skipped_pairs. apply NoDup_map_filter.
    apply requested_pairs_NoDup; assumption.
Qed.

Lemma table_keys_unique_witness :
  NoDup (map (fun r => (Year r, Category r, Metric r)) two_frames_table).
Proof.
  apply (table_keys_unique sqrt_approx two_frames two_frames_target 2 true true).
  - repeat constructor; simpl; intuition discriminate.
  - intros category columns. unfold two_frames_target. simpl.
    destruct (String.eqb category "E"); [intros E; injection E as <- |];
      [repeat constructor; simpl; tauto |].
    destruct (String.eqb category "A"); [intros E; injection E as <- |];
      [repeat constructor; simpl; tauto | discriminate].
  - vm_compute. reflexivity.
Defined.

(** A column named twice is forecast twice: the rows come in pairs. *)
Example repeated_column_repeats_rows :
  map (fun r => (Year r, Metric r))
      (table_of (run [("A"%string, linear_df)] [("A", ["workers"; "workers"])]%string 1))
  = [(2026, "workers"%string); (2026, "workers"%string)].
Proof. vm_compute. reflexivity. Qed.
